(** * Export conversion pipeline of lib/export.py

    A shallow embedding of the converters and of the conversion engine
    ([ConvertValuesWithMetadata], [ConvertValues]) of lib/export.py, with
    the properties the specification states about them.

    Conventions of the embedding.
    - A Python call either returns or raises: [Result].
    - A generator (a function whose body has [yield]), run to its end, is
      the list of the values it yielded followed by the way it ended:
      [Gen].  Calling a generator function runs nothing of its body, so the
      call itself always returns; what the body raises is raised at the
      consumer.
    - A Python [dict] is an association list; lookups and updates do not
      depend on the order of its entries.  Where the code iterates a dict
      (the class registry, [iterkeys]) the order is that of the hash
      table, which the source does not determine: it is given by a rank
      that is a field of [Env], and so is the order in which the object
      store hands back what it opened.
    - What lives outside lib/export.py (the object store, the hash index,
      library functions and the declarations of export_pb2) is a field of
      [Env] or a definition marked as modelled from the specification.
    - A converter is written on the values of its [input_rdf_type]; the
      registry wraps it to take any value, as the engine hands it only
      values of that class.
    - The security token is threaded unchanged to the object store and is
      never inspected; it is left out. *)

From Stdlib Require Import List String Ascii ZArith Bool Arith Lia Permutation.
From Stdlib Require Import DecimalString Sorted.
Import ListNotations.
Local Open Scope string_scope.
Local Open Scope list_scope.

Set Implicit Arguments.
Set Warnings "-register-all".

(** ** Exceptions, results and generators *)

Inductive PyExc : Type :=
| NotImplementedError
| ValueError (msg : string)
| TypeError
| KeyError
| IndexError
| AttributeError
| UnicodeEncodeError
| IOError
| RuntimeError
| NoConverterFound (msg : string).

Inductive Result (A : Type) : Type :=
| Ok (a : A)
| Raise (e : PyExc).

Arguments Ok {A} a.
Arguments Raise {A} e.

Module Res.
Definition bind {A B} (r : Result A) (k : A -> Result B) : Result B :=
  match r with
  | Ok a => k a
  | Raise e => Raise e
  end.

(** [[f(x) for x in xs]]: the first call that raises ends the
    comprehension. *)
Fixpoint mapM {A B} (f : A -> Result B) (xs : list A) : Result (list B) :=
  match xs with
  | [] => Ok []
  | x :: xs' =>
      bind (f x) (fun y => bind (mapM f xs') (fun ys => Ok (y :: ys)))
  end.
End Res.

(** A generator with yields of type [Y], run to its end. *)
Definition Gen (Y A : Type) : Type := (list Y * Result A)%type.

(** What a converter hands back: a list or a generator, iterated once. *)
Definition Iter (Y : Type) : Type := Gen Y unit.

Module G.
Definition ret {Y A} (a : A) : Gen Y A := ([], Ok a).
Definition raise {Y A} (e : PyExc) : Gen Y A := ([], Raise e).
Definition yield {Y} (y : Y) : Gen Y unit := ([y], Ok tt).

Definition bind {Y A B} (g : Gen Y A) (k : A -> Gen Y B) : Gen Y B :=
  match g with
  | (ys, Ok a) => let '(zs, r) := k a in (ys ++ zs, r)
  | (ys, Raise e) => (ys, Raise e)
  end.

(** An expression evaluated inside a generator body. *)
Definition lift {Y A} (r : Result A) : Gen Y A := ([], r).

(** [for x in xs: body(x)] over a list. *)
Fixpoint for_ {Y X} (xs : list X) (body : X -> Gen Y unit) : Gen Y unit :=
  match xs with
  | [] => ret tt
  | x :: xs' => bind (body x) (fun _ => for_ xs' body)
  end.

(** [for x in CALL: body(x)] where [CALL] may raise when called and the
    iterable it returns may raise while it is iterated. *)
Definition for_in {Y X} (call : Result (Iter X)) (body : X -> Gen Y unit)
  : Gen Y unit :=
  match call with
  | Raise e => raise e
  | Ok (xs, fin) => bind (for_ xs body) (fun _ => lift fin)
  end.

(** A list seen as an iterable. *)
Definition of_list {Y} (ys : list Y) : Iter Y := (ys, Ok tt).

(** The values seen by a consumer and the exception it gets, if any. *)
Definition yields {Y A} (g : Gen Y A) : list Y := fst g.
Definition raised {Y A} (g : Gen Y A) : option PyExc :=
  match snd g with
  | Ok _ => None
  | Raise e => Some e
  end.

(** Calling a generator function: nothing of its body runs, the
    generator object is returned. *)
Definition call {Y} (body : Iter Y) : Result (Iter Y) := Ok body.

(** Sequencing of two traces: the second runs only if the first ended
    normally. *)
Definition app {Y} (g h : Iter Y) : Iter Y := bind g (fun _ => h).

Definition concat {Y} (gs : list (Iter Y)) : Iter Y :=
  fold_right app (ret tt) gs.

(** Iterating the result of a call, as a consumer sees it. *)
Definition consume {Y} (call : Result (Iter Y)) : Iter Y :=
  match call with
  | Raise e => raise e
  | Ok it => it
  end.
End G.

Declare Scope gen_scope.
Delimit Scope gen_scope with gen.
Notation "x <- c ;; k" := (G.bind c (fun x => k))
  (at level 61, c at next level, right associativity) : gen_scope.
Notation "c ;;; k" := (G.bind c (fun _ => k))
  (at level 61, right associativity) : gen_scope.

(** ** Python dictionaries *)

Module Dict.
Section WithKey.
Variables (K V : Type).
Variable eqb : K -> K -> bool.

Definition t := list (K * V).

Fixpoint get (d : t) (k : K) : option V :=
  match d with
  | [] => None
  | (k', v) :: d' => if eqb k' k then Some v else get d' k
  end.

(** [d[k] = v]: an existing key keeps its place. *)
Fixpoint set (d : t) (k : K) (v : V) : t :=
  match d with
  | [] => [(k, v)]
  | (k', v') :: d' =>
      if eqb k' k then (k', v) :: d' else (k', v') :: set d' k v
  end.

(** [dict(pairs)] *)
Definition of_pairs (pairs : list (K * V)) : t :=
  fold_left (fun d kv => set d (fst kv) (snd kv)) pairs [].

Definition keys (d : t) : list K := map fst d.

Definition has_key (d : t) (k : K) : bool :=
  match get d k with
  | Some _ => true
  | None => false
  end.

(** [d[k]], raising [KeyError] *)
Definition getitem (d : t) (k : K) : Result V :=
  match get d k with
  | Some v => Ok v
  | None => Raise KeyError
  end.
End WithKey.

(** On a dictionary of lists: [if k not in d: d[k] = []] followed by
    [d[k].append(x)]. *)
Fixpoint append {K X} (eqb : K -> K -> bool) (d : t K (list X)) (k : K)
    (x : X) : t K (list X) :=
  match d with
  | [] => [(k, [x])]
  | (k', xs) :: d' =>
      if eqb k' k then (k', xs ++ [x]) :: d'
      else (k', xs) :: append eqb d' k x
  end.
End Dict.

(** ** Iteration orders the source does not determine *)

(** Python 2 iterates a dict in the order of its hash table, and the
    object store hands back what it opened in an order of its own.  Such
    an order is modelled by a rank on the items: the items come by
    increasing rank, items of equal rank in the order they were given.
    Every order of distinct items is the order of some rank, and the ranks
    are fields of the environment, so what is proved of the converters
    holds for every such order. *)
Section SortBy.
Variable X : Type.
Variable rank : X -> Z.

Fixpoint insert_by (x : X) (sorted : list X) : list X :=
  match sorted with
  | [] => [x]
  | y :: sorted' =>
      if Z.leb (rank x) (rank y) then x :: y :: sorted'
      else y :: insert_by x sorted'
  end.

Fixpoint sort_by (l : list X) : list X :=
  match l with
  | [] => []
  | x :: l' => insert_by x (sort_by l')
  end.
End SortBy.

(** The place of a name in a list of names. *)
Fixpoint place_in (name : string) (names : list string) : Z :=
  match names with
  | [] => 0
  | name' :: names' =>
      if String.eqb name name' then 0 else 1 + place_in name names'
  end.

(** ** Data model *)

Definition RDFURN : Type := string.
Definition RDFDatetime : Type := Z.
(** Floating point fields are only copied; they are kept as their bits. *)
Definition PyFloat : Type := Z.

(** [ExportedMetadata]: the fields lib/export.py reads or writes. *)
Record ExportedMetadata : Type := mkMetadata {
  timestamp : RDFDatetime;
  source_urn : RDFURN;
  client_urn : RDFURN;
  client_age : RDFDatetime;
  hostname : string;
  os : string;
  uname : string;
  os_release : string;
  os_version : string;
  usernames : string;
  mac_address : string;
  labels : string
}.

Definition set_timestamp (t : RDFDatetime) (m : ExportedMetadata) :=
  mkMetadata t (source_urn m) (client_urn m) (client_age m) (hostname m)
    (os m) (uname m) (os_release m) (os_version m) (usernames m)
    (mac_address m) (labels m).

Definition set_source_urn (u : RDFURN) (m : ExportedMetadata) :=
  mkMetadata (timestamp m) u (client_urn m) (client_age m) (hostname m)
    (os m) (uname m) (os_release m) (os_version m) (usernames m)
    (mac_address m) (labels m).

Definition set_client_urn (u : RDFURN) (m : ExportedMetadata) :=
  mkMetadata (timestamp m) (source_urn m) u (client_age m) (hostname m)
    (os m) (uname m) (os_release m) (os_version m) (usernames m)
    (mac_address m) (labels m).

(** [ExportedMetadata()] *)
Definition ExportedMetadata_default : ExportedMetadata :=
  mkMetadata 0%Z "" "" 0%Z "" "" "" "" "" "" "" "".

Record ExportOptions : Type := mkOptions {
  export_files_hashes : bool;
  export_files_contents : bool
}.

(** [rdfvalue.ExportOptions()] *)
Definition ExportOptions_default : ExportOptions := mkOptions false false.

(** What [DataBlob.GetValue()] hands back for a registry value. *)
Inductive BlobValue : Type :=
| BlobNone
| BlobInteger (z : Z)
| BlobData (bytes : string)
| BlobString (code_points : list N).

Record StatEntry : Type := mkStatEntry {
  aff4path : RDFURN;
  pathspec_basename : string;
  st_mode : Z; st_ino : Z; st_dev : Z; st_nlink : Z; st_uid : Z; st_gid : Z;
  st_size : Z; st_atime : Z; st_mtime : Z; st_ctime : Z; st_blocks : Z;
  st_blksize : Z; st_rdev : Z;
  symlink : string;
  (** [HasField("registry_type")] is [Some _] *)
  registry_type : option Z;
  registry_data : BlobValue
}.

Record NetworkConnection : Type := mkConnection {
  conn_family : Z;
  conn_type : Z;
  conn_local_address : string;
  conn_remote_address : string;
  conn_state : Z;
  conn_pid : Z;
  conn_ctime : Z
}.

Record Process : Type := mkProcess {
  pid : Z; ppid : Z; name : string; exe : string; cmdline : list string;
  ctime : Z; real_uid : Z; effective_uid : Z; saved_uid : Z; real_gid : Z;
  effective_gid : Z; saved_gid : Z; username : string; terminal : string;
  status : string; nice : Z; cwd : string; num_threads : Z;
  user_cpu_time : PyFloat; system_cpu_time : PyFloat; cpu_percent : PyFloat;
  RSS_size : Z; VMS_size : Z; memory_percent : PyFloat;
  connections : list NetworkConnection;
  open_files : list string
}.

Record FileStoreHash : Type := mkFileStoreHash {
  fsh_urn : RDFURN;
  hash_value : string;
  fingerprint_type : string;
  hash_type : string
}.

(** A cell of a Volatility table: [value.svalue] and [value.value]. *)
Record VolatilityValue : Type := mkVolatilityValue {
  svalue : string;
  value : Z
}.

(** [section.table] of a [VolatilityResult]: the header names and the rows. *)
Record VolatilityTable : Type := mkVolatilityTable {
  headers : list string;
  rows : list (list VolatilityValue)
}.

Inductive Family : Type :=
| INET
| INET6
| OtherFamily (n : Z).

Record NetworkAddress : Type := mkNetworkAddress {
  address_type : Family;
  human_readable_address : string
}.

Record Interface : Type := mkInterface {
  ifname : string;
  addresses : list NetworkAddress;
  (** [interface.mac_address.human_readable_address], when the address is
      set *)
  if_mac_address : option string
}.

(** The [Hash] attribute of a file object; [None] is an unset field. *)
Record Hash : Type := mkHash {
  md5 : option string;
  sha1 : option string;
  sha256 : option string;
  pecoff_md5 : option string;
  pecoff_sha1 : option string;
  signed_data : option string
}.

(** An object of the AFF4 store, as lib/export.py uses one. *)
Record AFF4Object : Type := mkAFF4Object {
  urn : RDFURN;
  urn_age : RDFDatetime;
  aff4_class : string;
  HASH : option Hash;
  STAT : option StatEntry;
  (** the outcome of [Read(n)], given [n] *)
  Read : nat -> Result string;
  HOSTNAME : option string;
  SYSTEM : option string;
  UNAME : option string;
  OS_RELEASE : option string;
  OS_VERSION : option string;
  USERNAMES : option string;
  MAC_ADDRESS : option string;
  (** the labels of [CLIENT_INFO] *)
  CLIENT_INFO : option (list string)
}.

(** The values given to the engine.  [AFF4_ fd items] is an object opened
    from the store, of class [aff4_class fd]; [items] is what iterating it
    gives (the members of an [RDFValueCollection]).  [Other_ cls] is a
    value of a class lib/export.py does not look into. *)
Inductive Value : Type :=
| StatEntry_ (stat_entry : StatEntry)
| Process_ (process : Process)
| VolatilityResult_ (sections : list VolatilityTable)
| ClientSummary_ (interfaces : list Interface)
| RDFURN_ (u : RDFURN)
| GrrMessage_ (source : RDFURN) (payload : Value)
| FileStoreHash_ (h : FileStoreHash)
| AFF4_ (fd : AFF4Object) (items : list Value)
| Other_ (cls : string).

(** [value.__class__.__name__] *)
Definition class_name (v : Value) : string :=
  match v with
  | StatEntry_ _ => "StatEntry"
  | Process_ _ => "Process"
  | VolatilityResult_ _ => "VolatilityResult"
  | ClientSummary_ _ => "ClientSummary"
  | RDFURN_ _ => "RDFURN"
  | GrrMessage_ _ _ => "GrrMessage"
  | FileStoreHash_ _ => "FileStoreHash"
  | AFF4_ fd _ => aff4_class fd
  | Other_ cls => cls
  end.

(** An object as the store hands it back. *)
Definition Opened : Type := (AFF4Object * list Value)%type.

(** *** Output records *)

Record ExportedFile : Type := mkExportedFile {
  ef_metadata : ExportedMetadata;
  ef_urn : RDFURN;
  ef_basename : string;
  ef_st_mode : Z; ef_st_ino : Z; ef_st_dev : Z; ef_st_nlink : Z;
  ef_st_uid : Z; ef_st_gid : Z; ef_st_size : Z; ef_st_atime : Z;
  ef_st_mtime : Z; ef_st_ctime : Z; ef_st_blocks : Z; ef_st_blksize : Z;
  ef_st_rdev : Z;
  ef_symlink : string;
  hash_md5 : option string;
  hash_sha1 : option string;
  hash_sha256 : option string;
  pecoff_hash_md5 : option string;
  pecoff_hash_sha1 : option string;
  content : option string;
  content_sha256 : option string
}.

Record ExportedRegistryKey : Type := mkExportedRegistryKey {
  rk_metadata : ExportedMetadata;
  rk_urn : RDFURN;
  rk_last_modified : Z;
  rk_type : option Z;
  rk_data : string
}.

Record ExportedProcess : Type := mkExportedProcess {
  ep_metadata : ExportedMetadata;
  ep_pid : Z; ep_ppid : Z; ep_name : string; ep_exe : string;
  ep_cmdline : string; ep_ctime : Z; ep_real_uid : Z; ep_effective_uid : Z;
  ep_saved_uid : Z; ep_real_gid : Z; ep_effective_gid : Z; ep_saved_gid : Z;
  ep_username : string; ep_terminal : string; ep_status : string;
  ep_nice : Z; ep_cwd : string; ep_num_threads : Z;
  ep_user_cpu_time : PyFloat; ep_system_cpu_time : PyFloat;
  ep_cpu_percent : PyFloat; ep_rss_size : Z; ep_vms_size : Z;
  ep_memory_percent : PyFloat
}.

Record ExportedNetworkConnection : Type := mkExportedNetworkConnection {
  nc_metadata : ExportedMetadata;
  nc_family : Z; nc_type : Z; nc_local_address : string;
  nc_remote_address : string; nc_state : Z; nc_pid : Z; nc_ctime : Z
}.

Record ExportedOpenFile : Type := mkExportedOpenFile {
  of_metadata : ExportedMetadata;
  of_pid : Z;
  of_path : string
}.

Record ExportedNetworkInterface : Type := mkExportedNetworkInterface {
  ni_metadata : ExportedMetadata;
  ni_ifname : string;
  ni_ip4_addresses : string;
  ni_ip6_addresses : string;
  ni_mac_address : option string
}.

Record ExportedClient : Type := mkExportedClient {
  ec_metadata : ExportedMetadata
}.

Record ExportedFileStoreHash : Type := mkExportedFileStoreHash {
  fh_metadata : ExportedMetadata;
  fh_hash : string;
  fh_fingerprint_type : string;
  fh_hash_type : string;
  fh_target_urn : RDFURN
}.

(** An output record of a Volatility converter: the fields set so far, by
    name, each a string or a number. *)
Record ExportedVolatility : Type := mkExportedVolatility {
  ev_class : string;
  ev_metadata : ExportedMetadata;
  ev_fields : list (string * (string + Z))
}.

Inductive Exported : Type :=
| ExportedFile_ (r : ExportedFile)
| ExportedRegistryKey_ (r : ExportedRegistryKey)
| ExportedProcess_ (r : ExportedProcess)
| ExportedNetworkConnection_ (r : ExportedNetworkConnection)
| ExportedOpenFile_ (r : ExportedOpenFile)
| ExportedVolatility_ (r : ExportedVolatility)
| ExportedNetworkInterface_ (r : ExportedNetworkInterface)
| ExportedClient_ (r : ExportedClient)
| ExportedFileStoreHash_ (r : ExportedFileStoreHash).

Definition Pair : Type := (ExportedMetadata * Value)%type.

(** ** Collaborators outside lib/export.py *)

(** An output record class: its name and its fields, those holding a
    string and the others. *)
Record OutputClass : Type := mkOutputClass {
  out_name : string;
  out_string_fields : list string;
  out_other_fields : list string
}.

(** The object store, the hash index and the library functions and
    declarations the converters use. *)
Record Env : Type := mkEnv {
  (** the object stored at an address, if any *)
  store : RDFURN -> option Opened;
  (** [filestore.HashFileStore.GetHitsForHashes] *)
  GetHitsForHashes : list FileStoreHash -> list (FileStoreHash * list RDFURN);
  (** [hashlib.sha256(data).hexdigest()] *)
  sha256_hexdigest : string -> string;
  (** [rdfvalue.RDFDatetime().Now()] *)
  Now : RDFDatetime;
  (** [str(value)] of a value given to the engine *)
  str_of_value : Value -> string;
  (** [rdfvalue.RDFURN(u).Split(count)] *)
  Split : RDFURN -> nat -> list string;
  (** [rdfvalue.ExportedVolatilityHandle], [rdfvalue.ExportedVolatilityMutant] *)
  ExportedVolatilityHandle : OutputClass;
  ExportedVolatilityMutant : OutputClass;
  (** the place of a converter class, by its name, in
      [ExportConverter.classes.itervalues()], the iteration of a dict keyed
      by class names *)
  class_rank : string -> Z;
  (** the place of a key in the iteration ([iterkeys]) of a dict keyed by
      addresses *)
  key_rank : RDFURN -> Z;
  (** the place of an object, by its address, in what [MultiOpen] hands
      back *)
  open_rank : RDFURN -> Z
}.

(** Modelled from the spec: [aff4.FACTORY.MultiOpen], whose code is not in
    lib/export.py.  "OpenMany(sequence of addresses) -> sequence of opened
    objects, read-only, batched; a missing address is simply absent from
    the result (not an error)."  The spec gives the sequence no order: the
    objects come by [open_rank]. *)
Definition MultiOpen (env : Env) (urns : list RDFURN) : list Opened :=
  sort_by (fun fd : Opened => open_rank env (urn (fst fd)))
    (flat_map (fun u => match store env u with
                        | Some fd => [fd]
                        | None => []
                        end) urns).

(** [d.iterkeys()] of a dict keyed by addresses: the keys in the order of
    the hash table. *)
Definition iterkeys (env : Env) {V : Type} (d : Dict.t RDFURN V)
  : list RDFURN :=
  sort_by (key_rank env) (Dict.keys d).

(** Modelled from the spec: [utils.GroupBy], whose code is not in
    lib/export.py.  "partition the input pairs by runtime type tag,
    preserving relative order within each group from the original input
    sequence", the groups in "first-seen order of distinct type tags". *)
Definition GroupBy {X : Type} (items : list X) (key : X -> string)
  : Dict.t string (list X) :=
  fold_left (fun d x => Dict.append String.eqb d (key x) x) items [].

(** Modelled from the spec: [utils.Grouper], whose code is not in
    lib/export.py.  "split the collection into fixed-size sub-batches":
    consecutive runs of [n] items, the last one shorter when the length is
    not a multiple of [n]. *)
Section Grouper.
Variables (X : Type).

Fixpoint Grouper_from (n : nat) (items : list X) (rest : list X)
  : list (list X) :=
  match rest with
  | [] => match items with
          | [] => []
          | _ => [items]
          end
  | x :: rest' =>
      let items' := items ++ [x] in
      if Nat.eqb (List.length items') n then items' :: Grouper_from n [] rest'
      else Grouper_from n items' rest'
  end.

Definition Grouper (iterable : list X) (n : nat) : list (list X) :=
  Grouper_from n [] iterable.
End Grouper.

(** The sizes of the sub-batches of [len] items: batches of [n] while
    more than [n] items remain, then what is left. *)
Fixpoint batch_sizes_upto (fuel n len : nat) : list nat :=
  match fuel with
  | O => []
  | S fuel' =>
      if Nat.eqb len 0 then []
      else if Nat.leb len n then [len]
      else n :: batch_sizes_upto fuel' n (len - n)
  end.

Definition batch_sizes (n len : nat) : list nat := batch_sizes_upto len n len.

(** ** Python built-ins used on registry data *)

(** [str(v)]: a unicode string goes through the ASCII codec. *)
Definition py_str (v : BlobValue) : Result string :=
  match v with
  | BlobNone => Ok "None"
  | BlobInteger z => Ok (NilZero.string_of_int (Z.to_int z))
  | BlobData bytes => Ok bytes
  | BlobString cps =>
      if forallb (fun c => N.ltb c 128) cps
      then Ok (string_of_list_ascii (map ascii_of_N cps))
      else Raise UnicodeEncodeError
  end.

(** [unicode(v)] *)
Definition py_unicode (v : BlobValue) : Result (list N) :=
  match v with
  | BlobString cps => Ok cps
  | _ => Res.bind (py_str v)
           (fun s => Ok (map N_of_ascii (list_ascii_of_string s)))
  end.

(** [u.encode("utf-16be")] *)
Definition encode_utf_16be (cps : list N) : string :=
  let unit16 (w : N) := [ascii_of_N (N.shiftr w 8); ascii_of_N (N.land w 255)] in
  string_of_list_ascii
    (flat_map (fun c =>
       if N.ltb c 65536 then unit16 c
       else let c' := (c - 65536)%N in
            unit16 (55296 + N.shiftr c' 10)%N ++
            unit16 (56320 + N.land c' 1023)%N) cps).

(** ** The base class [ExportConverter] *)

(** The positional arguments of a constructor call, after [self]. *)
Definition Args : Type := list (option ExportOptions).

(** [ExportConverter.__init__(self, options=None)]; the value is
    [self.options]. *)
Definition ExportConverter_init (args : Args) : Result ExportOptions :=
  match args with
  | [] => Ok ExportOptions_default
  | [Some options] => Ok options
  | [None] => Ok ExportOptions_default
  | _ => Raise TypeError
  end.

Section DefaultBatchConvert.
Variables (V : Type).
(** [self.Convert] of the converter at hand *)
Variable Convert : ExportedMetadata -> V -> Result (Iter Exported).

(** [ExportConverter.BatchConvert], a generator. *)
Definition ExportConverter_BatchConvert
    (metadata_value_pairs : list (ExportedMetadata * V)) : Iter Exported :=
  G.for_ metadata_value_pairs (fun '(metadata, value) =>
    G.for_in (Convert metadata value) (fun result => G.yield result)).
End DefaultBatchConvert.

(** An instance, as the engine uses one. *)
Record Converter : Type := mkConverter {
  BatchConvert : list Pair -> Result (Iter Exported)
}.

(** A registered converter class. *)
Record ConverterClass : Type := mkClass {
  cls_name : string;
  input_rdf_type : string;
  (** the call [cls(...)] with these arguments *)
  construct : Args -> Result Converter
}.

(** ** Converters of [StatEntry] *)

Section StatEntryToExportedFileConverter.
Variable env : Env.
(** [self.options] *)
Variable options : ExportOptions.

Definition MAX_CONTENT_SIZE : nat := 1024 * 64.

(** [ParseSignedData]: its body is its docstring. *)
Definition ParseSignedData (signed_data : string) (result : ExportedFile)
  : ExportedFile := result.

Definition ParseFileHash (hash_obj : Hash) (result : ExportedFile)
  : ExportedFile :=
  let upd (field : option string) (old : option string) :=
    match field with
    | Some x => Some x
    | None => old
    end in
  let result :=
    mkExportedFile (ef_metadata result) (ef_urn result) (ef_basename result)
      (ef_st_mode result) (ef_st_ino result) (ef_st_dev result)
      (ef_st_nlink result) (ef_st_uid result) (ef_st_gid result)
      (ef_st_size result) (ef_st_atime result) (ef_st_mtime result)
      (ef_st_ctime result) (ef_st_blocks result) (ef_st_blksize result)
      (ef_st_rdev result) (ef_symlink result)
      (upd (md5 hash_obj) (hash_md5 result))
      (upd (sha1 hash_obj) (hash_sha1 result))
      (upd (sha256 hash_obj) (hash_sha256 result))
      (upd (pecoff_md5 hash_obj) (pecoff_hash_md5 result))
      (upd (pecoff_sha1 hash_obj) (pecoff_hash_sha1 result))
      (content result) (content_sha256 result) in
  match signed_data hash_obj with
  | Some d => ParseSignedData d result
  | None => result
  end.

(** [result.content = c; result.content_sha256 = digest] *)
Definition set_content (c digest : string) (result : ExportedFile)
  : ExportedFile :=
  mkExportedFile (ef_metadata result) (ef_urn result) (ef_basename result)
    (ef_st_mode result) (ef_st_ino result) (ef_st_dev result)
    (ef_st_nlink result) (ef_st_uid result) (ef_st_gid result)
    (ef_st_size result) (ef_st_atime result) (ef_st_mtime result)
    (ef_st_ctime result) (ef_st_blocks result) (ef_st_blksize result)
    (ef_st_rdev result) (ef_symlink result)
    (hash_md5 result) (hash_sha1 result) (hash_sha256 result)
    (pecoff_hash_md5 result) (pecoff_hash_sha1 result)
    (Some c) (Some digest).

(** [ExportedFile(metadata=metadata, urn=stat_entry.aff4path, ...)] *)
Definition ExportedFile_of (metadata : ExportedMetadata)
    (stat_entry : StatEntry) : ExportedFile :=
  mkExportedFile metadata (aff4path stat_entry)
    (pathspec_basename stat_entry)
    (st_mode stat_entry) (st_ino stat_entry) (st_dev stat_entry)
    (st_nlink stat_entry) (st_uid stat_entry) (st_gid stat_entry)
    (st_size stat_entry) (st_atime stat_entry) (st_mtime stat_entry)
    (st_ctime stat_entry) (st_blocks stat_entry) (st_blksize stat_entry)
    (st_rdev stat_entry) (symlink stat_entry)
    None None None None None None None.

Definition wants_store : bool :=
  export_files_hashes options || export_files_contents options.

(** The [try: ... except KeyError: pass] block run on one result. *)
Definition fill_from_store (fds_dict : Dict.t RDFURN Opened)
    (stat_entry : StatEntry) (result : ExportedFile)
  : Result ExportedFile :=
  match Dict.get String.eqb fds_dict (aff4path stat_entry) with
  | None => Ok result
  | Some (aff4_object, _) =>
      let result :=
        if export_files_hashes options then
          match HASH aff4_object with
          | Some hash_obj => ParseFileHash hash_obj result
          | None => result
          end
        else result in
      if export_files_contents options then
        match Read aff4_object MAX_CONTENT_SIZE with
        | Ok c => Ok (set_content c (sha256_hexdigest env c) result)
        | Raise IOError => Ok result
        | Raise AttributeError => Ok result
        | Raise KeyError => Ok result
        | Raise e => Raise e
        end
      else Ok result
  end.

(** [StatEntryToExportedFileConverter.BatchConvert], a generator. *)
Definition StatEntryToExportedFileConverter_BatchConvert
    (metadata_value_pairs : list (ExportedMetadata * StatEntry))
  : Iter Exported :=
  let filtered_pairs :=
    filter (fun '(_, stat_entry) =>
              match registry_type stat_entry with
              | Some _ => false
              | None => true
              end) metadata_value_pairs in
  let fds_dict :=
    if wants_store then
      let aff4_paths :=
        map (fun '(_, stat_entry) => aff4path stat_entry)
          metadata_value_pairs in
      let fds := MultiOpen env aff4_paths in
      Dict.of_pairs String.eqb (map (fun fd => (urn (fst fd), fd)) fds)
    else [] in
  G.for_ filtered_pairs (fun '(metadata, stat_entry) =>
    let result := ExportedFile_of metadata stat_entry in
    (result <- G.lift (if wants_store
                       then fill_from_store fds_dict stat_entry result
                       else Ok result) ;;
     G.yield (ExportedFile_ result))%gen).

Definition StatEntryToExportedFileConverter_Convert
    (metadata : ExportedMetadata) (stat_entry : StatEntry)
  : Result (Iter Exported) :=
  Ok (StatEntryToExportedFileConverter_BatchConvert [(metadata, stat_entry)]).
End StatEntryToExportedFileConverter.

(** [stat.registry_data]: [stat] is the standard module imported at the
    top of lib/export.py (the argument is named [stat_entry]), and that
    module has no attribute [registry_data]. *)
Definition stat_module_registry_data : Result BlobValue := Raise AttributeError.

(** [StatEntryToExportedRegistryKeyConverter.Convert] *)
Definition StatEntryToExportedRegistryKeyConverter_Convert
    (metadata : ExportedMetadata) (stat_entry : StatEntry)
  : Result (Iter Exported) :=
  match registry_type stat_entry with
  | None => Ok (G.of_list [])
  | Some _ =>
      let result data :=
        mkExportedRegistryKey metadata (aff4path stat_entry)
          (st_mtime stat_entry) (registry_type stat_entry) data in
      Res.bind
        (match py_str (registry_data stat_entry) with
         | Raise UnicodeEncodeError =>
             Res.bind stat_module_registry_data (fun data =>
             Res.bind (py_unicode data) (fun data =>
             Ok (encode_utf_16be data)))
         | r => r
         end)
        (fun data => Ok (G.of_list [ExportedRegistryKey_ (result data)]))
  end.

(** ** Converters of [Process] *)

(** [" ".join(words)] *)
Definition join (sep : string) (words : list string) : string :=
  String.concat sep words.

Definition ProcessToExportedProcessConverter_Convert
    (metadata : ExportedMetadata) (process : Process)
  : Result (Iter Exported) :=
  let result :=
    mkExportedProcess metadata (pid process) (ppid process) (name process)
      (exe process) (join " " (cmdline process)) (ctime process)
      (real_uid process) (effective_uid process) (saved_uid process)
      (real_gid process) (effective_gid process) (saved_gid process)
      (username process) (terminal process) (status process) (nice process)
      (cwd process) (num_threads process) (user_cpu_time process)
      (system_cpu_time process) (cpu_percent process) (RSS_size process)
      (VMS_size process) (memory_percent process) in
  Ok (G.of_list [ExportedProcess_ result]).

(** A generator. *)
Definition ProcessToExportedNetworkConnectionConverter_Convert
    (metadata : ExportedMetadata) (process : Process)
  : Result (Iter Exported) :=
  Ok (G.for_ (connections process) (fun conn =>
        G.yield (ExportedNetworkConnection_
          (mkExportedNetworkConnection metadata (conn_family conn)
             (conn_type conn) (conn_local_address conn)
             (conn_remote_address conn) (conn_state conn) (conn_pid conn)
             (conn_ctime conn))))).

(** A generator. *)
Definition ProcessToExportedOpenFileConverter_Convert
    (metadata : ExportedMetadata) (process : Process)
  : Result (Iter Exported) :=
  Ok (G.for_ (open_files process) (fun f =>
        G.yield (ExportedOpenFile_
          (mkExportedOpenFile metadata (pid process) f)))).

(** ** Converters of [VolatilityResult] *)

(** The class attributes a Volatility converter class declares. *)
Record VolatilityClass : Type := mkVolatilityClass {
  mapping : option (Dict.t string string);
  output_rdf_cls : option OutputClass
}.

Section VolatilityResultConverter.
(** the class of [self] *)
Variable cls : VolatilityClass.

(** [VolatilityResultConverter.__init__(self)]: no parameter besides
    [self]. *)
Definition VolatilityResultConverter_init (args : Args) : Result ExportOptions :=
  match args with
  | [] =>
      Res.bind (ExportConverter_init []) (fun options =>
      match mapping cls with
      | None | Some [] => Raise (ValueError "Mapping not specified.")
      | Some _ =>
          match output_rdf_cls cls with
          | None => Raise (ValueError "output_rdf_cls not specified")
          | Some _ => Ok options
          end
      end)
  | _ => Raise TypeError
  end.

(** [tuple(self.mapping[h.name] for h in section.table.headers)] *)
Definition mapped_headers (table : VolatilityTable) : Result (list string) :=
  Res.mapM (fun h =>
    match mapping cls with
    | Some m => Dict.getitem String.eqb m h
    | None => Raise TypeError
    end) (headers table).

(** One turn of the loop over [zip(headers, row.values)]. *)
Definition set_cell (out_cls : OutputClass) (out_rdf : ExportedVolatility)
    (attr : string) (v : VolatilityValue) : Result ExportedVolatility :=
  let put x :=
    mkExportedVolatility (ev_class out_rdf) (ev_metadata out_rdf)
      (Dict.set String.eqb (ev_fields out_rdf) attr x) in
  if existsb (String.eqb attr) (out_string_fields out_cls)
  then Ok (put (inl (svalue v)))
  else if existsb (String.eqb attr) (out_other_fields out_cls)
  then Ok (put (inr (value v)))
  else Raise AttributeError.

Fixpoint set_cells (out_cls : OutputClass) (out_rdf : ExportedVolatility)
    (cells : list (string * VolatilityValue)) : Result ExportedVolatility :=
  match cells with
  | [] => Ok out_rdf
  | (attr, v) :: cells' =>
      Res.bind (set_cell out_cls out_rdf attr v)
        (fun out_rdf => set_cells out_cls out_rdf cells')
  end.

(** [VolatilityResultConverter.Convert], a generator. *)
Definition VolatilityResultConverter_Convert (metadata : ExportedMetadata)
    (volatility_result : list VolatilityTable) : Iter Exported :=
  G.for_ volatility_result (fun table =>
    match mapped_headers table with
    | Raise KeyError => G.ret tt
    | Raise e => G.raise e
    | Ok hs =>
        match rows table with
        | [] => G.ret tt
        | rs =>
            G.for_ rs (fun row =>
              match output_rdf_cls cls with
              | None => G.raise TypeError
              | Some out_cls =>
                  (out_rdf <- G.lift
                     (set_cells out_cls
                        (mkExportedVolatility (out_name out_cls) metadata [])
                        (combine hs row)) ;;
                   G.yield (ExportedVolatility_ out_rdf))%gen
              end)
        end
    end).
End VolatilityResultConverter.

Definition VolatilityResultToExportedVolatilityHandleConverter (env : Env)
  : VolatilityClass :=
  mkVolatilityClass
    (Some [("offset_v", "offset"); ("pid", "pid"); ("handle", "handle");
           ("access", "access"); ("obj_type", "type"); ("details", "path")])
    (Some (ExportedVolatilityHandle env)).

Definition VolatilityResultToExportedVolatilityMutantConverter (env : Env)
  : VolatilityClass :=
  mkVolatilityClass
    (Some [("offset_p", "offset"); ("ptr_count", "ptr_count");
           ("hnd_count", "handle_count"); ("mutant_signal", "signal");
           ("mutant_thread", "thread"); ("cid", "cid");
           ("mutant_name", "name")])
    (Some (ExportedVolatilityMutant env)).

(** The abstract base class itself: [mapping = None],
    [output_rdf_cls = None]. *)
Definition VolatilityResultConverter : VolatilityClass :=
  mkVolatilityClass None None.

(** ** Converters of [ClientSummary] *)

(** The loop over [interface.addresses]: the IPv4 and the IPv6 addresses. *)
Fixpoint split_addresses (addrs : list NetworkAddress)
    (ip4_addresses ip6_addresses : list string)
  : Result (list string * list string) :=
  match addrs with
  | [] => Ok (ip4_addresses, ip6_addresses)
  | addr :: addrs' =>
      match address_type addr with
      | INET =>
          split_addresses addrs'
            (ip4_addresses ++ [human_readable_address addr]) ip6_addresses
      | INET6 =>
          split_addresses addrs' ip4_addresses
            (ip6_addresses ++ [human_readable_address addr])
      | OtherFamily _ => Raise (ValueError "Invalid address type: %s")
      end
  end.

(** [ClientSummaryToExportedNetworkInterfaceConverter.Convert], a
    generator. *)
Definition ClientSummaryToExportedNetworkInterfaceConverter_Convert
    (metadata : ExportedMetadata) (client_summary : list Interface)
  : Iter Exported :=
  G.for_ client_summary (fun interface =>
    (ips <- G.lift (split_addresses (addresses interface) [] []) ;;
     G.yield (ExportedNetworkInterface_
       (mkExportedNetworkInterface metadata (ifname interface)
          (join " " (fst ips)) (join " " (snd ips))
          (if_mac_address interface))))%gen).

Definition ClientSummaryToExportedClientConverter_Convert
    (metadata : ExportedMetadata) (unused_client_summary : list Interface)
  : Result (Iter Exported) :=
  Ok (G.of_list [ExportedClient_ (mkExportedClient metadata)]).

(** ** Converter of [VFSFile] *)

Definition VFSFileToExportedFileConverter_Convert
    (metadata : ExportedMetadata) (vfs_file : AFF4Object)
  : Result (Iter Exported) :=
  match STAT vfs_file with
  | None => Ok (G.of_list [])
  | Some stat_entry =>
      let result := ExportedFile_of metadata stat_entry in
      let result :=
        match HASH vfs_file with
        | Some hash_obj => ParseFileHash hash_obj result
        | None => result
        end in
      Ok (G.of_list [ExportedFile_ result])
  end.

(** ** Converter of [ExportedFileStoreImage] *)

(** [FileStoreImageToExportedFileStoreHashConverter.BatchConvert]: its body
    is [raise NotImplementedError()]. *)
Definition FileStoreImageToExportedFileStoreHashConverter_BatchConvert
    (metadata_value_pairs : list Pair) : Result (Iter Exported) :=
  Raise NotImplementedError.

(** ** Converters that re-enter the engine *)

Section RDFURNConverter.
Variable env : Env.
(** the engine, [ConvertValuesWithMetadata], which is a generator *)
Variable ConvertValuesWithMetadata :
  list Pair -> option ExportOptions -> Iter Exported.

(** The part of [RDFURNConverter.BatchConvert] before its [try]: the
    value of [batch]. *)
Definition RDFURNConverter_batch (metadata_value_pairs : list Pair)
  : Result (list Pair) :=
  let urn_metadata_pairs :=
    flat_map (fun '(metadata, v) =>
                match v with
                | RDFURN_ u => [(u, metadata)]
                | _ => []
                end) metadata_value_pairs in
  let urns_dict := Dict.of_pairs String.eqb urn_metadata_pairs in
  let fds := MultiOpen env (iterkeys env urns_dict) in
  Res.mapM (fun fd : Opened =>
    Res.bind (Dict.getitem String.eqb urns_dict (urn (fst fd)))
      (fun metadata => Ok (metadata, AFF4_ (fst fd) (snd fd)))) fds.

(** [RDFURNConverter.BatchConvert]: not a generator, it returns.  The
    [try] block holds the call of the engine, a generator function. *)
Definition RDFURNConverter_BatchConvert (metadata_value_pairs : list Pair)
  : Result (Iter Exported) :=
  Res.bind (RDFURNConverter_batch metadata_value_pairs) (fun batch =>
    match G.call (ConvertValuesWithMetadata batch None) with
    | Ok converted => Ok converted
    | Raise (NoConverterFound e) => Ok (G.of_list [])
    | Raise e => Raise e
    end).

Definition RDFURNConverter_Convert (metadata : ExportedMetadata)
    (v : Value) : Result (Iter Exported) :=
  RDFURNConverter_BatchConvert [(metadata, v)].
End RDFURNConverter.

Definition BATCH_SIZE : nat := 1000.

Section RDFValueCollectionConverter.
(** [ConvertValues] of the engine *)
Variable ConvertValues :
  ExportedMetadata -> list Value -> option ExportOptions ->
  Result (Iter Exported).
(** [self.options] and [self.BATCH_SIZE] *)
Variable options : ExportOptions.
Variable self_BATCH_SIZE : nat.

(** [RDFValueCollectionConverter.Convert], a generator; [collection] is
    what iterating the collection gives. *)
Definition RDFValueCollectionConverter_Convert
    (metadata : ExportedMetadata) (collection : list Value)
  : Iter Exported :=
  match collection with
  | [] => G.ret tt
  | _ =>
      G.for_ (Grouper collection self_BATCH_SIZE) (fun batch =>
        let converted_batch := ConvertValues metadata batch (Some options) in
        G.for_in converted_batch (fun v => G.yield v))
  end.
End RDFValueCollectionConverter.

(** [utils.SmartUnicode(client_fd.Get(attribute, u""))] *)
Definition Get_or_empty (attribute : option string) : string :=
  match attribute with
  | Some s => s
  | None => ""
  end.

(** [GetMetadata], called on an opened client object (the only call
    lib/export.py makes). *)
Definition GetMetadata (env : Env) (client_fd : AFF4Object) : ExportedMetadata :=
  mkMetadata (Now env) (source_urn ExportedMetadata_default)
    (urn client_fd) (urn_age client_fd)
    (Get_or_empty (HOSTNAME client_fd)) (Get_or_empty (SYSTEM client_fd))
    (Get_or_empty (UNAME client_fd)) (Get_or_empty (OS_RELEASE client_fd))
    (Get_or_empty (OS_VERSION client_fd)) (Get_or_empty (USERNAMES client_fd))
    (Get_or_empty (MAC_ADDRESS client_fd))
    (match CLIENT_INFO client_fd with
     | Some client_labels => join "," client_labels
     | None => labels ExportedMetadata_default
     end).

(** A [GrrMessage]: its source and its payload. *)
Definition GrrMessage : Type := (RDFURN * Value)%type.

Section GrrMessageConverter.
Variable env : Env.
(** [ExportConverter.GetConvertersByValue] *)
Variable GetConvertersByValue : Value -> list ConverterClass.
(** [self.options] *)
Variable options : ExportOptions.

(** [self.cached_metadata] *)
Definition Cache : Type := Dict.t RDFURN ExportedMetadata.

(** The messages grouped by source. *)
Definition group_by_source
    (metadata_value_pairs : list (ExportedMetadata * GrrMessage))
  : Dict.t RDFURN (list (ExportedMetadata * GrrMessage)) :=
  fold_left (fun msg_dict pair =>
               Dict.append String.eqb msg_dict (fst (snd pair)) pair)
    metadata_value_pairs [].

(** The loop over [msg_dict.iterkeys()]: the metadata found in the cache
    and the clients left to fetch. *)
Definition split_cached (cached_metadata : Cache) (client_urns : list RDFURN)
  : list ExportedMetadata * list RDFURN :=
  fold_left (fun '(metadata_objects, metadata_to_fetch) client_urn =>
               match Dict.get String.eqb cached_metadata client_urn with
               | Some m => (metadata_objects ++ [m], metadata_to_fetch)
               | None => (metadata_objects, metadata_to_fetch ++ [client_urn])
               end) client_urns ([], []).

(** [self.cached_metadata[metadata.client_urn] = metadata] *)
Definition cache_put (cached_metadata : Cache) (metadata : ExportedMetadata)
  : Cache :=
  Dict.set String.eqb cached_metadata (client_urn metadata) metadata.

(** The [if metadata_to_fetch:] block: what was fetched and the cache
    afterwards. *)
Definition fetch_metadata (cached_metadata : Cache)
    (metadata_to_fetch : list RDFURN) : list ExportedMetadata * Cache :=
  match metadata_to_fetch with
  | [] => ([], cached_metadata)
  | _ =>
      let client_fds := MultiOpen env metadata_to_fetch in
      let fetched_metadata :=
        map (fun client_fd : Opened => GetMetadata env (fst client_fd))
          client_fds in
      (fetched_metadata, fold_left cache_put fetched_metadata cached_metadata)
  end.

(** [new_metadata] of one message *)
Definition new_metadata_of (metadata original_metadata : ExportedMetadata)
  : ExportedMetadata :=
  set_timestamp (timestamp original_metadata)
    (set_source_urn (source_urn original_metadata) metadata).

(** The loop that builds [batch_data]. *)
Definition build_batch_data
    (msg_dict : Dict.t RDFURN (list (ExportedMetadata * GrrMessage)))
    (metadata_objects : list ExportedMetadata) : list Pair :=
  flat_map (fun metadata =>
    match Dict.get String.eqb msg_dict (client_urn metadata) with
    | None => []
    | Some msgs =>
        map (fun '(original_metadata, message) =>
               (new_metadata_of metadata original_metadata, snd message))
          msgs
    end) metadata_objects.

(** [batch_data] and the cache after the lookup. *)
Definition batch_data_of (cached_metadata : Cache)
    (metadata_value_pairs : list (ExportedMetadata * GrrMessage))
  : list Pair * Cache :=
  let msg_dict := group_by_source metadata_value_pairs in
  let '(metadata_objects, metadata_to_fetch) :=
    split_cached cached_metadata (iterkeys env msg_dict) in
  let '(fetched_metadata, cached_metadata) :=
    fetch_metadata cached_metadata metadata_to_fetch in
  let metadata_objects := metadata_objects ++ fetched_metadata in
  (build_batch_data msg_dict metadata_objects, cached_metadata).

(** The loop of [converted_batch.extend(...)]. *)
Fixpoint convert_with (converters : list Converter) (batch_data : list Pair)
  : Result (list Exported) :=
  match converters with
  | [] => Ok []
  | converter :: converters' =>
      match G.consume (BatchConvert converter batch_data) with
      | (ys, Ok _) =>
          Res.bind (convert_with converters' batch_data)
            (fun zs => Ok (ys ++ zs))
      | (_, Raise e) => Raise e
      end
  end.

(** [GrrMessageConverter.BatchConvert]: the value returned, or the
    exception, and [self.cached_metadata] afterwards. *)
Definition GrrMessageConverter_BatchConvert (cached_metadata : Cache)
    (metadata_value_pairs : list (ExportedMetadata * GrrMessage))
  : Result (list Exported) * Cache :=
  match metadata_value_pairs with
  | [] => (Raise IndexError, cached_metadata)
  | (_, first_message) :: _ =>
      let converters_classes := GetConvertersByValue (snd first_message) in
      match Res.mapM (fun cls => construct cls [Some options])
              converters_classes with
      | Raise e => (Raise e, cached_metadata)
      | Ok converters =>
          let '(batch_data, cached_metadata) :=
            batch_data_of cached_metadata metadata_value_pairs in
          (convert_with converters batch_data, cached_metadata)
      end
  end.
End GrrMessageConverter.

Section FileStoreHashConverter.
Variable env : Env.

(** [xs[0]] *)
Definition first_item {X} (xs : list X) : Result X :=
  match xs with
  | x :: _ => Ok x
  | [] => Raise IndexError
  end.

Definition fsh_eqb (a b : FileStoreHash) : bool :=
  String.eqb (fsh_urn a) (fsh_urn b).

(** [FileStoreHashConverter.BatchConvert]: it returns a list. *)
Definition FileStoreHashConverter_BatchConvert
    (metadata_value_pairs : list (ExportedMetadata * FileStoreHash))
  : Result (list Exported) :=
  let urns := map snd metadata_value_pairs in
  let urns_dict :=
    Dict.of_pairs fsh_eqb
      (map (fun '(metadata, u) => (u, metadata)) metadata_value_pairs) in
  Res.bind
    (Res.mapM (fun '(hash_urn, hash_hits) =>
       Res.mapM (fun hit =>
         Res.bind (Dict.getitem fsh_eqb urns_dict hash_urn) (fun metadata =>
         Res.bind (first_item (Split env hit 2)) (fun client =>
         let metadata := set_client_urn client metadata in
         Ok (ExportedFileStoreHash_
               (mkExportedFileStoreHash metadata (hash_value hash_urn)
                  (fingerprint_type hash_urn) (hash_type hash_urn) hit)))))
         hash_hits)
       (GetHitsForHashes env urns))
    (fun results => Ok (List.concat results)).
End FileStoreHashConverter.

(** *** Well-formed stores and caches, resolved messages *)

(** The object opened at an address carries that address. *)
Definition store_wf (env : Env) : Prop :=
  forall u fd, store env u = Some fd -> urn (fst fd) = u.

(** The cache files metadata under its own [client_urn]; this is how
    [GrrMessageConverter.BatchConvert] fills it. *)
Definition cache_wf (cached_metadata : Cache) : Prop :=
  forall k m, Dict.get String.eqb cached_metadata k = Some m -> client_urn m = k.

(** The messages of a batch whose source is in the cache once the batched
    lookup is done. *)
Definition resolved_pairs (env : Env) (cached_metadata : Cache)
    (metadata_value_pairs : list (ExportedMetadata * GrrMessage))
  : list (ExportedMetadata * GrrMessage) :=
  let cache_after := snd (batch_data_of env cached_metadata metadata_value_pairs) in
  filter (fun pair => Dict.has_key String.eqb cache_after (fst (snd pair)))
    metadata_value_pairs.

(** The distinct items of a list, in the order of their first occurrence,
    those of [seen] left out. *)
Fixpoint first_seen (seen l : list string) : list string :=
  match l with
  | [] => []
  | k :: l' =>
      if existsb (String.eqb k) seen then first_seen seen l'
      else k :: first_seen (seen ++ [k]) l'
  end.

(** *** The steps of [batch_data_of] in closed form *)

Section BatchDataClosedForm.
Variable env : Env.
Variable cached_metadata : Cache.
Variable metadata_value_pairs : list (ExportedMetadata * GrrMessage).

(** the distinct sources, in the order [msg_dict.iterkeys()] gives them *)
Definition sources : list RDFURN :=
  sort_by (key_rank env)
    (first_seen [] (map (fun pair => fst (snd pair)) metadata_value_pairs)).

Definition cached_objects : list ExportedMetadata :=
  flat_map (fun k => match Dict.get String.eqb cached_metadata k with
                     | Some m => [m]
                     | None => []
                     end) sources.

Definition sources_to_fetch : list RDFURN :=
  filter (fun k => negb (Dict.has_key String.eqb cached_metadata k)) sources.

Definition fetched_objects : list ExportedMetadata :=
  map (fun client_fd : Opened => GetMetadata env (fst client_fd))
    (MultiOpen env sources_to_fetch).

Definition cache_after : Cache :=
  fold_left cache_put fetched_objects cached_metadata.

(** the source is in the cache after the lookup *)
Definition is_resolved (k : RDFURN) : bool :=
  Dict.has_key String.eqb cache_after k.

(** the entries of [batch_data] made with one metadata object *)
Definition entries_of (metadata : ExportedMetadata) : list Pair :=
  map (fun pair => (new_metadata_of metadata (fst pair), snd (snd pair)))
    (filter (fun pair => String.eqb (fst (snd pair)) (client_urn metadata))
       metadata_value_pairs).
End BatchDataClosedForm.

(** Two metadata records agree on every field but [timestamp] and
    [source_urn]. *)
Definition same_descriptive_fields (a b : ExportedMetadata) : Prop :=
  client_urn a = client_urn b /\ client_age a = client_age b
  /\ hostname a = hostname b /\ os a = os b /\ uname a = uname b
  /\ os_release a = os_release b /\ os_version a = os_version b
  /\ usernames a = usernames b /\ mac_address a = mac_address b
  /\ labels a = labels b.

(** The (hash, hit) pairs the hash index returns for a batch, in its
    order. *)
Definition index_hits (env : Env)
    (metadata_value_pairs : list (ExportedMetadata * FileStoreHash))
  : list (FileStoreHash * RDFURN) :=
  flat_map (fun g => map (pair (fst g)) (snd g))
    (GetHitsForHashes env (map snd metadata_value_pairs)).

(** ** The conversion engine *)

Section Engine.
Variable env : Env.
(** [ExportConverter.classes.itervalues()], the registered classes *)
Variable classes : list ConverterClass.

(** [ExportConverter.GetConvertersByValue].  The memo table
    [converters_cache] keeps, per class name, the list computed here;
    the registered classes do not change during a run. *)
Definition GetConvertersByValue (v : Value) : list ConverterClass :=
  filter (fun cls => String.eqb (input_rdf_type cls) (class_name v)) classes.

(** The body of the loop over the groups; the state carried along is
    [no_converter_found_error]. *)
Fixpoint convert_groups (options : option ExportOptions)
    (groups : Dict.t string (list Pair))
    (no_converter_found_error : option string)
  : Gen Exported (option string) :=
  match groups with
  | [] => G.ret no_converter_found_error
  | (rdf_type, metadata_values_group) :: groups' =>
      match metadata_values_group with
      | [] => G.raise IndexError
      | (_, first_value) :: _ =>
          match GetConvertersByValue first_value with
          | [] =>
              convert_groups options groups'
                (Some ("No converters found for value: "
                         ++ str_of_value env first_value)%string)
          | converters_classes =>
              (converters <- G.lift
                 (Res.mapM (fun cls => construct cls [options])
                    converters_classes) ;;
               G.for_ converters (fun converter =>
                 G.for_in (BatchConvert converter metadata_values_group)
                   (fun result => G.yield result)) ;;;
               convert_groups options groups' no_converter_found_error)%gen
          end
      end
  end.

(** [ConvertValuesWithMetadata], a generator. *)
Definition ConvertValuesWithMetadata (metadata_value_pairs : list Pair)
    (options : option ExportOptions) : Iter Exported :=
  (no_converter_found_error <-
     convert_groups options
       (GroupBy metadata_value_pairs (fun pair => class_name (snd pair)))
       None ;;
   match no_converter_found_error with
   | Some msg => G.raise (NoConverterFound msg)
   | None => G.ret tt
   end)%gen.

(** [ConvertValues]: it returns the generator. *)
Definition ConvertValues (default_metadata : ExportedMetadata)
    (values : list Value) (options : option ExportOptions)
  : Result (Iter Exported) :=
  let batch_data := map (fun obj => (default_metadata, obj)) values in
  G.call (ConvertValuesWithMetadata batch_data options).
End Engine.

(** *** What the engine is expected to do with the groups *)

Section EngineContract.
Variable env : Env.
Variable classes : list ConverterClass.
Variable options : option ExportOptions.

Definition first_value (group : list Pair) : option Value :=
  match group with
  | (_, v) :: _ => Some v
  | [] => None
  end.

(** A group none of the registered converters accepts. *)
Definition unmatched (g : string * list Pair) : bool :=
  match first_value (snd g) with
  | Some v =>
      match GetConvertersByValue classes v with
      | [] => true
      | _ => false
      end
  | None => false
  end.

(** The message of the error raised for an unmatched group. *)
Definition no_converter_message (v : Value) : string :=
  ("No converters found for value: " ++ str_of_value env v)%string.

(** What one converter class yields for a group. *)
Definition outputs_of_class (group : list Pair) (cls : ConverterClass)
  : list Exported :=
  match construct cls [options] with
  | Ok converter => G.yields (G.consume (BatchConvert converter group))
  | Raise _ => []
  end.

(** What the converters of a group yield, one converter after the
    other. *)
Definition outputs_of_group (g : string * list Pair) : list Exported :=
  match first_value (snd g) with
  | Some v =>
      flat_map (outputs_of_class (snd g)) (GetConvertersByValue classes v)
  | None => []
  end.

(** The class can be constructed and its batch conversion of the group
    ends without an exception. *)
Definition converts_cleanly (group : list Pair) (cls : ConverterClass)
  : bool :=
  match construct cls [options] with
  | Ok converter =>
      match G.consume (BatchConvert converter group) with
      | (_, Ok _) => true
      | (_, Raise _) => false
      end
  | Raise _ => false
  end.

(** No converter of any group raises, in its construction or in its
    conversion. *)
Definition no_converter_raises (groups : Dict.t string (list Pair)) : bool :=
  forallb (fun g =>
             match first_value (snd g) with
             | Some v =>
                 forallb (converts_cleanly (snd g))
                   (GetConvertersByValue classes v)
             | None => true
             end) groups.
(** The error kept after the groups: the message of the last unmatched
    one, or what was kept before. *)
Fixpoint kept_error (groups : Dict.t string (list Pair)) (err : option string)
  : option string :=
  match groups with
  | [] => err
  | g :: groups' =>
      kept_error groups'
        (if unmatched g
         then option_map no_converter_message (first_value (snd g))
         else err)
  end.
End EngineContract.

(** *** Converters that work record by record *)

Section RecordWise.
Variable classes : list ConverterClass.
Variable options : option ExportOptions.

(** Every value of [pairs] has a converter. *)
Definition all_matched (pairs : list Pair) : Prop :=
  forall p, In p pairs -> GetConvertersByValue classes (snd p) <> [].

(** The converters of the values of [pairs] can be constructed, and what
    each yields for a batch of values of one class taken from [pairs] is
    what it yields for each pair alone, one pair after the other, without
    error. *)
Definition record_wise (pairs : list Pair) : Prop :=
  forall p cls,
    In p pairs -> In cls (GetConvertersByValue classes (snd p)) ->
    exists converter,
      construct cls [options] = Ok converter
      /\ forall batch,
           (forall q, In q batch ->
                      In q pairs /\ class_name (snd q) = class_name (snd p)) ->
           BatchConvert converter batch
           = Ok (G.of_list
                   (flat_map (fun q => outputs_of_class options [q] cls) batch)).

(** A group made of pairs of [pairs], all of the class that names it. *)
Definition group_of (pairs : list Pair) (g : string * list Pair) : Prop :=
  snd g <> []
  /\ Forall (fun q => In q pairs /\ class_name (snd q) = fst g) (snd g).

(** What the converters of one pair yield for it alone. *)
Definition per_record (p : Pair) : list Exported :=
  flat_map (outputs_of_class options [p]) (GetConvertersByValue classes (snd p)).
End RecordWise.

(** ** The registered classes *)

(** A converter written for one class of values, given a batch.  The
    engine only hands a converter values of its [input_rdf_type]; any
    other value fails on its first attribute access. *)
Definition on_class {V : Type} (cast : Value -> option V)
    (batch_convert : list (ExportedMetadata * V) -> Result (Iter Exported))
  : Converter :=
  mkConverter (fun pairs =>
    Res.bind
      (Res.mapM (fun '(metadata, v) =>
                   match cast v with
                   | Some x => Ok (metadata, x)
                   | None => Raise AttributeError
                   end) pairs)
      batch_convert).

Definition as_StatEntry (v : Value) : option StatEntry :=
  match v with StatEntry_ s => Some s | _ => None end.
Definition as_Process (v : Value) : option Process :=
  match v with Process_ p => Some p | _ => None end.
Definition as_VolatilityResult (v : Value) : option (list VolatilityTable) :=
  match v with VolatilityResult_ s => Some s | _ => None end.
Definition as_GrrMessage (v : Value) : option GrrMessage :=
  match v with GrrMessage_ s p => Some (s, p) | _ => None end.
Definition as_FileStoreHash (v : Value) : option FileStoreHash :=
  match v with FileStoreHash_ h => Some h | _ => None end.
Definition as_collection (v : Value) : option (list Value) :=
  match v with AFF4_ _ items => Some items | _ => None end.
Definition as_ClientSummary (v : Value) : option (list Interface) :=
  match v with ClientSummary_ i => Some i | _ => None end.
Definition as_AFF4Object (v : Value) : option AFF4Object :=
  match v with AFF4_ fd _ => Some fd | _ => None end.

(** A class that keeps [ExportConverter.__init__] and whose [BatchConvert]
    is [batch_convert], given [self.options]. *)
Definition plain_class (cname input : string)
    (converter : ExportOptions -> Converter) : ConverterClass :=
  mkClass cname input (fun args =>
    Res.bind (ExportConverter_init args) (fun options => Ok (converter options))).

(** A class that keeps [ExportConverter.BatchConvert]. *)
Definition default_batch {V : Type} (cast : Value -> option V)
    (convert : ExportOptions -> ExportedMetadata -> V -> Result (Iter Exported))
  : ExportOptions -> Converter :=
  fun options =>
    on_class cast (fun pairs =>
      G.call (ExportConverter_BatchConvert (convert options) pairs)).

Definition volatility_class (cname : string) (cls : VolatilityClass)
  : ConverterClass :=
  mkClass cname "VolatilityResult" (fun args =>
    Res.bind (VolatilityResultConverter_init cls args) (fun options =>
    Ok (default_batch as_VolatilityResult
          (fun _ metadata v =>
             G.call (VolatilityResultConverter_Convert cls metadata v))
          options))).

(** The classes lib/export.py registers, listed as the file declares
    them (the base class and the abstract [VolatilityResultConverter]
    accept no value).  The list says which classes are registered, not in
    which order [ExportConverter.classes.itervalues()] gives them: that
    order is set in [ExportConverter_classes].  [inner] is the registry
    seen by a converter that re-enters the engine; it is [None] when the
    interpreter's recursion limit is reached, and the call then ends with
    [RuntimeError]. *)
Definition registered (env : Env) (inner : option (list ConverterClass))
  : list ConverterClass :=
  let reenter (k : list ConverterClass -> Converter) : Converter :=
    match inner with
    | Some classes => k classes
    | None => mkConverter (fun _ => Raise RuntimeError)
    end in
  [ plain_class "StatEntryToExportedFileConverter" "StatEntry" (fun options =>
      on_class as_StatEntry (fun pairs =>
        G.call (StatEntryToExportedFileConverter_BatchConvert env options pairs)));
    plain_class "StatEntryToExportedRegistryKeyConverter" "StatEntry"
      (default_batch as_StatEntry
         (fun _ => StatEntryToExportedRegistryKeyConverter_Convert));
    plain_class "ProcessToExportedProcessConverter" "Process"
      (default_batch as_Process
         (fun _ => ProcessToExportedProcessConverter_Convert));
    plain_class "ProcessToExportedNetworkConnectionConverter" "Process"
      (default_batch as_Process
         (fun _ => ProcessToExportedNetworkConnectionConverter_Convert));
    plain_class "ProcessToExportedOpenFileConverter" "Process"
      (default_batch as_Process
         (fun _ => ProcessToExportedOpenFileConverter_Convert));
    volatility_class "VolatilityResultToExportedVolatilityHandleConverter"
      (VolatilityResultToExportedVolatilityHandleConverter env);
    volatility_class "VolatilityResultToExportedVolatilityMutantConverter"
      (VolatilityResultToExportedVolatilityMutantConverter env);
    plain_class "ClientSummaryToExportedNetworkInterfaceConverter"
      "ClientSummary"
      (default_batch as_ClientSummary
         (fun _ metadata client_summary =>
            G.call (ClientSummaryToExportedNetworkInterfaceConverter_Convert
                      metadata client_summary)));
    plain_class "ClientSummaryToExportedClientConverter" "ClientSummary"
      (default_batch as_ClientSummary
         (fun _ => ClientSummaryToExportedClientConverter_Convert));
    plain_class "RDFURNConverter" "RDFURN" (fun _ =>
      reenter (fun classes =>
        mkConverter
          (RDFURNConverter_BatchConvert env
             (ConvertValuesWithMetadata env classes))));
    plain_class "RDFValueCollectionConverter" "RDFValueCollection"
      (fun options =>
         reenter (fun classes =>
           default_batch as_collection
             (fun options metadata collection =>
                G.call (RDFValueCollectionConverter_Convert
                          (ConvertValues env classes) options BATCH_SIZE
                          metadata collection))
             options));
    plain_class "VFSFileToExportedFileConverter" "VFSFile"
      (default_batch as_AFF4Object
         (fun _ => VFSFileToExportedFileConverter_Convert));
    plain_class "GrrMessageConverter" "GrrMessage" (fun options =>
      reenter (fun classes =>
        on_class as_GrrMessage (fun pairs =>
          Res.bind
            (fst (GrrMessageConverter_BatchConvert env
                    (GetConvertersByValue classes) options [] pairs))
            (fun converted => Ok (G.of_list converted)))));
    plain_class "FileStoreImageToExportedFileStoreHashConverter"
      "ExportedFileStoreImage" (fun _ =>
        mkConverter FileStoreImageToExportedFileStoreHashConverter_BatchConvert);
    plain_class "FileStoreHashConverter" "FileStoreHash" (fun _ =>
      on_class as_FileStoreHash (fun pairs =>
        Res.bind (FileStoreHashConverter_BatchConvert env pairs)
          (fun results => Ok (G.of_list results)))) ].

(** [ExportConverter.classes.itervalues()], with [depth] levels of re-entry
    allowed: the registered classes in the order of the dict that holds
    them, which is keyed by class name. *)
Fixpoint ExportConverter_classes (env : Env) (depth : nat)
  : list ConverterClass :=
  sort_by (fun cls => class_rank env (cls_name cls))
    (registered env
       (match depth with
        | O => None
        | S depth' => Some (ExportConverter_classes env depth')
        end)).

(** ** Further definitions *)

(** *** The memo table of [GetConvertersByValue] *)

(** [ExportConverter.converters_cache] *)
Definition ConvertersCache : Type := Dict.t string (list ConverterClass).

(** [ExportConverter.GetConvertersByValue] with its memo table: the list
    returned and the table afterwards. *)
Definition GetConvertersByValue_memo (classes : list ConverterClass)
    (converters_cache : ConvertersCache) (v : Value)
  : list ConverterClass * ConvertersCache :=
  match Dict.getitem String.eqb converters_cache (class_name v) with
  | Ok results => (results, converters_cache)
  | Raise _ =>
      let results :=
        filter (fun cls => String.eqb (input_rdf_type cls) (class_name v))
          classes in
      (results, Dict.set String.eqb converters_cache (class_name v) results)
  end.

(** Every entry of the table is what the registered classes give for its
    class name. *)
Definition cache_coherent (classes : list ConverterClass)
    (converters_cache : ConvertersCache) : Prop :=
  forall k results,
    Dict.get String.eqb converters_cache k = Some results ->
    results = filter (fun cls => String.eqb (input_rdf_type cls) k) classes.

(** *** Files *)

(** An [ExportedFile] without what comes from the store: hashes, content
    and digest. *)
Definition stat_fields_only (r : ExportedFile) : ExportedFile :=
  mkExportedFile (ef_metadata r) (ef_urn r) (ef_basename r)
    (ef_st_mode r) (ef_st_ino r) (ef_st_dev r) (ef_st_nlink r) (ef_st_uid r)
    (ef_st_gid r) (ef_st_size r) (ef_st_atime r) (ef_st_mtime r)
    (ef_st_ctime r) (ef_st_blocks r) (ef_st_blksize r) (ef_st_rdev r)
    (ef_symlink r) None None None None None None None.

Definition no_hash_field (r : ExportedFile) : Prop :=
  hash_md5 r = None /\ hash_sha1 r = None /\ hash_sha256 r = None
  /\ pecoff_hash_md5 r = None /\ pecoff_hash_sha1 r = None.

(** The five hash fields of an [ExportedFile], and those a [Hash] object
    gives to a record that had none. *)
Definition hash_fields (r : ExportedFile)
  : option string * option string * option string * option string
    * option string :=
  (hash_md5 r, hash_sha1 r, hash_sha256 r, pecoff_hash_md5 r,
   pecoff_hash_sha1 r).

Definition hash_fields_of (h : Hash)
  : option string * option string * option string * option string
    * option string :=
  (md5 h, sha1 h, sha256 h, pecoff_md5 h, pecoff_sha1 h).

Definition no_hashes
  : option string * option string * option string * option string
    * option string :=
  (None, None, None, None, None).

(** The outcomes of [Read] the file converter lets through: a result, or
    one of the exceptions its handlers catch. *)
Definition read_handled (outcome : Result string) : bool :=
  match outcome with
  | Ok _ => true
  | Raise IOError => true
  | Raise AttributeError => true
  | Raise KeyError => true
  | Raise _ => false
  end.

(** The entry is a file, not a registry value. *)
Definition is_file_entry (p : ExportedMetadata * StatEntry) : bool :=
  match registry_type (snd p) with
  | Some _ => false
  | None => true
  end.

(** The entry is a registry value. *)
Definition is_registry_entry (p : ExportedMetadata * StatEntry) : bool :=
  negb (is_file_entry p).

(** *** Network addresses *)

Definition is_INET (addr : NetworkAddress) : bool :=
  match address_type addr with INET => true | _ => false end.
Definition is_INET6 (addr : NetworkAddress) : bool :=
  match address_type addr with INET6 => true | _ => false end.
Definition valid_family (addr : NetworkAddress) : bool :=
  is_INET addr || is_INET6 addr.

(** The record made for an interface whose addresses are all valid. *)
Definition interface_record (metadata : ExportedMetadata) (i : Interface)
  : Exported :=
  ExportedNetworkInterface_
    (mkExportedNetworkInterface metadata (ifname i)
       (join " " (map human_readable_address (filter is_INET (addresses i))))
       (join " " (map human_readable_address (filter is_INET6 (addresses i))))
       (if_mac_address i)).

(** *** Volatility tables *)

(** Every header of the table has an entry in the mapping. *)
Definition headers_mapped (m : Dict.t string string) (table : VolatilityTable)
  : bool :=
  forallb (Dict.has_key String.eqb m) (headers table).

(** An attribute the output class declares. *)
Definition declared (out_cls : OutputClass) (attr : string) : Prop :=
  In attr (out_string_fields out_cls) \/ In attr (out_other_fields out_cls).

(** *** References *)

(** The metadata of the last pair of the batch that holds the reference
    [u]. *)
Definition last_metadata_of (u : RDFURN) (metadata_value_pairs : list Pair)
  : option ExportedMetadata :=
  fold_left (fun found '(metadata, v) =>
               match v with
               | RDFURN_ u' => if String.eqb u' u then Some metadata else found
               | _ => found
               end) metadata_value_pairs None.

(** The references of a batch, in the order of their first occurrence. *)
Definition references (metadata_value_pairs : list Pair) : list RDFURN :=
  first_seen []
    (flat_map (fun '(_, v) => match v with
                              | RDFURN_ u => [u]
                              | _ => []
                              end) metadata_value_pairs).

(** *** File store hashes *)

(** The hash is one of the batch. *)
Definition hash_in_batch (h : FileStoreHash)
    (metadata_value_pairs : list (ExportedMetadata * FileStoreHash)) : bool :=
  existsb (fun p => fsh_eqb (snd p) h) metadata_value_pairs.

(** The metadata of the last pair of the batch that holds the hash. *)
Definition last_hash_metadata (h : FileStoreHash)
    (metadata_value_pairs : list (ExportedMetadata * FileStoreHash))
  : option ExportedMetadata :=
  fold_left (fun found '(metadata, h') =>
               if fsh_eqb h' h then Some metadata else found)
    metadata_value_pairs None.

(** Two metadata records agree on every field but [client_urn]. *)
Definition same_but_client_urn (a b : ExportedMetadata) : Prop :=
  timestamp a = timestamp b /\ source_urn a = source_urn b
  /\ client_age a = client_age b /\ hostname a = hostname b
  /\ os a = os b /\ uname a = uname b /\ os_release a = os_release b
  /\ os_version a = os_version b /\ usernames a = usernames b
  /\ mac_address a = mac_address b /\ labels a = labels b.

(** The store holds an object at the address. *)
Definition is_stored (env : Env) (u : RDFURN) : bool :=
  match store env u with
  | Some _ => true
  | None => false
  end.

(** [options or ExportOptions()] *)
Definition options_or_default (options : option ExportOptions) : ExportOptions :=
  match options with
  | Some o => o
  | None => ExportOptions_default
  end.

(** ** Concrete inputs *)

Module Examples.
Local Open Scope Z_scope.

Definition metadata1 : ExportedMetadata :=
  mkMetadata 1400000000 "aff4:/hunts/H:1234/Results" "aff4:/C.0000000000000001"
    7 "host1" "Linux" "Linux-3.2" "precise" "12.04" "root" "aa:bb:cc:dd:ee:ff"
    "lab".

Definition no_read : nat -> Result string := fun _ => Raise AttributeError.

(** An object of a class no converter takes as input. *)
Definition volume : AFF4Object :=
  mkAFF4Object "aff4:/C.0000000000000001/volume" 0 "AFF4Volume" None None no_read
    None None None None None None None None.

Definition collection_fd : AFF4Object :=
  mkAFF4Object "aff4:/hunts/H:1234/Results" 0 "RDFValueCollection" None
    None no_read None None None None None None None None.

(** An environment whose store holds [volume] only.  Its ranks are
    constant: dicts iterate in insertion order and the registry in the
    order of the file. *)
Definition env1 : Env :=
  mkEnv
    (fun u => if String.eqb u (urn volume) then Some (volume, []) else None)
    (fun _ => [])
    (fun data => data)
    1400000001
    class_name
    (fun u _ => [u; ""])
    (mkOutputClass "ExportedVolatilityHandle" ["type"; "path"]
       ["offset"; "pid"; "handle"; "access"])
    (mkOutputClass "ExportedVolatilityMutant" ["cid"; "name"]
       ["offset"; "ptr_count"; "handle_count"; "signal"; "thread"])
    (fun _ => 0) (fun _ => 0) (fun _ => 0).

Definition file_entry : StatEntry :=
  mkStatEntry "aff4:/C.0000000000000001/fs/os/etc/passwd" "passwd"
    33188 11 2049 1 0 0 1024 10 20 30 8 4096 0 "" None BlobNone.

(** A registry value whose data is the unicode string made of U+00E9. *)
Definition registry_entry : StatEntry :=
  mkStatEntry "aff4:/C.0000000000000001/registry/HKEY_USERS/Run" "Run"
    0 0 0 0 0 0 0 0 20 0 0 0 0 "" (Some 1%Z) (BlobString [233%N]).

Definition process1 : Process :=
  mkProcess 42 1 "sshd" "/usr/sbin/sshd" ["sshd"; "-D"] 5 0 0 0 0 0 0
    "root" "" "S" 0 "/" 1 0 0 0 100 200 0 [] ["/var/log/auth.log"].

(** A process with three connections and no open file. *)
Definition connection (port : Z) : NetworkConnection :=
  mkConnection 2 1 "10.0.0.1:22" "10.0.0.2:5000" 1 port 5.

Definition process2 : Process :=
  mkProcess 43 1 "nc" "/bin/nc" ["nc"] 5 0 0 0 0 0 0 "root" "" "S" 0 "/" 1 0 0
    0 100 200 0 [connection 1; connection 2; connection 3] [].

(** A client of the store. *)
Definition client1 : AFF4Object :=
  mkAFF4Object "aff4:/C.0000000000000001" 7 "VFSGRRClient" None None no_read
    (Some "host1") (Some "Linux") (Some "Linux-3.2") (Some "precise")
    (Some "12.04") (Some "root") (Some "aa:bb:cc:dd:ee:ff") (Some ["lab"]).

Definition hash1 : FileStoreHash :=
  mkFileStoreHash "aff4:/files/hash/generic/sha256/0a0b" "0a0b" "generic"
    "sha256".

(** An environment whose store holds [client1] only and whose hash index
    knows two files for every hash. *)
Definition env2 : Env :=
  mkEnv
    (fun u => if String.eqb u (urn client1) then Some (client1, []) else None)
    (fun urns =>
       map (fun h => (h, ["aff4:/C.0000000000000001/fs/os/bin/ls";
                          "aff4:/C.0000000000000002/fs/os/bin/ls"])) urns)
    (fun data => data)
    1400000001
    class_name
    (fun u _ => [u; ""])
    (ExportedVolatilityHandle env1)
    (ExportedVolatilityMutant env1)
    (fun _ => 0) (fun _ => 0) (fun _ => 0).

(** Two messages: one from [client1], one from a client the store does
    not hold. *)
Definition message1 : ExportedMetadata * GrrMessage :=
  (metadata1, (urn client1, Process_ process1)).
Definition message2 : ExportedMetadata * GrrMessage :=
  (metadata1, ("aff4:/C.0000000000000002", Process_ process1)).

(** A collection of 1001 processes, each with one open file. *)
Definition many_processes : list Value :=
  repeat (Process_ process1) 1001.

(** A value without converter, then 1000 such processes. *)
Definition unconvertible_first : list Value :=
  Other_ "RDFString" :: repeat (Process_ process1) 1000.
End Examples.

(** ** More concrete inputs *)

Module Examples2.
Import Examples.
Local Open Scope Z_scope.

Definition passwd_hash : Hash :=
  mkHash (Some "md5-of-passwd") (Some "sha1-of-passwd") None None None None.

(** The file object stored at the address of [file_entry]. *)
Definition passwd_fd : AFF4Object :=
  mkAFF4Object (aff4path file_entry) 0 "VFSFile" (Some passwd_hash)
    (Some file_entry) (fun _ => Ok "root:x:0:0:root:/root:/bin/sh")
    None None None None None None None None.

(** A file object that cannot be read. *)
Definition shadow_entry : StatEntry :=
  mkStatEntry "aff4:/C.0000000000000001/fs/os/etc/shadow" "shadow"
    33152 12 2049 1 0 0 512 10 20 30 8 4096 0 "" None BlobNone.
Definition shadow_fd : AFF4Object :=
  mkAFF4Object (aff4path shadow_entry) 0 "VFSFile" None (Some shadow_entry)
    (fun _ => Raise IOError) None None None None None None None None.

(** An environment whose store holds the two files and [collection_fd].
    The registry iterates by the length of the class name, dicts by
    decreasing length of the key, the store by the length of the
    address: none of them in the order of the file or of insertion. *)
Definition env3 : Env :=
  mkEnv
    (fun u => if String.eqb u (urn passwd_fd) then Some (passwd_fd, [])
              else if String.eqb u (urn shadow_fd) then Some (shadow_fd, [])
              else if String.eqb u (urn collection_fd)
                   then Some (collection_fd,
                              [Process_ process1; Process_ process2])
              else None)
    (fun _ => [])
    (fun data => ("sha256:" ++ data)%string)
    1400000001
    class_name
    (fun u _ => [u; ""])
    (ExportedVolatilityHandle env1)
    (ExportedVolatilityMutant env1)
    (fun name => Z.of_nat (String.length name))
    (fun u => (- Z.of_nat (String.length u))%Z)
    (fun u => Z.of_nat (String.length u)).

Definition metadata2 : ExportedMetadata :=
  mkMetadata 1400000002 "aff4:/hunts/H:5678/Results" "aff4:/C.0000000000000002"
    9 "host2" "Windows" "Windows-7" "7" "6.1" "admin" "11:22:33:44:55:66"
    "prod".

(** A registry value whose data is a byte string. *)
Definition run_key_entry : StatEntry :=
  mkStatEntry "aff4:/C.0000000000000001/registry/HKEY_USERS/Run/updater"
    "updater" 0 0 0 0 0 0 0 0 40 0 0 0 0 "" (Some 1%Z) (BlobData "updater.exe").

(** Three sections: one with a header the handle mapping does not know,
    one with two rows, one without rows. *)
Definition cell (s : string) (z : Z) : VolatilityValue := mkVolatilityValue s z.
Definition unknown_section : VolatilityTable :=
  mkVolatilityTable ["offset_v"; "protection"] [[cell "" 4096; cell "rw" 0]].
Definition handles_section : VolatilityTable :=
  mkVolatilityTable ["offset_v"; "pid"; "obj_type"]
    [[cell "" 4096; cell "" 4; cell "File" 0];
     [cell "" 8192; cell "" 8; cell "Key" 0]].
Definition empty_section : VolatilityTable :=
  mkVolatilityTable ["offset_v"; "pid"] [].

(** Three interfaces; the second has an address that is neither IPv4 nor
    IPv6. *)
Definition eth0 : Interface :=
  mkInterface "eth0"
    [mkNetworkAddress INET "10.0.0.1"; mkNetworkAddress INET6 "fe80::1";
     mkNetworkAddress INET "192.168.0.1"]
    (Some "aa:bb:cc:dd:ee:ff").
Definition tun0 : Interface :=
  mkInterface "tun0"
    [mkNetworkAddress INET "10.8.0.1"; mkNetworkAddress (OtherFamily 17) "?"]
    None.
Definition lo : Interface :=
  mkInterface "lo" [mkNetworkAddress INET "127.0.0.1"] None.
(** An example of [Split]: the path of an address, the scheme ["aff4:/"]
    taken off, is cut at its slashes into at most [count] parts, the last
    of which holds the rest; parts are added, empty, up to [count]. *)
Fixpoint cut_at_slash (path : string) : string * option string :=
  match path with
  | EmptyString => (EmptyString, None)
  | String c path' =>
      if Ascii.eqb c "/" then (EmptyString, Some path')
      else let (part, rest) := cut_at_slash path' in (String c part, rest)
  end.

Fixpoint split_path (path : string) (count : nat) : list string :=
  match count with
  | O => []
  | S O => [path]
  | S count' =>
      match cut_at_slash path with
      | (part, Some rest) => part :: split_path rest count'
      | (part, None) => part :: repeat EmptyString count'
      end
  end.

Definition path_of (u : RDFURN) : string :=
  if String.prefix "aff4:/" u
  then String.substring 6 (String.length u - 6) u
  else u.

Definition with_index_and_split
    (index : list FileStoreHash -> list (FileStoreHash * list RDFURN))
    (split : RDFURN -> nat -> list string) (env : Env) : Env :=
  mkEnv (store env) index (sha256_hexdigest env) (Now env) (str_of_value env)
    split (ExportedVolatilityHandle env) (ExportedVolatilityMutant env)
    (class_rank env) (key_rank env) (open_rank env).

(** [env2] with this [Split]. *)
Definition env4 : Env :=
  with_index_and_split (GetHitsForHashes env2)
    (fun u count => split_path (path_of u) count) env2.

Definition hash2 : FileStoreHash :=
  mkFileStoreHash "aff4:/files/hash/generic/sha256/0c0d" "0c0d" "generic"
    "sha256".

(** [env4] with an index that knows one file, of [hash2], whatever it is
    asked. *)
Definition env5 : Env :=
  with_index_and_split
    (fun _ => [(hash2, ["aff4:/C.0000000000000001/fs/os/bin/ls"])])
    (Split env4) env4.
End Examples2.

(** * Properties *)

(** ** Orders given by a rank *)

Section SortFacts.
Variable X : Type.
Variable rank : X -> Z.

Lemma insert_by_Permutation (x : X) (l : list X) :
  Permutation (insert_by rank x l) (x :: l).
Proof.
  induction l as [|y l IH]; [reflexivity|]. cbn [insert_by].
  destruct (Z.leb (rank x) (rank y)); [reflexivity|].
  rewrite IH. apply perm_swap.
Qed.

(** The items of the list, none lost and none added. *)
Lemma sort_by_Permutation (l : list X) : Permutation (sort_by rank l) l.
Proof.
  induction l as [|x l IH]; [reflexivity|]. cbn [sort_by].
  rewrite insert_by_Permutation. now constructor.
Qed.

Lemma sort_by_In (l : list X) (x : X) : In x (sort_by rank l) <-> In x l.
Proof.
  split; apply Permutation_in;
    [apply sort_by_Permutation|symmetry; apply sort_by_Permutation].
Qed.

Lemma sort_by_NoDup (l : list X) : NoDup l -> NoDup (sort_by rank l).
Proof.
  apply Permutation_NoDup. symmetry. apply sort_by_Permutation.
Qed.

Lemma sort_by_length (l : list X) :
  List.length (sort_by rank l) = List.length l.
Proof. apply Permutation_length, sort_by_Permutation. Qed.

Lemma insert_by_least (x : X) (l : list X) :
  Forall (fun z => (rank x <= rank z)%Z) l -> insert_by rank x l = x :: l.
Proof.
  intros H. destruct H as [|z l Hz _]; [reflexivity|].
  cbn [insert_by]. apply Z.leb_le in Hz. now rewrite Hz.
Qed.

Lemma insert_by_sorted (x : X) (l : list X) :
  StronglySorted (fun a b => (rank a <= rank b)%Z) l ->
  StronglySorted (fun a b => (rank a <= rank b)%Z) (insert_by rank x l).
Proof.
  induction 1 as [|y l Hl IH Hy]; cbn [insert_by].
  - constructor; constructor.
  - destruct (Z.leb_spec (rank x) (rank y)) as [Hxy|Hxy].
    + constructor; [now constructor|]. constructor; [exact Hxy|].
      eapply Forall_impl; [|exact Hy]. intros z Hz. cbv beta in *. lia.
    + constructor; [exact IH|].
      apply Forall_forall. intros z Hz.
      apply (Permutation_in _ (insert_by_Permutation x l)) in Hz.
      destruct Hz as [<-|Hz]; [lia|].
      rewrite Forall_forall in Hy. now apply Hy.
Qed.

Lemma sort_by_sorted (l : list X) :
  StronglySorted (fun a b => (rank a <= rank b)%Z) (sort_by rank l).
Proof.
  induction l as [|x l IH]; [constructor|]. cbn [sort_by].
  now apply insert_by_sorted.
Qed.

Lemma filter_insert_by (P : X -> bool) (x : X) (l : list X) :
  StronglySorted (fun a b => (rank a <= rank b)%Z) l ->
  filter P (insert_by rank x l)
  = if P x then insert_by rank x (filter P l) else filter P l.
Proof.
  induction 1 as [|y l Hl IH Hy].
  - cbn [insert_by filter]. destruct (P x); reflexivity.
  - cbn [insert_by]. destruct (Z.leb_spec (rank x) (rank y)) as [Hxy|Hxy].
    + cbn [filter]. destruct (P x); [|reflexivity].
      symmetry. apply insert_by_least.
      assert (Hall : Forall (fun z => (rank x <= rank z)%Z) (y :: l)).
      { constructor; [exact Hxy|].
        eapply Forall_impl; [|exact Hy]. intros z Hz. cbv beta in *. lia. }
      apply Forall_forall. intros z Hz.
      rewrite Forall_forall in Hall. apply Hall.
      change (In z (filter P (y :: l))) in Hz.
      apply filter_In in Hz. tauto.
    + cbn [filter]. rewrite IH.
      destruct (P y), (P x); try reflexivity.
      cbn [insert_by]. apply Z.leb_gt in Hxy. now rewrite Hxy.
Qed.

(** Leaving items out does not change the order of the others. *)
Lemma filter_sort_by (P : X -> bool) (l : list X) :
  filter P (sort_by rank l) = sort_by rank (filter P l).
Proof.
  induction l as [|x l IH]; [reflexivity|].
  cbn [sort_by filter]. rewrite filter_insert_by by apply sort_by_sorted.
  rewrite IH. destruct (P x); reflexivity.
Qed.

Lemma sort_by_nil_inv (l : list X) : sort_by rank l = [] -> l = [].
Proof.
  intros H. apply Permutation_nil.
  rewrite <- H. apply sort_by_Permutation.
Qed.
End SortFacts.

Lemma map_insert_by {X Y : Type} (f : X -> Y) (rank : Y -> Z) (x : X)
    (l : list X) :
  map f (insert_by (fun x => rank (f x)) x l) = insert_by rank (f x) (map f l).
Proof.
  induction l as [|y l IH]; [reflexivity|]. cbn [insert_by map].
  destruct (Z.leb (rank (f x)) (rank (f y))); [reflexivity|].
  cbn [map]. now rewrite IH.
Qed.

Lemma map_sort_by {X Y : Type} (f : X -> Y) (rank : Y -> Z) (l : list X) :
  map f (sort_by (fun x => rank (f x)) l) = sort_by rank (map f l).
Proof.
  induction l as [|x l IH]; [reflexivity|]. cbn [sort_by map].
  now rewrite map_insert_by, IH.
Qed.

(** Every order of a list of items with distinct names is the order of
    some rank: that of the places of the names in the wanted order. *)
Lemma place_in_nonneg (name : string) (names : list string) :
  (0 <= place_in name names)%Z.
Proof.
  induction names as [|name' names IH]; cbn [place_in]; [lia|].
  destruct (String.eqb name name'); lia.
Qed.

Lemma StronglySorted_on {X : Type} (R R' : X -> X -> Prop) (l : list X) :
  (forall a b, In a l -> In b l -> R a b -> R' a b) ->
  StronglySorted R l -> StronglySorted R' l.
Proof.
  intros Himp Hs. induction Hs as [|a l Hs IH Hall]; constructor.
  - apply IH. intros x y Hx Hy. apply Himp; now right.
  - rewrite Forall_forall in *. intros b Hb.
    apply Himp; [now left|now right|now apply Hall].
Qed.

Lemma places_increase {X : Type} (key : X -> string) (l : list X) :
  NoDup (map key l) ->
  StronglySorted
    (fun a b => (place_in (key a) (map key l)
                 < place_in (key b) (map key l))%Z) l.
Proof.
  induction l as [|x l IH]; intros Hnd; [constructor|].
  cbn [map] in Hnd. inversion Hnd as [|k ks Hnotin Hnd']; subst.
  assert (Hother : forall y, In y l -> String.eqb (key y) (key x) = false).
  { intros y Hy. apply String.eqb_neq. intros Heq. apply Hnotin.
    rewrite <- Heq. now apply in_map. }
  constructor.
  - apply (@StronglySorted_on _
             (fun a b => (place_in (key a) (map key l)
                          < place_in (key b) (map key l))%Z));
      [|now apply IH].
    intros a b Ha Hb Hab. cbn [map place_in].
    rewrite (Hother a Ha), (Hother b Hb). lia.
  - apply Forall_forall. intros y Hy. cbn [map place_in].
    rewrite String.eqb_refl, (Hother y Hy).
    pose proof (place_in_nonneg (key y) (map key l)). lia.
Qed.

Lemma sorted_Permutation_eq {X : Type} (rank : X -> Z) (l1 l2 : list X) :
  StronglySorted (fun a b => (rank a < rank b)%Z) l1 ->
  StronglySorted (fun a b => (rank a <= rank b)%Z) l2 ->
  Permutation l1 l2 -> l1 = l2.
Proof.
  revert l2. induction l1 as [|a l1 IH]; intros l2 H1 H2 Hp.
  - apply Permutation_nil in Hp. now subst.
  - destruct l2 as [|b l2].
    { apply Permutation_sym, Permutation_nil in Hp. discriminate. }
    apply StronglySorted_inv in H1. destruct H1 as [H1 Ha].
    apply StronglySorted_inv in H2. destruct H2 as [H2 Hb].
    rewrite Forall_forall in Ha, Hb.
    assert (Hab : a = b).
    { assert (Hina : In a (b :: l2))
        by (apply (Permutation_in _ Hp); now left).
      assert (Hinb : In b (a :: l1))
        by (apply (Permutation_in _ (Permutation_sym Hp)); now left).
      destruct Hina as [Heq|Hina]; [now symmetry|].
      destruct Hinb as [Heq|Hinb]; [exact Heq|].
      pose proof (Ha b Hinb). pose proof (Hb a Hina). lia. }
    subst b. f_equal. apply IH; [exact H1|exact H2|].
    now apply Permutation_cons_inv in Hp.
Qed.

Lemma sort_by_any_order {X : Type} (key : X -> string) (l order : list X) :
  NoDup (map key l) -> Permutation l order ->
  sort_by (fun x => place_in (key x) (map key order)) l = order.
Proof.
  intros Hnd Hp. symmetry. apply sorted_Permutation_eq with
    (rank := fun x => place_in (key x) (map key order)).
  - apply places_increase.
    apply (Permutation_NoDup (Permutation_map key Hp) Hnd).
  - apply sort_by_sorted.
  - rewrite sort_by_Permutation. now apply Permutation_sym.
Qed.

(** ** The registry *)

Lemma registry_unfold (env : Env) (depth : nat) :
  ExportConverter_classes env depth
  = sort_by (fun cls => class_rank env (cls_name cls))
      (registered env
         (match depth with
          | O => None
          | S depth' => Some (ExportConverter_classes env depth')
          end)).
Proof. destruct depth; reflexivity. Qed.

(** The converters of a value: those among the registered classes, in the
    order of the registry. *)
Lemma converters_by_value (env : Env) (depth : nat) (v : Value) :
  GetConvertersByValue (ExportConverter_classes env depth) v
  = sort_by (fun cls => class_rank env (cls_name cls))
      (GetConvertersByValue
         (registered env
            (match depth with
             | O => None
             | S depth' => Some (ExportConverter_classes env depth')
             end)) v).
Proof.
  rewrite registry_unfold at 1. unfold GetConvertersByValue.
  apply filter_sort_by.
Qed.

Lemma registry_In (env : Env) (depth : nat) (cls : ConverterClass) :
  In cls (ExportConverter_classes env depth)
  <-> In cls (registered env
                (match depth with
                 | O => None
                 | S depth' => Some (ExportConverter_classes env depth')
                 end)).
Proof. rewrite registry_unfold at 1. apply sort_by_In. Qed.

(** No two registered classes share a name, and every order of the
    registry is the order of some [class_rank]. *)
Lemma registered_names (env : Env) (inner : option (list ConverterClass)) :
  NoDup (map cls_name (registered env inner)).
Proof.
  unfold registered. cbn [map cls_name plain_class volatility_class].
  repeat (constructor; [cbn [In]; intuition discriminate|]). constructor.
Qed.

Lemma registry_any_order (env : Env) (inner : option (list ConverterClass))
    (order : list ConverterClass) :
  Permutation (registered env inner) order ->
  sort_by (fun cls => place_in (cls_name cls) (map cls_name order))
    (registered env inner)
  = order.
Proof. apply sort_by_any_order, registered_names. Qed.

(** Every order of the keys of a dict is the order of some [key_rank]. *)
Lemma iterkeys_any_order (env : Env) {V : Type} (d : Dict.t RDFURN V)
    (order : list RDFURN) :
  NoDup (Dict.keys d) -> Permutation (Dict.keys d) order ->
  key_rank env = (fun u => place_in u order) ->
  iterkeys env d = order.
Proof.
  intros Hnd Hp Hrank. unfold iterkeys. rewrite Hrank.
  pose proof (@sort_by_any_order _ (fun u : RDFURN => u) (Dict.keys d) order)
    as H.
  rewrite !map_id in H. now apply H.
Qed.

(** ** Generators *)

Lemma bind_ret_l {Y A B} (a : A) (k : A -> Gen Y B) : G.bind (G.ret a) k = k a.
Proof. unfold G.bind, G.ret. destruct (k a); reflexivity. Qed.

Lemma bind_assoc {Y A B C} (g : Gen Y A) (k : A -> Gen Y B) (h : B -> Gen Y C) :
  G.bind (G.bind g k) h = G.bind g (fun a => G.bind (k a) h).
Proof.
  destruct g as [ys [a|e]]; simpl; [|reflexivity].
  destruct (k a) as [zs [b|e]]; simpl; [|reflexivity].
  destruct (h b) as [ws r]. now rewrite app_assoc.
Qed.

Lemma for_yield {Y} (xs : list Y) : G.for_ xs (fun x => G.yield x) = G.of_list xs.
Proof.
  induction xs as [|x xs IH]; [reflexivity|].
  simpl. rewrite IH. reflexivity.
Qed.

Lemma for_in_yield {Y} (call : Result (Iter Y)) :
  G.for_in call (fun x => G.yield x) = G.consume call.
Proof.
  destruct call as [[xs fin]|e]; [|reflexivity].
  simpl. rewrite for_yield. simpl. now rewrite app_nil_r.
Qed.

Lemma for_app {Y X} (xs ys : list X) (body : X -> Gen Y unit) :
  G.for_ (xs ++ ys) body = G.app (G.for_ xs body) (G.for_ ys body).
Proof.
  unfold G.app.
  induction xs as [|x xs IH]; simpl.
  - now destruct (G.for_ ys body).
  - rewrite IH, bind_assoc. reflexivity.
Qed.

Lemma for_concat_map {Y X} (xs : list X) (body : X -> Gen Y unit) :
  G.for_ xs body = G.concat (map body xs).
Proof.
  induction xs as [|x xs IH]; [reflexivity|].
  simpl. now rewrite IH.
Qed.

Lemma of_list_app {Y} (xs ys : list Y) :
  G.app (G.of_list xs) (G.of_list ys) = G.of_list (xs ++ ys).
Proof. reflexivity. Qed.

Lemma concat_of_lists {Y X} (f : X -> list Y) (xs : list X) :
  G.concat (map (fun x => G.of_list (f x)) xs) = G.of_list (flat_map f xs).
Proof.
  induction xs as [|x xs IH]; [reflexivity|].
  simpl. rewrite IH. reflexivity.
Qed.

(** ** Sample runs *)

(** A file entry converted with the default options: one [ExportedFile]
    with the metadata of the pair and the fields of the entry, no hash and
    no content; the registry-key converter adds nothing. *)
Example run_file_entry :
  ConvertValuesWithMetadata Examples.env1
    (ExportConverter_classes Examples.env1 1)
    [(Examples.metadata1, StatEntry_ Examples.file_entry)] None
  = G.of_list
      [ExportedFile_
         (ExportedFile_of Examples.metadata1 Examples.file_entry)].
Proof. reflexivity. Qed.

(** A process with three connections: one process record, then one record
    per connection; the converter of open files adds nothing. *)
Example run_process_with_connections :
  map (fun r => match r with
                | ExportedProcess_ _ => "process"
                | ExportedNetworkConnection_ c =>
                    if Z.eqb (nc_pid c) 2 then "connection 2" else "connection"
                | _ => "other"
                end)
    (G.yields
       (ConvertValuesWithMetadata Examples.env1
          (ExportConverter_classes Examples.env1 1)
          [(Examples.metadata1, Process_ Examples.process2)] None))
  = ["process"; "connection"; "connection 2"; "connection"].
Proof. reflexivity. Qed.

(** A registry entry with decodable data, through the engine. *)
Example run_registry_entry :
  let entry :=
    mkStatEntry "aff4:/C.0000000000000001/registry/HKEY_USERS/Run" "Run"
      0 0 0 0 0 0 0 0 20 0 0 0 0 "" (Some 1%Z) (BlobInteger 42) in
  ConvertValuesWithMetadata Examples.env1
    (ExportConverter_classes Examples.env1 1)
    [(Examples.metadata1, StatEntry_ entry)] None
  = G.of_list
      [ExportedRegistryKey_
         (mkExportedRegistryKey Examples.metadata1
            "aff4:/C.0000000000000001/registry/HKEY_USERS/Run" 20 (Some 1%Z)
            "42")].
Proof. reflexivity. Qed.

(** ** The default [BatchConvert] *)

Lemma BatchConvert_default_concat_lemma (V : Type)
    (Convert : ExportedMetadata -> V -> Result (Iter Exported))
    (pairs : list (ExportedMetadata * V)) :
  ExportConverter_BatchConvert Convert pairs
  = G.concat (map (fun p => G.consume (Convert (fst p) (snd p))) pairs).
Proof.
  unfold ExportConverter_BatchConvert.
  rewrite for_concat_map. f_equal.
  apply map_ext. intros [metadata v]. simpl. apply for_in_yield.
Qed.

(** C2. For a converter that keeps the default [BatchConvert], the batch
    conversion of [p1, ..., pn] is the concatenation, in the order of the
    pairs, of [Convert(p1)], ..., [Convert(pn)]: as traces (what is yielded
    and how iteration ends) in general, and as plain lists when [Convert]
    returns lists. *)
Theorem BatchConvert_default_is_concatenation :
  forall (V : Type) (metadata_value_pairs : list (ExportedMetadata * V)),
    (forall Convert : ExportedMetadata -> V -> Result (Iter Exported),
        ExportConverter_BatchConvert Convert metadata_value_pairs
        = G.concat (map (fun p => G.consume (Convert (fst p) (snd p)))
                      metadata_value_pairs))
    /\ (forall convert : ExportedMetadata -> V -> list Exported,
           ExportConverter_BatchConvert
             (fun metadata v => Ok (G.of_list (convert metadata v)))
             metadata_value_pairs
           = G.of_list (flat_map (fun p => convert (fst p) (snd p))
                          metadata_value_pairs)).
Proof.
  intros V pairs.
  assert (H : forall Convert : ExportedMetadata -> V -> Result (Iter Exported),
             ExportConverter_BatchConvert Convert pairs
             = G.concat (map (fun p => G.consume (Convert (fst p) (snd p)))
                           pairs))
    by (intros Convert; apply BatchConvert_default_concat_lemma).
  split; [exact H|].
  intros convert. rewrite H. simpl.
  apply (concat_of_lists (fun p => convert (fst p) (snd p))).
Qed.

(** ** Records of the wrong sub-kind *)

Lemma file_converter_skips_registry_entries env options
    (pairs : list (ExportedMetadata * StatEntry)) :
  Forall (fun p => registry_type (snd p) <> None) pairs ->
  StatEntryToExportedFileConverter_BatchConvert env options pairs = G.of_list [].
Proof.
  intros Hall. unfold StatEntryToExportedFileConverter_BatchConvert.
  replace (filter _ pairs) with (@nil (ExportedMetadata * StatEntry));
    [reflexivity|].
  induction Hall as [|[metadata stat_entry] pairs Hreg _ IH]; [reflexivity|].
  simpl in *. destruct (registry_type stat_entry); [exact IH|congruence].
Qed.

(** C8. A [StatEntry] of the other sub-kind gives an empty result and no
    error: a registry entry given to the file converter (alone or in a
    batch of registry entries), a file entry given to the registry-key
    converter (alone or through the default batch conversion). *)
Theorem wrong_sub_kind_converts_to_nothing :
  forall (env : Env) (options : ExportOptions) (metadata : ExportedMetadata)
         (stat_entry : StatEntry),
    (registry_type stat_entry <> None ->
     StatEntryToExportedFileConverter_Convert env options metadata stat_entry
     = Ok (G.of_list [])
     /\ forall pairs,
          Forall (fun p => registry_type (snd p) <> None) pairs ->
          StatEntryToExportedFileConverter_BatchConvert env options pairs
          = G.of_list [])
    /\ (registry_type stat_entry = None ->
        StatEntryToExportedRegistryKeyConverter_Convert metadata stat_entry
        = Ok (G.of_list [])
        /\ forall pairs,
             Forall (fun p => registry_type (snd p) = None) pairs ->
             ExportConverter_BatchConvert
               StatEntryToExportedRegistryKeyConverter_Convert pairs
             = G.of_list []).
Proof.
  intros env options metadata stat_entry. split.
  - intros Hreg. split.
    + unfold StatEntryToExportedFileConverter_Convert. f_equal.
      apply file_converter_skips_registry_entries.
      constructor; [exact Hreg|constructor].
    + apply file_converter_skips_registry_entries.
  - intros Hfile. split.
    + unfold StatEntryToExportedRegistryKeyConverter_Convert.
      now rewrite Hfile.
    + intros pairs Hall.
      rewrite BatchConvert_default_concat_lemma.
      induction Hall as [|[m s] pairs Hs _ IH]; [reflexivity|].
      simpl in Hs. simpl.
      unfold StatEntryToExportedRegistryKeyConverter_Convert at 1.
      rewrite Hs. simpl. rewrite IH. reflexivity.
Qed.

Lemma wrong_sub_kind_converts_to_nothing_witness :
  (registry_type Examples.registry_entry <> None
   /\ StatEntryToExportedFileConverter_Convert Examples.env1
        (mkOptions true true) Examples.metadata1 Examples.registry_entry
      = Ok (G.of_list []))
  /\ (registry_type Examples.file_entry = None
      /\ StatEntryToExportedRegistryKeyConverter_Convert Examples.metadata1
           Examples.file_entry
         = Ok (G.of_list [])).
Proof.
  split.
  - assert (H : registry_type Examples.registry_entry <> None)
      by (simpl; discriminate).
    split; [exact H|].
    exact (proj1 (proj1 (wrong_sub_kind_converts_to_nothing Examples.env1
                           (mkOptions true true) Examples.metadata1
                           Examples.registry_entry) H)).
  - split; [reflexivity|].
    exact (proj1 (proj2 (wrong_sub_kind_converts_to_nothing Examples.env1
                           (mkOptions true true) Examples.metadata1
                           Examples.file_entry) eq_refl)).
Defined.

(** ** Registry data that [str] cannot encode *)

(** [str] fails exactly on a unicode string with a code point above 127. *)
Lemma py_str_raises_iff (v : BlobValue) :
  py_str v = Raise UnicodeEncodeError
  <-> exists cps, v = BlobString cps /\ exists c, In c cps /\ (128 <= c)%N.
Proof.
  split.
  - destruct v as [|z|b|cps]; simpl; try discriminate.
    destruct (forallb _ cps) eqn:Hall; [discriminate|]. intros _.
    exists cps. split; [reflexivity|].
    assert (Hex : existsb (fun c => negb (N.ltb c 128)) cps = true).
    { clear -Hall. induction cps as [|c cps IH]; [discriminate|].
      simpl in *. destruct (N.ltb c 128); simpl in *; auto. }
    apply existsb_exists in Hex. destruct Hex as [c [Hin Hc]].
    exists c. split; [exact Hin|].
    destruct (N.ltb_spec c 128); [discriminate|assumption].
  - intros [cps [-> [c [Hin Hc]]]]. simpl.
    destruct (forallb _ cps) eqn:Hall; [|reflexivity].
    rewrite forallb_forall in Hall. specialize (Hall c Hin).
    apply N.ltb_lt in Hall. lia.
Qed.

(** C5 (the code departs from the claim). For a registry entry whose data
    [str] cannot encode, the fall-back branch of
    [StatEntryToExportedRegistryKeyConverter.Convert] reads
    [stat.registry_data], an attribute the module [stat] does not have: the
    conversion ends with [AttributeError] and no record is produced. *)
Theorem registry_key_fallback_raises :
  forall (metadata : ExportedMetadata) (stat_entry : StatEntry),
    registry_type stat_entry <> None ->
    py_str (registry_data stat_entry) = Raise UnicodeEncodeError ->
    StatEntryToExportedRegistryKeyConverter_Convert metadata stat_entry
    = Raise AttributeError.
Proof.
  intros metadata stat_entry Hreg Hstr.
  unfold StatEntryToExportedRegistryKeyConverter_Convert.
  destruct (registry_type stat_entry); [|congruence].
  rewrite Hstr. reflexivity.
Qed.

Lemma registry_key_fallback_raises_witness :
  registry_type Examples.registry_entry <> None
  /\ py_str (registry_data Examples.registry_entry) = Raise UnicodeEncodeError
  /\ StatEntryToExportedRegistryKeyConverter_Convert Examples.metadata1
       Examples.registry_entry
     = Raise AttributeError.
Proof.
  assert (H1 : registry_type Examples.registry_entry <> None)
    by (simpl; discriminate).
  assert (H2 : py_str (registry_data Examples.registry_entry)
               = Raise UnicodeEncodeError) by reflexivity.
  split; [exact H1|]. split; [exact H2|].
  exact (registry_key_fallback_raises Examples.metadata1
           Examples.registry_entry H1 H2).
Defined.

(** When [str] succeeds the record is produced with that string as data. *)
Lemma registry_key_decodable_data (metadata : ExportedMetadata)
    (stat_entry : StatEntry) (data : string) :
  registry_type stat_entry <> None ->
  py_str (registry_data stat_entry) = Ok data ->
  StatEntryToExportedRegistryKeyConverter_Convert metadata stat_entry
  = Ok (G.of_list
          [ExportedRegistryKey_
             (mkExportedRegistryKey metadata (aff4path stat_entry)
                (st_mtime stat_entry) (registry_type stat_entry) data)]).
Proof.
  intros Hreg Hstr. unfold StatEntryToExportedRegistryKeyConverter_Convert.
  destruct (registry_type stat_entry); [|congruence].
  rewrite Hstr. reflexivity.
Qed.

(** ** Construction of the Volatility converters *)

(** X3. [VolatilityResultConverter.__init__] succeeds exactly when it is
    called without argument on a class whose mapping is not empty and whose
    output class is set. *)
Theorem VolatilityResultConverter_init_ok (cls : VolatilityClass) (args : Args) :
  (exists options, VolatilityResultConverter_init cls args = Ok options)
  <-> args = []
      /\ (exists kv m, mapping cls = Some (kv :: m))
      /\ (exists out, output_rdf_cls cls = Some out).
Proof.
  unfold VolatilityResultConverter_init. split.
  - destruct args as [|a args]; [|intros [o H]; discriminate].
    simpl. destruct (mapping cls) as [[|kv m]|]; try (intros [o H]; discriminate).
    destruct (output_rdf_cls cls) as [out|]; [|intros [o H]; discriminate].
    intros _. repeat split; eauto.
  - intros [-> [[kv [m ->]] [out ->]]]. simpl. eauto.
Qed.

(** A missing mapping or output class makes [__init__] raise, whatever
    the arguments. *)
Lemma VolatilityResultConverter_init_missing (cls : VolatilityClass) (args : Args) :
  mapping cls = None \/ output_rdf_cls cls = None ->
  exists e, VolatilityResultConverter_init cls args = Raise e.
Proof.
  intros H. unfold VolatilityResultConverter_init.
  destruct args as [|a args]; [|eauto]. simpl.
  destruct (mapping cls) as [[|kv m]|]; eauto.
  destruct (output_rdf_cls cls); eauto.
  destruct H; discriminate.
Qed.

(** C9 (the code departs from the claim). The two Volatility converter
    classes declare both their mapping and their output class, yet the
    construction the engine performs, [cls(options)], raises [TypeError]:
    [VolatilityResultConverter.__init__] takes no parameter besides
    [self].  Converting a [VolatilityResult] therefore ends with
    [TypeError] before any record is processed. *)
Theorem volatility_construction_by_engine_raises :
  forall (env : Env) (options : option ExportOptions),
    construct
      (volatility_class "VolatilityResultToExportedVolatilityHandleConverter"
         (VolatilityResultToExportedVolatilityHandleConverter env)) [options]
    = Raise TypeError
    /\ construct
         (volatility_class "VolatilityResultToExportedVolatilityMutantConverter"
            (VolatilityResultToExportedVolatilityMutantConverter env)) [options]
       = Raise TypeError
    /\ forall (depth : nat) (metadata : ExportedMetadata)
              (sections : list VolatilityTable),
         ConvertValuesWithMetadata env (ExportConverter_classes env depth)
           [(metadata, VolatilityResult_ sections)] options
         = ([], Raise TypeError).
Proof.
  intros env options. split; [reflexivity|]. split; [reflexivity|].
  intros depth metadata sections.
  unfold ConvertValuesWithMetadata, GroupBy.
  cbn [fold_left Dict.append snd class_name convert_groups].
  rewrite converters_by_value.
  replace (GetConvertersByValue (registered env _)
             (VolatilityResult_ sections))
    with [ volatility_class
             "VolatilityResultToExportedVolatilityHandleConverter"
             (VolatilityResultToExportedVolatilityHandleConverter env);
           volatility_class
             "VolatilityResultToExportedVolatilityMutantConverter"
             (VolatilityResultToExportedVolatilityMutantConverter env) ]
    by (destruct depth; reflexivity).
  cbn [sort_by insert_by cls_name volatility_class].
  destruct (Z.leb _ _); reflexivity.
Qed.

(** ** The converter that follows references *)

(** C3 (the code departs from the claim). [RDFURNConverter.BatchConvert]
    returns the generator made by the call of the engine; the body of a
    generator runs at its consumer, outside the [try], so the handler of
    [NoConverterFound] never runs: what the returned sequence raises when
    it is iterated, [NoConverterFound] included, reaches the consumer. *)
Theorem RDFURNConverter_does_not_swallow :
  forall (env : Env)
         (engine : list Pair -> option ExportOptions -> Iter Exported)
         (metadata_value_pairs batch : list Pair),
    RDFURNConverter_batch env metadata_value_pairs = Ok batch ->
    RDFURNConverter_BatchConvert env engine metadata_value_pairs
    = Ok (engine batch None)
    /\ forall msg,
         G.raised (engine batch None) = Some (NoConverterFound msg) ->
         G.raised (G.consume (RDFURNConverter_BatchConvert env engine
                                metadata_value_pairs))
         = Some (NoConverterFound msg).
Proof.
  intros env engine pairs batch Hbatch.
  assert (H : RDFURNConverter_BatchConvert env engine pairs
              = Ok (engine batch None)).
  { unfold RDFURNConverter_BatchConvert. rewrite Hbatch. reflexivity. }
  split; [exact H|].
  intros msg Hraise. rewrite H. exact Hraise.
Qed.

Lemma RDFURNConverter_does_not_swallow_witness :
  let env := Examples.env1 in
  let engine := ConvertValuesWithMetadata env (ExportConverter_classes env 1) in
  let pairs := [(Examples.metadata1, RDFURN_ (urn Examples.volume))] in
  let batch := [(Examples.metadata1, AFF4_ Examples.volume [])] in
  RDFURNConverter_batch env pairs = Ok batch
  /\ G.consume (RDFURNConverter_BatchConvert env engine pairs)
     = ([], Raise (NoConverterFound "No converters found for value: AFF4Volume"))
  /\ ConvertValuesWithMetadata env (ExportConverter_classes env 2) pairs None
     = ([], Raise (NoConverterFound "No converters found for value: AFF4Volume")).
Proof.
  intros env engine pairs batch.
  assert (Hb : RDFURNConverter_batch env pairs = Ok batch) by reflexivity.
  split; [exact Hb|]. split.
  - rewrite (proj1 (RDFURNConverter_does_not_swallow env engine pairs Hb)).
    reflexivity.
  - reflexivity.
Defined.

(** ** Dictionaries *)

Section DictFacts.
Variables (K K' V : Type).
Variable eqb : K -> K -> bool.
(** Keys are compared through what identifies them. *)
Variable ident : K -> K'.
Hypothesis eqb_ident : forall a b, eqb a b = true <-> ident a = ident b.

Lemma eqb_false_ident a b : eqb a b = false <-> ident a <> ident b.
Proof.
  split.
  - intros H E. apply eqb_ident in E. congruence.
  - intros H. destruct (eqb a b) eqn:E; [|reflexivity].
    apply eqb_ident in E. contradiction.
Qed.

Lemma get_ident (d : Dict.t K V) k k' :
  ident k = ident k' -> Dict.get eqb d k = Dict.get eqb d k'.
Proof.
  intros E. induction d as [|[k0 v0] d IH]; [reflexivity|]. simpl.
  destruct (eqb k0 k) eqn:E1, (eqb k0 k') eqn:E2; auto.
  - apply eqb_ident in E1. apply eqb_false_ident in E2. congruence.
  - apply eqb_ident in E2. apply eqb_false_ident in E1. congruence.
Qed.

Lemma get_set_same (d : Dict.t K V) k k' v :
  ident k = ident k' -> Dict.get eqb (Dict.set eqb d k v) k' = Some v.
Proof.
  intros E. induction d as [|[k0 v0] d IH]; simpl.
  - apply eqb_ident in E. now rewrite E.
  - destruct (eqb k0 k) eqn:E0; simpl.
    + apply eqb_ident in E0.
      assert (E1 : eqb k0 k' = true) by (apply eqb_ident; congruence).
      now rewrite E1.
    + apply eqb_false_ident in E0.
      assert (E1 : eqb k0 k' = false) by (apply eqb_false_ident; congruence).
      now rewrite E1.
Qed.

Lemma get_set_other (d : Dict.t K V) k k' v :
  ident k <> ident k' ->
  Dict.get eqb (Dict.set eqb d k v) k' = Dict.get eqb d k'.
Proof.
  intros E. induction d as [|[k0 v0] d IH]; simpl.
  - apply eqb_false_ident in E. now rewrite E.
  - destruct (eqb k0 k) eqn:E0; simpl.
    + apply eqb_ident in E0.
      assert (E1 : eqb k0 k' = false) by (apply eqb_false_ident; congruence).
      now rewrite E1.
    + destruct (eqb k0 k'); auto.
Qed.

Lemma get_In (d : Dict.t K V) k v :
  Dict.get eqb d k = Some v -> exists k0, In (k0, v) d /\ ident k0 = ident k.
Proof.
  induction d as [|[k0 v0] d IH]; simpl; [discriminate|].
  destruct (eqb k0 k) eqn:E.
  - intros [= ->]. exists k0. split; [now left|now apply eqb_ident].
  - intros H. destruct (IH H) as [k1 [Hin Hk]]. exists k1. auto.
Qed.

(** What [dict(pairs)] holds comes from the pairs. *)
Lemma get_fold_set (pairs : list (K * V)) (d : Dict.t K V) k v :
  Dict.get eqb (fold_left (fun d kv => Dict.set eqb d (fst kv) (snd kv))
                  pairs d) k = Some v ->
  (exists k0, In (k0, v) pairs /\ ident k0 = ident k)
  \/ Dict.get eqb d k = Some v.
Proof.
  revert d. induction pairs as [|[k1 v1] pairs IH]; intros d; simpl.
  - auto.
  - intros H. destruct (IH _ H) as [[k0 [Hin Hk]]|Hd].
    + left. exists k0. auto.
    + destruct (eqb k1 k) eqn:E.
      * apply eqb_ident in E. rewrite (get_set_same d v1 E) in Hd.
        injection Hd as ->. left. exists k1. auto.
      * apply eqb_false_ident in E. rewrite (get_set_other d v1 E) in Hd.
        auto.
Qed.

Lemma get_of_pairs_In (pairs : list (K * V)) k v :
  Dict.get eqb (Dict.of_pairs eqb pairs) k = Some v ->
  exists k0, In (k0, v) pairs /\ ident k0 = ident k.
Proof.
  intros H. apply get_fold_set in H. destruct H as [H|H]; [exact H|].
  discriminate.
Qed.

(** A key of the pairs is a key of [dict(pairs)]. *)
Lemma get_fold_set_some (pairs : list (K * V)) (d : Dict.t K V) k :
  (exists k0 v, In (k0, v) pairs /\ ident k0 = ident k)
  \/ (exists v, Dict.get eqb d k = Some v) ->
  exists v, Dict.get eqb (fold_left (fun d kv => Dict.set eqb d (fst kv) (snd kv))
                            pairs d) k = Some v.
Proof.
  revert d. induction pairs as [|[k1 v1] pairs IH]; intros d; simpl.
  - intros [[k0 [v [[] _]]]|H]. exact H.
  - intros H. apply IH.
    destruct H as [[k0 [v [[[= -> ->]|Hin] Hk]]]|[v Hd]].
    + right. exists v. now apply get_set_same.
    + left. eauto.
    + right. destruct (eqb k1 k) eqn:E.
      * apply eqb_ident in E. exists v1. now apply get_set_same.
      * apply eqb_false_ident in E. exists v. now rewrite get_set_other.
Qed.

Lemma get_of_pairs_some (pairs : list (K * V)) k0 v0 k :
  In (k0, v0) pairs -> ident k0 = ident k ->
  exists v, Dict.get eqb (Dict.of_pairs eqb pairs) k = Some v.
Proof.
  intros Hin Hk. apply get_fold_set_some. left. eauto.
Qed.
End DictFacts.

Lemma string_eqb_ident (a b : string) : String.eqb a b = true <-> id a = id b.
Proof. apply String.eqb_eq. Qed.

Lemma fsh_eqb_ident (a b : FileStoreHash) :
  fsh_eqb a b = true <-> fsh_urn a = fsh_urn b.
Proof. apply String.eqb_eq. Qed.

(** ** The converter of file store hashes *)

Lemma mapM_Forall2 {A B} (f : A -> Result B) (R : A -> B -> Prop) (xs : list A) :
  (forall x, In x xs -> exists y, f x = Ok y /\ R x y) ->
  exists ys, Res.mapM f xs = Ok ys /\ Forall2 R xs ys.
Proof.
  induction xs as [|x xs IH]; intros H.
  - exists []. split; [reflexivity|constructor].
  - destruct (H x (or_introl eq_refl)) as [y [Hy HR]].
    destruct IH as [ys [Hys HF]]; [intros; apply H; now right|].
    exists (y :: ys). simpl. rewrite Hy. simpl. rewrite Hys. simpl.
    split; [reflexivity|now constructor].
Qed.

Lemma Forall2_concat_map {A B C} (R : A * B -> C -> Prop)
    (groups : list (A * list B)) (results : list (list C)) :
  Forall2 (fun g res => Forall2 (fun b c => R (fst g, b) c) (snd g) res)
    groups results ->
  Forall2 R (flat_map (fun g => map (pair (fst g)) (snd g)) groups)
    (List.concat results).
Proof.
  induction 1 as [|g res groups results Hg _ IH]; simpl; [constructor|].
  apply Forall2_app; [|exact IH].
  clear -Hg. induction Hg; simpl; constructor; auto.
Qed.

(** ** The engine *)

Lemma append_nonempty {K X} (eqb : K -> K -> bool) (d : Dict.t K (list X)) k x :
  Forall (fun g => snd g <> []) d ->
  Forall (fun g => snd g <> []) (Dict.append eqb d k x).
Proof.
  induction 1 as [|[k0 xs] d Hxs Hd IH]; simpl.
  - constructor; [discriminate|constructor].
  - destruct (eqb k0 k); constructor; simpl; auto.
    destruct xs; discriminate.
Qed.

Lemma fold_append_nonempty {K X} (eqb : K -> K -> bool) (key : X -> K)
    (items : list X) (d : Dict.t K (list X)) :
  Forall (fun g => snd g <> []) d ->
  Forall (fun g => snd g <> [])
    (fold_left (fun d x => Dict.append eqb d (key x) x) items d).
Proof.
  revert d. induction items as [|x items IH]; intros d Hd; simpl; [exact Hd|].
  apply IH. now apply append_nonempty.
Qed.

(** No group of [GroupBy] is empty. *)
Lemma GroupBy_nonempty {X} (items : list X) (key : X -> string) :
  Forall (fun g => snd g <> []) (GroupBy items key).
Proof. apply fold_append_nonempty. constructor. Qed.

Section EngineFacts.
Variable env : Env.
Variable classes : list ConverterClass.
Variable options : option ExportOptions.

(** The converters of a group that convert cleanly: they are all
    constructed, and run one after the other. *)
Lemma clean_converters (group : list Pair) (cs : list ConverterClass) :
  forallb (converts_cleanly options group) cs = true ->
  exists converters,
    Res.mapM (fun cls => construct cls [options]) cs = Ok converters
    /\ G.for_ converters (fun converter =>
         G.for_in (BatchConvert converter group) (fun result => G.yield result))
       = G.of_list (flat_map (outputs_of_class options group) cs).
Proof.
  induction cs as [|cls cs IH]; simpl.
  - intros _. exists []. split; reflexivity.
  - intros H. apply andb_true_iff in H. destruct H as [Hcls Hcs].
    destruct (IH Hcs) as [converters [Hm Hf]].
    unfold converts_cleanly in Hcls. unfold outputs_of_class at 1.
    destruct (construct cls [options]) as [converter|e]; [|discriminate].
    exists (converter :: converters). simpl. rewrite Hm. simpl.
    split; [reflexivity|].
    rewrite for_in_yield, Hf.
    destruct (G.consume (BatchConvert converter group)) as [ys [[]|e]];
      [|discriminate].
    reflexivity.
Qed.

Lemma convert_groups_cons rdf_type metadata v (rest : list Pair)
    (groups : Dict.t string (list Pair)) (err : option string) :
  convert_groups env classes options
    ((rdf_type, (metadata, v) :: rest) :: groups) err
  = match GetConvertersByValue classes v with
    | [] =>
        convert_groups env classes options groups
          (Some (no_converter_message env v))
    | cs =>
        G.bind (G.lift (Res.mapM (fun cls => construct cls [options]) cs))
          (fun converters =>
             G.bind
               (G.for_ converters (fun converter =>
                  G.for_in (BatchConvert converter ((metadata, v) :: rest))
                    (fun result => G.yield result)))
               (fun _ => convert_groups env classes options groups err))
    end.
Proof. reflexivity. Qed.

Lemma convert_groups_clean (groups : Dict.t string (list Pair))
    (err : option string) :
  Forall (fun g => snd g <> []) groups ->
  no_converter_raises classes options groups = true ->
  convert_groups env classes options groups err
  = (flat_map (outputs_of_group classes options) groups,
     Ok (kept_error env classes groups err)).
Proof.
  intros Hne. revert err.
  induction Hne as [|[rdf_type group] groups Hg _ IH]; intros err Hclean.
  - reflexivity.
  - cbn [no_converter_raises forallb] in Hclean.
    apply andb_true_iff in Hclean. destruct Hclean as [Hgroup Hrest].
    destruct group as [|[metadata v] group]; [now destruct Hg|].
    cbn [first_value snd] in Hgroup.
    rewrite convert_groups_cons.
    cbn [kept_error flat_map]. unfold unmatched, outputs_of_group.
    cbn [first_value snd].
    destruct (GetConvertersByValue classes v) as [|cls cs] eqn:Ecs.
    + cbn [flat_map app option_map]. apply (IH _ Hrest).
    + destruct (clean_converters _ _ Hgroup) as [converters [Hm Hf]].
      rewrite Hm. change (G.lift (Ok converters)) with (@G.ret Exported _ converters).
      rewrite bind_ret_l.
      match goal with
      | |- G.bind ?a ?k = _ =>
          transitivity (G.bind (G.of_list
            (flat_map (outputs_of_class options ((metadata, v) :: group))
               (cls :: cs))) k);
          [f_equal; exact Hf|]
      end.
      rewrite (IH _ Hrest). reflexivity.
Qed.

(** [kept_error] names the last unmatched group. *)
Lemma kept_error_none (groups : Dict.t string (list Pair)) :
  Forall (fun g => snd g <> []) groups ->
  (kept_error env classes groups None = None
   <-> forall g, In g groups -> unmatched classes g = false).
Proof.
  intros Hne.
  assert (Hsome : forall gs m,
             Forall (fun g : string * list Pair => snd g <> []) gs ->
             kept_error env classes gs (Some m) <> None).
  { induction gs as [|g gs IHgs]; intros m Hf; simpl; [discriminate|].
    inversion Hf as [|? ? Hg Hgs]; subst.
    destruct (unmatched classes g); [|now apply IHgs].
    destruct (snd g) as [|[md v] rest]; [now destruct Hg|].
    simpl. now apply IHgs. }
  induction Hne as [|g groups Hg Hgs IH]; simpl.
  - split; [intros _ g []|reflexivity].
  - destruct (unmatched classes g) eqn:Eu.
    + split.
      * intros H. exfalso.
        destruct (snd g) as [|[md v] rest]; [now destruct Hg|].
        simpl in H. now apply Hsome in H.
      * intros H. specialize (H g (or_introl eq_refl)). congruence.
    + rewrite IH. split.
      * intros H g' [<-|Hin]; auto.
      * intros H g' Hin. apply H. now right.
Qed.

Lemma kept_error_last (groups : Dict.t string (list Pair)) (err : option string)
    (msg : string) :
  kept_error env classes groups err = Some msg ->
  (err = Some msg /\ forall g, In g groups -> unmatched classes g = false)
  \/ exists before g after v,
       groups = before ++ g :: after
       /\ unmatched classes g = true
       /\ first_value (snd g) = Some v
       /\ (forall g', In g' after -> unmatched classes g' = false)
       /\ msg = no_converter_message env v.
Proof.
  revert err. induction groups as [|g groups IH]; intros err; simpl.
  - intros ->. left. split; [reflexivity|intros g []].
  - intros H. apply IH in H.
    destruct H as [[Herr Hnone]|[before [g0 [after [v [-> H]]]]]].
    + destruct (unmatched classes g) eqn:Eu.
      * right. destruct (first_value (snd g)) as [v|] eqn:Ev; [|discriminate].
        simpl in Herr. injection Herr as <-.
        exists [], g, groups, v. repeat split; auto.
      * left. split; [exact Herr|]. intros g' [<-|Hin]; auto.
    + right. exists (g :: before), g0, after, v. split; [reflexivity|exact H].
Qed.
End EngineFacts.

(** C1 (amended). When no converter raises, in its construction or in
    its conversion of its group, [ConvertValuesWithMetadata] yields the
    outputs of every group that has converters, group after group, whether
    or not it ends with an error; it ends without error exactly when every
    group has a converter, with [NoConverterFound] exactly when some group
    has none, and the message is that of the last such group in grouping
    order. *)
Theorem engine_raises_after_all_groups :
  forall (env : Env) (classes : list ConverterClass)
         (metadata_value_pairs : list Pair) (options : option ExportOptions),
    let groups :=
      GroupBy metadata_value_pairs (fun pair => class_name (snd pair)) in
    let run := ConvertValuesWithMetadata env classes metadata_value_pairs options in
    no_converter_raises classes options groups = true ->
    G.yields run = flat_map (outputs_of_group classes options) groups
    /\ (G.raised run = None
        <-> forall g, In g groups -> unmatched classes g = false)
    /\ ((exists msg, G.raised run = Some (NoConverterFound msg))
        <-> exists g, In g groups /\ unmatched classes g = true)
    /\ (forall e,
           G.raised run = Some e ->
           exists before g after v,
             groups = before ++ g :: after
             /\ unmatched classes g = true
             /\ first_value (snd g) = Some v
             /\ (forall g', In g' after -> unmatched classes g' = false)
             /\ e = NoConverterFound (no_converter_message env v)).
Proof.
  intros env classes pairs options groups run Hclean.
  assert (Hne : Forall (fun g : string * list Pair => snd g <> []) groups)
    by apply GroupBy_nonempty.
  assert (Hrun : run = (flat_map (outputs_of_group classes options) groups,
                        match kept_error env classes groups None with
                        | Some msg => Raise (NoConverterFound msg)
                        | None => Ok tt
                        end)).
  { unfold run, ConvertValuesWithMetadata. fold groups.
    rewrite (convert_groups_clean env classes options None Hne Hclean).
    cbn [G.bind]. destruct (kept_error env classes groups None);
      cbn; now rewrite app_nil_r. }
  pose proof (kept_error_none env classes Hne) as Hnone.
  assert (Hlast : forall e, G.raised run = Some e ->
            exists before g after v,
              groups = before ++ g :: after
              /\ unmatched classes g = true
              /\ first_value (snd g) = Some v
              /\ (forall g', In g' after -> unmatched classes g' = false)
              /\ e = NoConverterFound (no_converter_message env v)).
  { intros e He. rewrite Hrun in He. unfold G.raised in He. cbn [snd] in He.
    destruct (kept_error env classes groups None) as [msg|] eqn:Ek;
      [|discriminate].
    injection He as <-.
    destruct (kept_error_last _ _ _ _ Ek)
      as [[Habs _]|[before [g [after [v [Hg [Hu [Hv [Hafter ->]]]]]]]]];
      [discriminate|].
    exists before, g, after, v. auto. }
  assert (Hok : G.raised run = None
                <-> forall g, In g groups -> unmatched classes g = false).
  { rewrite <- Hnone. rewrite Hrun. unfold G.raised. cbn [snd].
    destruct (kept_error env classes groups None); split;
      congruence. }
  split; [now rewrite Hrun|]. split; [exact Hok|]. split; [|exact Hlast].
  split.
  - intros [msg Hmsg]. destruct (Hlast _ Hmsg)
      as [before [g [after [v [Hg [Hu _]]]]]].
    exists g. split; [|exact Hu]. rewrite Hg. apply in_elt.
  - intros [g [Hin Hu]].
    destruct (G.raised run) as [e|] eqn:Er.
    + destruct (Hlast e eq_refl) as [before [g0 [after [v [_ [_ [_ [_ ->]]]]]]]].
      eauto.
    + rewrite (proj1 Hok eq_refl g Hin) in Hu. discriminate.
Qed.

Lemma engine_raises_after_all_groups_witness :
  let env := Examples.env1 in
  let classes := ExportConverter_classes env 2 in
  let pairs := [(Examples.metadata1, Process_ Examples.process1);
                (Examples.metadata1, AFF4_ Examples.volume [])] in
  let groups := GroupBy pairs (fun pair => class_name (snd pair)) in
  let run := ConvertValuesWithMetadata env classes pairs None in
  no_converter_raises classes None groups = true
  /\ List.length (G.yields run) = 2
  /\ G.yields run = flat_map (outputs_of_group classes None) groups
  /\ G.raised run
     = Some (NoConverterFound "No converters found for value: AFF4Volume").
Proof.
  intros env classes pairs groups run.
  assert (H : no_converter_raises classes None groups = true) by reflexivity.
  split; [exact H|]. split; [reflexivity|]. split; [|reflexivity].
  exact (proj1 (engine_raises_after_all_groups env classes pairs None H)).
Defined.

(** C1 (as stated, refuted). A collection holding one value that no
    converter accepts: its group has a converter, yet the run ends with
    [NoConverterFound], raised from inside the collection converter.
    Followed by a process: each of the two groups has a converter, the run
    ends with the same error and nothing of the second group is yielded. *)
Lemma engine_raises_with_every_group_matched :
  let env := Examples.env1 in
  let classes := ExportConverter_classes env 2 in
  let collection := AFF4_ Examples.collection_fd [Other_ "RDFString"] in
  let key (pair : Pair) := class_name (snd pair) in
  let alone := [(Examples.metadata1, collection)] in
  let pairs := [(Examples.metadata1, collection);
                (Examples.metadata1, Process_ Examples.process1)] in
  (map fst (GroupBy alone key) = ["RDFValueCollection"]
   /\ forallb (fun g => negb (unmatched classes g)) (GroupBy alone key) = true
   /\ ConvertValuesWithMetadata env classes alone None
      = ([], Raise (NoConverterFound "No converters found for value: RDFString")))
  /\ (map fst (GroupBy pairs key) = ["RDFValueCollection"; "Process"]
      /\ forallb (fun g => negb (unmatched classes g)) (GroupBy pairs key) = true
      /\ outputs_of_group classes None
           ("Process", [(Examples.metadata1, Process_ Examples.process1)]) <> []
      /\ ConvertValuesWithMetadata env classes pairs None
         = ([], Raise (NoConverterFound
                         "No converters found for value: RDFString"))).
Proof.
  cbv zeta. split.
  - split; [reflexivity|]. split; reflexivity.
  - split; [reflexivity|]. split; [reflexivity|].
    split; [discriminate|reflexivity].
Qed.

(** ** Converters that work record by record *)

Lemma append_Permutation {K X} (eqb : K -> K -> bool) (d : Dict.t K (list X)) k x :
  Permutation (List.concat (map snd (Dict.append eqb d k x)))
    (x :: List.concat (map snd d)).
Proof.
  induction d as [|[k0 xs] d IH]; simpl; [reflexivity|].
  destruct (eqb k0 k); simpl.
  - rewrite <- app_assoc. simpl. symmetry. apply Permutation_middle.
  - rewrite IH. symmetry. apply Permutation_middle.
Qed.

Lemma fold_append_Permutation {K X} (eqb : K -> K -> bool) (key : X -> K)
    (items : list X) (d : Dict.t K (list X)) :
  Permutation
    (List.concat (map snd (fold_left (fun d x => Dict.append eqb d (key x) x)
                             items d)))
    (List.concat (map snd d) ++ items).
Proof.
  revert d. induction items as [|x items IH]; intros d; simpl.
  - now rewrite app_nil_r.
  - rewrite IH, append_Permutation. simpl. apply Permutation_middle.
Qed.

(** The groups of [GroupBy] hold the items, each once. *)
Lemma GroupBy_Permutation {X} (items : list X) (key : X -> string) :
  Permutation (List.concat (map snd (GroupBy items key))) items.
Proof. unfold GroupBy. now rewrite fold_append_Permutation. Qed.

Lemma append_same_key {X} (key : X -> string) (d : Dict.t string (list X)) x :
  Forall (fun g => Forall (fun y => key y = fst g) (snd g)) d ->
  Forall (fun g => Forall (fun y => key y = fst g) (snd g))
    (Dict.append String.eqb d (key x) x).
Proof.
  induction 1 as [|[k0 xs] d Hxs Hd IH]; simpl.
  - repeat constructor.
  - destruct (String.eqb_spec k0 (key x)) as [E|E]; constructor; simpl; auto.
    apply Forall_app. split; [exact Hxs|]. constructor; [now symmetry|constructor].
Qed.

(** The items of a group of [GroupBy] have the key of the group. *)
Lemma GroupBy_same_key {X} (items : list X) (key : X -> string) :
  Forall (fun g => Forall (fun y => key y = fst g) (snd g)) (GroupBy items key).
Proof.
  unfold GroupBy.
  assert (H : forall d,
             Forall (fun g : string * list X =>
                       Forall (fun y => key y = fst g) (snd g)) d ->
             Forall (fun g : string * list X =>
                       Forall (fun y => key y = fst g) (snd g))
               (fold_left (fun d x => Dict.append String.eqb d (key x) x)
                  items d)).
  { induction items as [|x items IH]; intros d Hd; simpl; [exact Hd|].
    apply IH. now apply append_same_key. }
  apply H. constructor.
Qed.

Lemma flat_map_app_Permutation {A B} (f g : A -> list B) (l : list A) :
  Permutation (flat_map (fun a => f a ++ g a) l) (flat_map f l ++ flat_map g l).
Proof.
  induction l as [|a l IH]; simpl; [reflexivity|].
  rewrite IH, <- !app_assoc. apply Permutation_app_head.
  rewrite !app_assoc. apply Permutation_app_tail. apply Permutation_app_comm.
Qed.

(** Two nested loops may be exchanged, up to the order of what they
    produce. *)
Lemma flat_map_swap {A B C} (f : A -> B -> list C) (la : list A) (lb : list B) :
  Permutation (flat_map (fun a => flat_map (f a) lb) la)
    (flat_map (fun b => flat_map (fun a => f a b) la) lb).
Proof.
  induction la as [|a la IH]; simpl.
  - induction lb; simpl; auto.
  - rewrite IH. symmetry. apply flat_map_app_Permutation.
Qed.

Lemma flat_map_Permutation_pointwise {A B} (f g : A -> list B) (l : list A) :
  (forall a, In a l -> Permutation (f a) (g a)) ->
  Permutation (flat_map f l) (flat_map g l).
Proof.
  induction l as [|a l IH]; intros H; simpl; [reflexivity|].
  apply Permutation_app; [apply H; now left|].
  apply IH. intros b Hb. apply H. now right.
Qed.

Lemma flat_map_concat {A B} (f : A -> list B) (ls : list (list A)) :
  flat_map f (List.concat ls) = flat_map (flat_map f) ls.
Proof.
  induction ls as [|l ls IH]; simpl; [reflexivity|].
  now rewrite flat_map_app, IH.
Qed.

Lemma flat_map_of_map {A B C} (f : B -> list C) (g : A -> B) (l : list A) :
  flat_map f (map g l) = flat_map (fun a => f (g a)) l.
Proof.
  induction l as [|a l IH]; simpl; [reflexivity|]. now rewrite IH.
Qed.

Lemma GetConvertersByValue_class_name (classes : list ConverterClass) (v v' : Value) :
  class_name v = class_name v' ->
  GetConvertersByValue classes v = GetConvertersByValue classes v'.
Proof. intros E. unfold GetConvertersByValue. now rewrite E. Qed.

Section RecordWiseFacts.
Variable env : Env.
Variable classes : list ConverterClass.
Variable options : option ExportOptions.
Variable pairs : list Pair.
Hypothesis Hrecord : record_wise classes options pairs.
Hypothesis Hmatched : all_matched classes pairs.

Lemma group_clean (g : string * list Pair) :
  group_of pairs g ->
  match first_value (snd g) with
  | Some v =>
      forallb (converts_cleanly options (snd g)) (GetConvertersByValue classes v)
  | None => true
  end = true
  /\ unmatched classes g = false
  /\ Permutation (outputs_of_group classes options g)
       (flat_map (per_record classes options) (snd g)).
Proof.
  destruct g as [k group]. intros [Hne Hall]. cbn [fst snd] in *.
  destruct group as [|[metadata v] group]; [congruence|].
  cbn [first_value]. unfold unmatched, outputs_of_group. cbn [first_value snd].
  assert (Hp : In (metadata, v) pairs /\ class_name v = k)
    by (inversion Hall; subst; assumption).
  destruct Hp as [Hp Hk].
  rewrite Forall_forall in Hall.
  assert (Hbatch : forall q, In q ((metadata, v) :: group) ->
             In q pairs /\ class_name (snd q) = class_name (snd (metadata, v))).
  { intros q Hq. destruct (Hall q Hq) as [Hin E]. cbn [snd].
    split; [exact Hin|congruence]. }
  assert (Hout : forall cls,
             In cls (GetConvertersByValue classes v) ->
             converts_cleanly options ((metadata, v) :: group) cls = true
             /\ outputs_of_class options ((metadata, v) :: group) cls
                = flat_map (fun q => outputs_of_class options [q] cls)
                    ((metadata, v) :: group)).
  { intros cls Hcls.
    destruct (Hrecord (metadata, v) cls Hp Hcls) as [converter [Hc Hb]].
    specialize (Hb _ Hbatch).
    unfold converts_cleanly, outputs_of_class at 1. rewrite Hc, Hb.
    split; reflexivity. }
  split; [|split].
  - apply forallb_forall. intros cls Hcls. now apply Hout.
  - specialize (Hmatched (metadata, v) Hp). cbn [snd] in Hmatched.
    destruct (GetConvertersByValue classes v); congruence.
  - transitivity (flat_map (fun cls =>
                    flat_map (fun q => outputs_of_class options [q] cls)
                      ((metadata, v) :: group))
                    (GetConvertersByValue classes v)).
    + apply flat_map_Permutation_pointwise. intros cls Hcls. cbv beta.
      match goal with
      | |- Permutation ?a ?b =>
          replace a with b by (symmetry; exact (proj2 (Hout cls Hcls)))
      end.
      reflexivity.
    + rewrite (flat_map_swap (fun cls q => outputs_of_class options [q] cls)).
      apply flat_map_Permutation_pointwise. intros q Hq. unfold per_record.
      rewrite (GetConvertersByValue_class_name classes (snd q) v);
        [reflexivity|].
      destruct (Hall q Hq) as [_ E]. congruence.
Qed.

Lemma groups_clean (groups : Dict.t string (list Pair)) :
  Forall (group_of pairs) groups ->
  no_converter_raises classes options groups = true
  /\ kept_error env classes groups None = None
  /\ Permutation (flat_map (outputs_of_group classes options) groups)
       (flat_map (per_record classes options) (List.concat (map snd groups))).
Proof.
  intros Hall.
  assert (Hne : Forall (fun g : string * list Pair => snd g <> []) groups).
  { eapply Forall_impl; [|exact Hall]. intros g [H _]. exact H. }
  rewrite Forall_forall in Hall.
  split; [|split].
  - apply forallb_forall. intros g Hg. now apply group_clean, Hall.
  - apply (kept_error_none env classes Hne). intros g Hg.
    now apply group_clean, Hall.
  - rewrite flat_map_concat, flat_map_of_map.
    apply flat_map_Permutation_pointwise. intros g Hg.
    now apply group_clean, Hall.
Qed.

(** On pairs taken from [pairs], the engine ends without error and what
    it yields is, up to order, what the converters of each pair yield for
    it alone. *)
Lemma engine_record_wise (l : list Pair) :
  (forall q, In q l -> In q pairs) ->
  exists ys,
    ConvertValuesWithMetadata env classes l options = (ys, Ok tt)
    /\ Permutation ys (flat_map (per_record classes options) l).
Proof.
  intros Hl.
  set (groups := GroupBy l (fun pair : Pair => class_name (snd pair))).
  pose proof (GroupBy_Permutation l (fun pair : Pair => class_name (snd pair)))
    as Hperm.
  pose proof (GroupBy_same_key l (fun pair : Pair => class_name (snd pair)))
    as Hkey.
  pose proof (GroupBy_nonempty l (fun pair : Pair => class_name (snd pair)))
    as Hne.
  fold groups in Hperm, Hkey, Hne.
  assert (Hok : Forall (group_of pairs) groups).
  { rewrite Forall_forall in *. intros g Hg. split; [now apply Hne|].
    specialize (Hkey g Hg). rewrite Forall_forall in *.
    intros q Hq. split; [|now apply Hkey].
    apply Hl. apply (Permutation_in _ Hperm).
    apply in_concat. exists (snd g). split; [now apply in_map|exact Hq]. }
  destruct (groups_clean Hok) as [Hclean [Herr Hout]].
  exists (flat_map (outputs_of_group classes options) groups).
  split.
  - unfold ConvertValuesWithMetadata. fold groups.
    rewrite (convert_groups_clean env classes options None Hne Hclean).
    rewrite Herr. cbn. now rewrite app_nil_r.
  - rewrite Hout. now apply Permutation_flat_map.
Qed.

(** A sequence of runs on batches taken from [pairs] ends without error
    and yields, up to order, what one run on all of them yields. *)
Lemma runs_record_wise (batches : list (list Pair)) :
  (forall batch q, In batch batches -> In q batch -> In q pairs) ->
  exists zs,
    G.concat (map (fun batch => ConvertValuesWithMetadata env classes batch options)
                batches) = (zs, Ok tt)
    /\ Permutation zs
         (flat_map (per_record classes options) (List.concat batches)).
Proof.
  induction batches as [|batch batches IH]; intros Hin.
  - exists []. split; reflexivity.
  - destruct IH as [zs [Hzs Hp]]; [intros b q Hb; apply Hin; now right|].
    destruct (engine_record_wise batch) as [ys [Hys Hq]];
      [intros q; apply Hin; now left|].
    exists (ys ++ zs). cbn [map G.concat fold_right List.concat].
    fold (@G.concat Exported). rewrite Hys.
    change (fold_right G.app (G.ret tt)
              (map (fun batch => ConvertValuesWithMetadata env classes batch options)
                 batches))
      with (G.concat (map (fun batch =>
                             ConvertValuesWithMetadata env classes batch options)
                        batches)).
    rewrite Hzs. split; [reflexivity|].
    rewrite flat_map_app. now apply Permutation_app.
Qed.
End RecordWiseFacts.

(** ** Sub-batches *)

Section GrouperFacts.
Variable X : Type.
Variable n : nat.
Hypothesis n_pos : 0 < n.

Lemma Grouper_from_concat (items rest : list X) :
  List.concat (Grouper_from n items rest) = items ++ rest.
Proof.
  revert items. induction rest as [|x rest IH]; intros items; simpl.
  - destruct items; simpl; now rewrite ?app_nil_r.
  - destruct (Nat.eqb _ n); simpl; rewrite IH; simpl;
      now rewrite <- app_assoc.
Qed.

(** Items that fill the batch being built close it. *)
Lemma Grouper_from_fill (l items rest : list X) :
  l <> [] -> List.length items + List.length l = n ->
  Grouper_from n items (l ++ rest) = (items ++ l) :: Grouper_from n [] rest.
Proof.
  revert items. induction l as [|x l IH]; intros items Hl Hlen;
    [congruence|].
  simpl. rewrite length_app. simpl in *.
  destruct l as [|y l].
  - simpl in *. replace (List.length items + 1) with n by lia.
    now rewrite Nat.eqb_refl.
  - destruct (Nat.eqb_spec (List.length items + 1) n) as [E|E];
      [simpl in Hlen; lia|].
    rewrite IH; [|discriminate|rewrite length_app; simpl in *; lia].
    now rewrite <- app_assoc.
Qed.

(** Items that do not fill it are the last batch. *)
Lemma Grouper_from_short (l items : list X) :
  List.length items + List.length l < n ->
  Grouper_from n items l
  = match items ++ l with
    | [] => []
    | _ => [items ++ l]
    end.
Proof.
  revert items. induction l as [|x l IH]; intros items Hlen; simpl.
  - rewrite app_nil_r. reflexivity.
  - rewrite length_app. simpl in *.
    destruct (Nat.eqb_spec (List.length items + 1) n) as [E|E]; [lia|].
    rewrite IH; [|rewrite length_app; simpl; lia].
    now rewrite <- app_assoc.
Qed.

Lemma Grouper_sizes_upto (fuel : nat) (l : list X) :
  List.length l <= fuel ->
  map (@List.length X) (Grouper l n) = batch_sizes_upto fuel n (List.length l).
Proof.
  unfold Grouper. revert l. induction fuel as [|fuel IH]; intros l Hfuel.
  - destruct l; [reflexivity|simpl in Hfuel; lia].
  - simpl. destruct (Nat.eqb_spec (List.length l) 0) as [E0|E0].
    + destruct l; [reflexivity|discriminate].
    + destruct (Nat.leb_spec (List.length l) n) as [Hle|Hgt].
      * destruct (Nat.eq_dec (List.length l) n) as [En|En].
        -- rewrite <- (app_nil_r l) at 1.
           rewrite Grouper_from_fill; [reflexivity| |simpl; lia].
           intros ->. simpl in E0. lia.
        -- rewrite Grouper_from_short by (simpl; lia). simpl.
           destruct l; [simpl in E0; lia|reflexivity].
      * rewrite <- (firstn_skipn n l) at 1.
        assert (Hf : List.length (firstn n l) = n)
          by (rewrite length_firstn; lia).
        rewrite Grouper_from_fill;
          [|intros E; rewrite E in Hf; simpl in Hf; lia|simpl; lia].
        simpl. rewrite Hf. f_equal.
        rewrite IH by (rewrite length_skipn; lia).
        now rewrite length_skipn.
Qed.

Lemma Grouper_sizes (l : list X) :
  map (@List.length X) (Grouper l n) = batch_sizes n (List.length l).
Proof. apply Grouper_sizes_upto. lia. Qed.

Lemma batch_sizes_upto_bounds (fuel len : nat) :
  Forall (fun k => 0 < k <= n) (batch_sizes_upto fuel n len).
Proof.
  revert len. induction fuel as [|fuel IH]; intros len; simpl;
    [constructor|].
  destruct (Nat.eqb_spec len 0); [constructor|].
  destruct (Nat.leb_spec len n).
  - constructor; [lia|constructor].
  - constructor; [lia|apply IH].
Qed.

(** Every batch before the last one is full. *)
Lemma batch_sizes_upto_full (fuel len : nat) (before after : list nat) (k : nat) :
  batch_sizes_upto fuel n len = before ++ k :: after -> after <> [] -> k = n.
Proof.
  revert len before. induction fuel as [|fuel IH]; intros len before; simpl.
  - destruct before; discriminate.
  - destruct (Nat.eqb_spec len 0); [destruct before; discriminate|].
    destruct (Nat.leb_spec len n).
    + destruct before as [|b [|b' before]]; simpl; intros [= ]; subst;
        congruence.
    + destruct before as [|b before]; simpl; intros [= ]; subst; eauto.
Qed.

Lemma Grouper_single (l : list X) :
  l <> [] -> List.length l <= n -> Grouper l n = [l].
Proof.
  intros Hl Hle. unfold Grouper.
  destruct (Nat.eq_dec (List.length l) n) as [En|En].
  - rewrite <- (app_nil_r l) at 1.
    rewrite Grouper_from_fill; [reflexivity|exact Hl|simpl; lia].
  - rewrite Grouper_from_short by (simpl; lia). simpl.
    destruct l; congruence.
Qed.
End GrouperFacts.

Lemma engine_no_pairs (env : Env) (classes : list ConverterClass)
    (options : option ExportOptions) :
  ConvertValuesWithMetadata env classes [] options = G.ret tt.
Proof. reflexivity. Qed.

Lemma for_yield_map {X Y} (g : X -> Y) (xs : list X) :
  G.for_ xs (fun x => G.yield (g x)) = G.of_list (map g xs).
Proof.
  induction xs as [|x xs IH]; [reflexivity|]. simpl. now rewrite IH.
Qed.

Section DefaultBatchFacts.
Variable V : Type.
Variable cast : Value -> option V.
Variable convert :
  ExportOptions -> ExportedMetadata -> V -> Result (Iter Exported).
Variable options : ExportOptions.
Variable f : ExportedMetadata -> V -> list Exported.
Hypothesis Hconvert :
  forall metadata x, convert options metadata x = Ok (G.of_list (f metadata x)).

Lemma default_batch_typed (batch : list Pair)
    (typed : list (ExportedMetadata * V)) :
  Res.mapM (fun '(metadata, v) =>
              match cast v with
              | Some x => Ok (metadata, x)
              | None => Raise AttributeError
              end) batch = Ok typed ->
  BatchConvert (default_batch cast convert options) batch
  = Ok (G.of_list (flat_map (fun t => f (fst t) (snd t)) typed)).
Proof.
  intros Hm. unfold default_batch, on_class. cbn [BatchConvert].
  rewrite Hm. cbn [Res.bind]. unfold G.call. f_equal.
  rewrite BatchConvert_default_concat_lemma.
  rewrite (map_ext _ (fun t => G.of_list (f (fst t) (snd t))))
    by (intros t; now rewrite Hconvert).
  apply (concat_of_lists (fun t => f (fst t) (snd t))).
Qed.

Lemma default_batch_single (metadata : ExportedMetadata) (v : Value) (x : V) :
  cast v = Some x ->
  G.yields (G.consume
              (BatchConvert (default_batch cast convert options) [(metadata, v)]))
  = f metadata x.
Proof.
  intros Hx. rewrite (@default_batch_typed [(metadata, v)] [(metadata, x)]).
  - simpl. apply app_nil_r.
  - simpl. now rewrite Hx.
Qed.

(** A converter that keeps the default [BatchConvert] and whose [Convert]
    returns lists works record by record on the values of its class. *)
Lemma default_batch_record_wise (batch : list Pair) :
  (forall q, In q batch -> exists x, cast (snd q) = Some x) ->
  BatchConvert (default_batch cast convert options) batch
  = Ok (G.of_list
          (flat_map (fun q =>
             G.yields (G.consume
               (BatchConvert (default_batch cast convert options) [q])))
             batch)).
Proof.
  intros Hcast.
  assert (H : exists typed,
             Res.mapM (fun '(metadata, v) =>
                         match cast v with
                         | Some x => Ok (metadata, x)
                         | None => Raise AttributeError
                         end) batch = Ok typed
             /\ flat_map (fun q =>
                  G.yields (G.consume
                    (BatchConvert (default_batch cast convert options) [q])))
                  batch
                = flat_map (fun t => f (fst t) (snd t)) typed).
  { induction batch as [|[metadata v] batch IH].
    - exists []. split; reflexivity.
    - destruct (Hcast (metadata, v) (or_introl eq_refl)) as [x Hx].
      cbn [snd] in Hx.
      destruct (IH (fun q Hq => Hcast q (or_intror Hq))) as [typed [Hm Hf]].
      exists ((metadata, x) :: typed). split.
      + cbn [Res.mapM]. rewrite Hx, Hm. reflexivity.
      + cbn [flat_map]. rewrite Hf. f_equal.
        exact (@default_batch_single metadata v x Hx). }
  destruct H as [typed [Hm Hf]].
  rewrite (@default_batch_typed batch typed Hm), Hf. reflexivity.
Qed.
End DefaultBatchFacts.

(** The three converters of [Process] work record by record. *)
Lemma process_converters_record_wise (env : Env) (depth : nat)
    (options : option ExportOptions) (pairs : list Pair) :
  (forall q, In q pairs -> exists process, snd q = Process_ process) ->
  record_wise (ExportConverter_classes env depth) options pairs
  /\ all_matched (ExportConverter_classes env depth) pairs.
Proof.
  intros Hpairs.
  assert (Hget : forall process,
             GetConvertersByValue (ExportConverter_classes env depth)
               (Process_ process)
             = sort_by (fun cls => class_rank env (cls_name cls))
                 [ plain_class "ProcessToExportedProcessConverter" "Process"
                     (default_batch as_Process
                        (fun _ => ProcessToExportedProcessConverter_Convert));
                   plain_class "ProcessToExportedNetworkConnectionConverter"
                     "Process"
                     (default_batch as_Process
                        (fun _ => ProcessToExportedNetworkConnectionConverter_Convert));
                   plain_class "ProcessToExportedOpenFileConverter" "Process"
                     (default_batch as_Process
                        (fun _ => ProcessToExportedOpenFileConverter_Convert)) ])
    by (intros process; rewrite converters_by_value; destruct depth;
        reflexivity).
  split.
  - intros [metadata v] cls Hp Hcls.
    destruct (Hpairs _ Hp) as [process E]. cbn [snd] in E. subst v.
    cbn [snd] in Hcls. rewrite Hget in Hcls. apply sort_by_In in Hcls.
    assert (Hcast : forall batch : list Pair,
               (forall q, In q batch ->
                          In q pairs
                          /\ class_name (snd q)
                             = class_name (snd (metadata, Process_ process))) ->
               forall q, In q batch -> exists x, as_Process (snd q) = Some x).
    { intros batch Hb q Hq. destruct (Hb q Hq) as [Hin _].
      destruct (Hpairs _ Hin) as [pr E]. rewrite E. simpl. eauto. }
    destruct options as [o|];
      destruct Hcls as [<-|[<-|[<-|[]]]];
      (eexists; split;
       [reflexivity
       |intros batch Hb; unfold outputs_of_class;
        cbn [construct plain_class Res.bind ExportConverter_init];
        (eapply default_batch_record_wise; [|now apply (Hcast batch)])]).
    all: intros md x;
      first [ reflexivity
            | unfold ProcessToExportedNetworkConnectionConverter_Convert;
              rewrite for_yield_map; reflexivity
            | unfold ProcessToExportedOpenFileConverter_Convert;
              rewrite for_yield_map; reflexivity ].
  - intros q Hq. destruct (Hpairs _ Hq) as [process E]. rewrite E, Hget.
    intros Hnil. apply sort_by_nil_inv in Hnil. discriminate.
Qed.

(** C4 (amended). The collection converter cuts the collection into
    consecutive sub-batches (their concatenation is the collection, each
    holds between 1 and [BATCH_SIZE] records and all but the last hold
    [BATCH_SIZE]: 1000, 1000 and 500 for 2500 records with the default size
    of 1000) and runs the engine once per sub-batch, every member paired
    with the same metadata; its output is the sequence of these runs, a
    run starting only if the one before ended without error.  It equals the
    un-batched run when the collection fits in one sub-batch.  When every
    record has a converter and the converters involved work record by
    record, neither ends with an error and both yield the same records, up
    to their order. *)
Theorem collection_converted_by_sub_batches :
  forall (env : Env) (classes : list ConverterClass) (options : ExportOptions)
         (n : nat) (metadata : ExportedMetadata) (collection : list Value),
    let convert :=
      RDFValueCollectionConverter_Convert (ConvertValues env classes) options n
        metadata in
    let engine (batch : list Value) :=
      ConvertValuesWithMetadata env classes
        (map (fun obj => (metadata, obj)) batch) (Some options) in
    let all_pairs := map (fun obj => (metadata, obj)) collection in
    0 < n ->
    convert collection = G.concat (map engine (Grouper collection n))
    /\ List.concat (Grouper collection n) = collection
    /\ map (@List.length Value) (Grouper collection n)
       = batch_sizes n (List.length collection)
    /\ Forall (fun k => 0 < k <= n) (batch_sizes n (List.length collection))
    /\ (forall before k after,
           batch_sizes n (List.length collection) = before ++ k :: after ->
           after <> [] -> k = n)
    /\ (List.length collection = 2500 ->
        map (@List.length Value) (Grouper collection BATCH_SIZE)
        = [1000; 1000; 500])
    /\ (List.length collection <= n -> convert collection = engine collection)
    /\ (record_wise classes (Some options) all_pairs ->
        all_matched classes all_pairs ->
        G.raised (convert collection) = None
        /\ G.raised (engine collection) = None
        /\ Permutation (G.yields (convert collection))
             (G.yields (engine collection))).
Proof.
  intros env classes options n metadata collection convert engine all_pairs Hn.
  assert (Hconv : convert collection = G.concat (map engine (Grouper collection n))).
  { unfold convert, RDFValueCollectionConverter_Convert.
    destruct collection as [|x collection]; [reflexivity|].
    rewrite for_concat_map. f_equal. apply map_ext. intros batch.
    rewrite for_in_yield. reflexivity. }
  assert (Hcat : List.concat (Grouper collection n) = collection)
    by apply (Grouper_from_concat n [] collection).
  split; [exact Hconv|]. split; [exact Hcat|].
  split; [now apply Grouper_sizes|].
  split; [apply batch_sizes_upto_bounds; exact Hn|].
  split; [intros before k after; apply batch_sizes_upto_full; exact Hn|].
  split; [|split].
  - intros Hlen. rewrite Grouper_sizes by (unfold BATCH_SIZE; lia).
    rewrite Hlen. reflexivity.
  - intros Hle. rewrite Hconv.
    destruct collection as [|x collection]; [reflexivity|].
    rewrite Grouper_single by (auto; discriminate).
    simpl. unfold G.app. destruct (engine (x :: collection)) as [ys [[]|e]];
      simpl; now rewrite ?app_nil_r.
  - intros Hrecord Hmatched.
    destruct (engine_record_wise env Hrecord Hmatched all_pairs (fun q H => H))
      as [ys [Hys Hp]].
    destruct (runs_record_wise env Hrecord Hmatched
                (map (map (fun obj => (metadata, obj))) (Grouper collection n)))
      as [zs [Hzs Hq]].
    { intros batch q Hb Hq. apply in_map_iff in Hb.
      destruct Hb as [chunk [<- Hchunk]]. apply in_map_iff in Hq.
      destruct Hq as [obj [<- Hobj]]. unfold all_pairs. apply in_map.
      rewrite <- Hcat. apply in_concat. eauto. }
    rewrite map_map in Hzs. rewrite <- concat_map, Hcat in Hq.
    fold all_pairs in Hq.
    assert (Hrun : convert collection = (zs, Ok tt)) by (rewrite Hconv; exact Hzs).
    assert (Heng : engine collection = (ys, Ok tt)) by exact Hys.
    rewrite Hrun, Heng. cbn. split; [reflexivity|]. split; [reflexivity|].
    rewrite Hq. now symmetry.
Qed.

Lemma collection_converted_by_sub_batches_witness :
  let env := Examples.env1 in
  let classes := ExportConverter_classes env 1 in
  let collection := [Process_ Examples.process1; Process_ Examples.process1;
                     Process_ Examples.process1] in
  let convert :=
    RDFValueCollectionConverter_Convert (ConvertValues env classes)
      ExportOptions_default 2 Examples.metadata1 in
  let engine (batch : list Value) :=
    ConvertValuesWithMetadata env classes
      (map (fun obj => (Examples.metadata1, obj)) batch)
      (Some ExportOptions_default) in
  let all_pairs := map (fun obj => (Examples.metadata1, obj)) collection in
  0 < 2
  /\ map (@List.length Value) (Grouper collection 2) = [2; 1]
  /\ convert collection = G.concat (map engine (Grouper collection 2))
  /\ record_wise classes (Some ExportOptions_default) all_pairs
  /\ all_matched classes all_pairs
  /\ Permutation (G.yields (convert collection)) (G.yields (engine collection)).
Proof.
  intros env classes collection convert engine all_pairs.
  assert (H : 0 < 2) by lia.
  assert (Hp : forall q, In q all_pairs -> exists process, snd q = Process_ process).
  { intros q Hq. simpl in Hq.
    destruct Hq as [<-|[<-|[<-|[]]]]; simpl; eauto. }
  destruct (process_converters_record_wise env 1 (Some ExportOptions_default)
              all_pairs Hp) as [Hr Hm].
  pose proof (collection_converted_by_sub_batches env classes
                ExportOptions_default Examples.metadata1 collection H) as T.
  destruct T as (T1 & _ & _ & _ & _ & _ & _ & T8).
  destruct (T8 Hr Hm) as (_ & _ & HP).
  split; [exact H|]. split; [reflexivity|].
  split; [exact T1|]. split; [exact Hr|]. split; [exact Hm|exact HP].
Defined.

(** C4 (as stated, refuted). 1001 processes with one open file each, at
    the default batch size: the un-batched run yields the 1001 process
    records first, the collection converter yields the open files of the
    first 1000 processes before the record of the last process.  And a
    value without converter followed by 1000 such processes: the run on
    the first sub-batch ends with [NoConverterFound], the last process is
    never converted, while the un-batched run converts all of them. *)
Lemma sub_batches_differ_from_one_pass :
  let env := Examples.env1 in
  let classes := ExportConverter_classes env 1 in
  let convert :=
    RDFValueCollectionConverter_Convert (ConvertValues env classes)
      ExportOptions_default BATCH_SIZE Examples.metadata1 in
  let engine (batch : list Value) :=
    ConvertValuesWithMetadata env classes
      (map (fun obj => (Examples.metadata1, obj)) batch)
      (Some ExportOptions_default) in
  convert Examples.many_processes <> engine Examples.many_processes
  /\ List.length (G.yields (convert Examples.unconvertible_first)) = 1998
  /\ List.length (G.yields (engine Examples.unconvertible_first)) = 2000.
Proof.
  cbv zeta. split; [|split; vm_compute; reflexivity].
  intros H.
  apply (f_equal (fun g : Iter Exported =>
                    match nth_error (G.yields g) 1000 with
                    | Some (ExportedProcess_ _) => true
                    | _ => false
                    end)) in H.
  vm_compute in H. discriminate.
Qed.

(** ** Grouping by a key *)

Section GroupFacts.
Variable X : Type.
Variable key : X -> string.

Lemma get_append (d : Dict.t string (list X)) k x k' :
  Dict.get String.eqb (Dict.append String.eqb d k x) k'
  = if String.eqb k k'
    then Some (match Dict.get String.eqb d k' with
               | Some xs => xs ++ [x]
               | None => [x]
               end)
    else Dict.get String.eqb d k'.
Proof.
  induction d as [|[k0 xs] d IH]; simpl.
  - destruct (String.eqb k k'); reflexivity.
  - destruct (String.eqb_spec k0 k) as [->|E0]; simpl.
    + destruct (String.eqb k k'); reflexivity.
    + rewrite IH. destruct (String.eqb_spec k0 k') as [->|E1];
        destruct (String.eqb_spec k k') as [->|E2]; congruence.
Qed.

Lemma get_grouped (items : list X) (d : Dict.t string (list X)) k :
  Dict.get String.eqb
    (fold_left (fun d x => Dict.append String.eqb d (key x) x) items d) k
  = match Dict.get String.eqb d k with
    | Some xs => Some (xs ++ filter (fun x => String.eqb (key x) k) items)
    | None =>
        match filter (fun x => String.eqb (key x) k) items with
        | [] => None
        | xs => Some xs
        end
    end.
Proof.
  revert d. induction items as [|x items IH]; intros d; simpl.
  - destruct (Dict.get String.eqb d k); now rewrite ?app_nil_r.
  - rewrite IH, get_append.
    destruct (String.eqb (key x) k); [|reflexivity].
    destruct (Dict.get String.eqb d k); simpl; [now rewrite <- app_assoc|].
    reflexivity.
Qed.

Lemma keys_append (d : Dict.t string (list X)) k x :
  Dict.keys (Dict.append String.eqb d k x)
  = if existsb (String.eqb k) (Dict.keys d) then Dict.keys d
    else Dict.keys d ++ [k].
Proof.
  unfold Dict.keys. induction d as [|[k0 xs] d IH]; simpl; [reflexivity|].
  rewrite (String.eqb_sym k k0).
  destruct (String.eqb k0 k); simpl; [reflexivity|].
  rewrite IH. destruct (existsb _ _); reflexivity.
Qed.

Lemma keys_grouped (items : list X) (d : Dict.t string (list X)) :
  Dict.keys (fold_left (fun d x => Dict.append String.eqb d (key x) x) items d)
  = Dict.keys d ++ first_seen (Dict.keys d) (map key items).
Proof.
  revert d. induction items as [|x items IH]; intros d; simpl.
  - now rewrite app_nil_r.
  - rewrite IH, keys_append.
    destruct (existsb _ _); [reflexivity|]. now rewrite <- app_assoc.
Qed.
End GroupFacts.

Lemma existsb_eqb_In (k : string) (l : list string) :
  existsb (String.eqb k) l = true <-> In k l.
Proof.
  rewrite existsb_exists. split.
  - intros [x [Hin E]]. apply String.eqb_eq in E. now subst.
  - intros Hin. exists k. split; [exact Hin|apply String.eqb_refl].
Qed.

Lemma first_seen_In (l seen : list string) k :
  In k (first_seen seen l) <-> In k l /\ ~ In k seen.
Proof.
  revert seen. induction l as [|k0 l IH]; intros seen; simpl.
  - tauto.
  - destruct (existsb (String.eqb k0) seen) eqn:E.
    + apply existsb_eqb_In in E. rewrite IH. split.
      * tauto.
      * intros [[->|H] Hn]; tauto.
    + assert (Hk0 : ~ In k0 seen).
      { intros H. apply existsb_eqb_In in H. congruence. }
      simpl. rewrite IH, in_app_iff. simpl. split.
      * intros [->|[H Hn]]; tauto.
      * intros [[->|H] Hn]; [tauto|].
        destruct (string_dec k0 k) as [->|Hd]; tauto.
  Qed.

Lemma first_seen_NoDup (l seen : list string) : NoDup (first_seen seen l).
Proof.
  revert seen. induction l as [|k0 l IH]; intros seen; simpl; [constructor|].
  destruct (existsb (String.eqb k0) seen); [apply IH|].
  constructor; [|apply IH].
  rewrite first_seen_In, in_app_iff. simpl. tauto.
Qed.

Lemma existsb_filter (P : string -> bool) (k : string) (seen : list string) :
  P k = true ->
  existsb (String.eqb k) (filter P seen) = existsb (String.eqb k) seen.
Proof.
  intros HP. induction seen as [|s seen IH]; simpl; [reflexivity|].
  destruct (P s) eqn:Es; simpl; [now rewrite IH|].
  rewrite IH. destruct (String.eqb_spec k s) as [->|E]; [congruence|reflexivity].
Qed.

Lemma first_seen_filter (P : string -> bool) (l seen : list string) :
  filter P (first_seen seen l) = first_seen (filter P seen) (filter P l).
Proof.
  revert seen. induction l as [|k l IH]; intros seen; simpl; [reflexivity|].
  destruct (P k) eqn:HP; simpl.
  - rewrite (existsb_filter P k seen HP).
    destruct (existsb _ seen); [apply IH|].
    simpl. rewrite HP, IH, filter_app. simpl. now rewrite HP.
  - destruct (existsb _ seen); [apply IH|].
    simpl. rewrite HP, IH, filter_app. simpl. rewrite HP.
    now rewrite app_nil_r.
Qed.

(** ** The converter of messages *)

Section GrrMessageFacts.
Variable env : Env.

Lemma split_cached_from (cache : Cache) (ks : list RDFURN)
    (objs : list ExportedMetadata) (tf : list RDFURN) :
  fold_left (fun '(metadata_objects, metadata_to_fetch) client_urn =>
               match Dict.get String.eqb cache client_urn with
               | Some m => (metadata_objects ++ [m], metadata_to_fetch)
               | None => (metadata_objects, metadata_to_fetch ++ [client_urn])
               end) ks (objs, tf)
  = (objs ++ flat_map (fun k => match Dict.get String.eqb cache k with
                                | Some m => [m]
                                | None => []
                                end) ks,
     tf ++ filter (fun k => negb (Dict.has_key String.eqb cache k)) ks).
Proof.
  revert objs tf. induction ks as [|k ks IH]; intros objs tf; simpl.
  - now rewrite !app_nil_r.
  - unfold Dict.has_key.
    destruct (Dict.get String.eqb cache k) as [m|]; rewrite IH; simpl;
      now rewrite <- app_assoc.
Qed.

Lemma fetch_metadata_closed (cache : Cache) (tf : list RDFURN) :
  fetch_metadata env cache tf
  = (map (fun client_fd : Opened => GetMetadata env (fst client_fd))
       (MultiOpen env tf),
     fold_left cache_put
       (map (fun client_fd : Opened => GetMetadata env (fst client_fd))
          (MultiOpen env tf)) cache).
Proof. destruct tf; reflexivity. Qed.

Lemma build_batch_data_closed
    (pairs : list (ExportedMetadata * GrrMessage))
    (objs : list ExportedMetadata) :
  build_batch_data (group_by_source pairs) objs
  = flat_map (entries_of pairs) objs.
Proof.
  unfold build_batch_data, group_by_source, entries_of.
  apply flat_map_ext. intros m.
  rewrite (get_grouped (fun pair : ExportedMetadata * GrrMessage =>
                          fst (snd pair))).
  cbn [Dict.get].
  assert (E : forall F : list (ExportedMetadata * GrrMessage),
             match match F with
                   | [] => None
                   | x :: l => Some (x :: l)
                   end with
             | Some msgs =>
                 map (fun '(original_metadata, message) =>
                        (new_metadata_of m original_metadata,
                         snd (message : GrrMessage))) msgs
             | None => []
             end
             = map (fun pair => (new_metadata_of m (fst pair), snd (snd pair)))
                 F).
  { intros [|p ps]; [reflexivity|].
    apply map_ext. intros [original_metadata message]. reflexivity. }
  apply E.
Qed.

Lemma batch_data_of_closed (cache : Cache)
    (pairs : list (ExportedMetadata * GrrMessage)) :
  batch_data_of env cache pairs
  = (flat_map (entries_of pairs)
       (cached_objects env cache pairs ++ fetched_objects env cache pairs),
     cache_after env cache pairs).
Proof.
  unfold batch_data_of.
  assert (Hkeys : iterkeys env (group_by_source pairs) = sources env pairs).
  { unfold iterkeys, group_by_source, sources.
    now rewrite (keys_grouped (fun pair : ExportedMetadata * GrrMessage =>
                                 fst (snd pair))). }
  rewrite Hkeys. unfold split_cached. rewrite split_cached_from. simpl.
  rewrite fetch_metadata_closed, build_batch_data_closed. reflexivity.
Qed.
End GrrMessageFacts.

Section CacheFacts.
Lemma get_put_same (cache : Cache) m :
  Dict.get String.eqb (cache_put cache m) (client_urn m) = Some m.
Proof.
  unfold cache_put.
  apply (@get_set_same _ _ _ String.eqb id string_eqb_ident). reflexivity.
Qed.

Lemma get_put_other (cache : Cache) m k :
  client_urn m <> k ->
  Dict.get String.eqb (cache_put cache m) k = Dict.get String.eqb cache k.
Proof.
  intros H. unfold cache_put.
  now apply (@get_set_other _ _ _ String.eqb id string_eqb_ident).
Qed.

(** A key no new object is filed under keeps what it had. *)
Lemma get_fold_put_other (ms : list ExportedMetadata) (cache : Cache) k :
  ~ In k (map client_urn ms) ->
  Dict.get String.eqb (fold_left cache_put ms cache) k = Dict.get String.eqb cache k.
Proof.
  revert cache. induction ms as [|m ms IH]; intros cache Hk; simpl;
    [reflexivity|].
  simpl in Hk. rewrite IH by tauto. apply get_put_other. tauto.
Qed.

Lemma get_fold_put_In (ms : list ExportedMetadata) (cache : Cache) m :
  NoDup (map client_urn ms) -> In m ms ->
  Dict.get String.eqb (fold_left cache_put ms cache) (client_urn m) = Some m.
Proof.
  revert cache. induction ms as [|m0 ms IH]; intros cache Hnd Hin; simpl;
    [destruct Hin|].
  simpl in Hnd. inversion Hnd as [|? ? Hnot Hnd']; subst.
  destruct Hin as [->|Hin].
  - rewrite get_fold_put_other by exact Hnot. apply get_put_same.
  - now apply IH.
Qed.

Lemma get_fold_put_inv (ms : list ExportedMetadata) (cache : Cache) k m :
  Dict.get String.eqb (fold_left cache_put ms cache) k = Some m ->
  (In m ms /\ client_urn m = k) \/ Dict.get String.eqb cache k = Some m.
Proof.
  revert cache. induction ms as [|m0 ms IH]; intros cache; simpl; [auto|].
  intros H. destruct (IH _ H) as [[Hin Hk]|Hc]; [auto|].
  destruct (string_dec (client_urn m0) k) as [E|E].
  - subst k. rewrite get_put_same in Hc. injection Hc as ->. auto.
  - rewrite get_put_other in Hc by exact E. auto.
Qed.

(** The cache keeps its invariant. *)
Lemma cache_wf_fold_put (ms : list ExportedMetadata) (cache : Cache) :
  cache_wf cache -> cache_wf (fold_left cache_put ms cache).
Proof.
  intros Hwf k m H. apply get_fold_put_inv in H.
  destruct H as [[_ Hk]|Hc]; [exact Hk|now apply Hwf].
Qed.

Lemma cache_wf_empty : cache_wf [].
Proof. intros k m H. discriminate. Qed.
End CacheFacts.

Lemma has_key_get {V} (d : Dict.t string V) k :
  Dict.has_key String.eqb d k = true <-> exists v, Dict.get String.eqb d k = Some v.
Proof.
  unfold Dict.has_key. destruct (Dict.get String.eqb d k) as [v|].
  - split; eauto.
  - split; [discriminate|intros [v H]; discriminate].
Qed.

Lemma flat_map_filter_skip {A B} (P : A -> bool) (g : A -> list B) (l : list A) :
  (forall x, In x l -> P x = false -> g x = []) ->
  flat_map g (filter P l) = flat_map g l.
Proof.
  induction l as [|x l IH]; intros H; simpl; [reflexivity|].
  destruct (P x) eqn:E; simpl.
  - rewrite IH; [reflexivity|]. intros y Hy. apply H. now right.
  - rewrite (H x (or_introl eq_refl) E). simpl.
    apply IH. intros y Hy. apply H. now right.
Qed.

Lemma filter_filter_implied {A} (P Q : A -> bool) (l : list A) :
  (forall x, In x l -> P x = true -> Q x = true) ->
  filter P (filter Q l) = filter P l.
Proof.
  induction l as [|x l IH]; intros H; simpl; [reflexivity|].
  assert (IH' : filter P (filter Q l) = filter P l)
    by (apply IH; intros y Hy; apply H; now right).
  destruct (Q x) eqn:EQ; simpl.
  - now rewrite IH'.
  - destruct (P x) eqn:EP; [|exact IH'].
    rewrite (H x (or_introl eq_refl) EP) in EQ. discriminate.
Qed.

Lemma filter_comm {A} (P Q : A -> bool) (l : list A) :
  filter P (filter Q l) = filter Q (filter P l).
Proof.
  induction l as [|x l IH]; simpl; [reflexivity|].
  destruct (P x) eqn:EP, (Q x) eqn:EQ; simpl; rewrite ?EP, ?EQ, IH; reflexivity.
Qed.

Lemma map_filter_key {A B} (f : A -> B) (P : B -> bool) (l : list A) :
  map f (filter (fun x => P (f x)) l) = filter P (map f l).
Proof.
  induction l as [|x l IH]; simpl; [reflexivity|].
  destruct (P (f x)); simpl; now rewrite IH.
Qed.

Section ResolvedFacts.
Variable env : Env.
Variable cache : Cache.
Variable pairs : list (ExportedMetadata * GrrMessage).
Hypothesis Hstore : store_wf env.
Hypothesis Hcache : cache_wf cache.

Lemma sources_In k :
  In k (sources env pairs) <-> exists p, In p pairs /\ fst (snd p) = k.
Proof.
  unfold sources. rewrite sort_by_In, first_seen_In, in_map_iff. simpl. split.
  - intros [[p [E Hin]] _]. eauto.
  - intros [p [Hin E]]. split; [eauto|tauto].
Qed.

Lemma MultiOpen_In (urns : list RDFURN) (fd : Opened) :
  In fd (MultiOpen env urns) <-> exists u, In u urns /\ store env u = Some fd.
Proof.
  unfold MultiOpen. rewrite sort_by_In, in_flat_map. split.
  - intros [u [Hin H]]. exists u. split; [exact Hin|].
    destruct (store env u) as [fd'|]; [|destruct H].
    destruct H as [->|[]]. reflexivity.
  - intros [u [Hin H]]. exists u. split; [exact Hin|].
    rewrite H. now left.
Qed.

Lemma MultiOpen_urns (urns : list RDFURN) :
  map (fun fd : Opened => urn (fst fd)) (MultiOpen env urns)
  = sort_by (open_rank env)
      (filter (fun u => match store env u with
                        | Some _ => true
                        | None => false
                        end) urns).
Proof.
  unfold MultiOpen.
  rewrite (map_sort_by (fun fd : Opened => urn (fst fd)) (open_rank env)).
  f_equal.
  induction urns as [|u urns IH]; simpl; [reflexivity|].
  destruct (store env u) as [fd|] eqn:E; simpl; [|exact IH].
  rewrite (Hstore _ E), IH. reflexivity.
Qed.

Lemma fetched_urns :
  map client_urn (fetched_objects env cache pairs)
  = sort_by (open_rank env)
      (filter (fun u => match store env u with
                        | Some _ => true
                        | None => false
                        end) (sources_to_fetch env cache pairs)).
Proof.
  unfold fetched_objects. rewrite map_map.
  exact (MultiOpen_urns (sources_to_fetch env cache pairs)).
Qed.

Lemma fetched_NoDup : NoDup (map client_urn (fetched_objects env cache pairs)).
Proof.
  rewrite fetched_urns. apply sort_by_NoDup, NoDup_filter.
  unfold sources_to_fetch, sources.
  apply NoDup_filter, sort_by_NoDup, first_seen_NoDup.
Qed.

(** What is fetched was not in the cache. *)
Lemma fetched_not_cached m :
  In m (fetched_objects env cache pairs) ->
  In (client_urn m) (sources env pairs)
  /\ Dict.get String.eqb cache (client_urn m) = None.
Proof.
  intros Hin. apply (in_map client_urn) in Hin. rewrite fetched_urns in Hin.
  apply sort_by_In, filter_In in Hin. destruct Hin as [Hin _].
  unfold sources_to_fetch in Hin. apply filter_In in Hin.
  destruct Hin as [Hs Hk]. split; [exact Hs|].
  unfold Dict.has_key in Hk.
  destruct (Dict.get String.eqb cache (client_urn m)); [discriminate|reflexivity].
Qed.

Lemma cached_In m :
  In m (cached_objects env cache pairs)
  <-> exists k, In k (sources env pairs) /\ Dict.get String.eqb cache k = Some m.
Proof.
  unfold cached_objects. rewrite in_flat_map. split.
  - intros [k [Hk H]]. exists k. split; [exact Hk|].
    destruct (Dict.get String.eqb cache k) as [m'|]; [|destruct H].
    destruct H as [->|[]]. reflexivity.
  - intros [k [Hk H]]. exists k. split; [exact Hk|]. rewrite H. now left.
Qed.

(** What was in the cache stays as it was. *)
Lemma cache_after_cached k m :
  Dict.get String.eqb cache k = Some m ->
  Dict.get String.eqb (cache_after env cache pairs) k = Some m.
Proof.
  intros H. unfold cache_after. rewrite get_fold_put_other; [exact H|].
  intros Hin. apply in_map_iff in Hin. destruct Hin as [m' [E Hm']].
  apply fetched_not_cached in Hm'. rewrite E in Hm'. destruct Hm'. congruence.
Qed.

(** Every metadata object used for the batch is what the cache holds,
    after the lookup, for its client. *)
Lemma objects_in_cache_after m :
  In m (cached_objects env cache pairs ++ fetched_objects env cache pairs) ->
  In (client_urn m) (sources env pairs)
  /\ Dict.get String.eqb (cache_after env cache pairs) (client_urn m) = Some m.
Proof.
  rewrite in_app_iff. intros [Hc|Hf].
  - apply cached_In in Hc. destruct Hc as [k [Hk Hget]].
    rewrite (Hcache _ Hget). split; [exact Hk|now apply cache_after_cached].
  - split; [now apply fetched_not_cached|].
    unfold cache_after. apply get_fold_put_In; [apply fetched_NoDup|exact Hf].
Qed.

(** Conversely what the cache holds after the lookup for a source of
    the batch is one of the metadata objects used. *)
Lemma cache_after_objects k m :
  In k (sources env pairs) ->
  Dict.get String.eqb (cache_after env cache pairs) k = Some m ->
  In m (cached_objects env cache pairs ++ fetched_objects env cache pairs)
  /\ client_urn m = k.
Proof.
  intros Hk H. unfold cache_after in H. apply get_fold_put_inv in H.
  rewrite in_app_iff. destruct H as [[Hin E]|Hc].
  - auto.
  - split; [|now apply Hcache]. left. apply cached_In. eauto.
Qed.

Lemma entries_In (objs : list ExportedMetadata) new_metadata payload :
  In (new_metadata, payload) (flat_map (entries_of pairs) objs)
  <-> exists m original_metadata,
        In m objs
        /\ In (original_metadata, (client_urn m, payload)) pairs
        /\ new_metadata = new_metadata_of m original_metadata.
Proof.
  rewrite in_flat_map. unfold entries_of. split.
  - intros [m [Hm Hin]]. apply in_map_iff in Hin.
    destruct Hin as [[orig [source pl]] [[= <- <-] Hp]].
    apply filter_In in Hp. destruct Hp as [Hp E]. simpl in E.
    apply String.eqb_eq in E. subst source.
    exists m, orig. auto.
  - intros [m [orig [Hm [Hp ->]]]]. exists m. split; [exact Hm|].
    apply in_map_iff. exists (orig, (client_urn m, payload)).
    split; [reflexivity|]. apply filter_In. split; [exact Hp|].
    simpl. apply String.eqb_refl.
Qed.

(** [batch_data] holds exactly the payloads of the messages whose source
    is in the cache after the lookup, each with the metadata the cache
    holds for that source, overridden from the message's own metadata. *)
Lemma batch_data_In new_metadata payload :
  In (new_metadata, payload) (fst (batch_data_of env cache pairs))
  <-> exists original_metadata source metadata,
        In (original_metadata, (source, payload)) pairs
        /\ Dict.get String.eqb (snd (batch_data_of env cache pairs)) source
           = Some metadata
        /\ new_metadata = new_metadata_of metadata original_metadata.
Proof.
  rewrite batch_data_of_closed. cbn [fst snd]. rewrite entries_In. split.
  - intros [m [orig [Hm [Hp ->]]]].
    exists orig, (client_urn m), m. split; [exact Hp|].
    split; [|reflexivity]. now apply objects_in_cache_after.
  - intros [orig [source [m [Hp [Hget ->]]]]].
    assert (Hs : In source (sources env pairs)).
    { apply sources_In. exists (orig, (source, payload)). auto. }
    destruct (cache_after_objects _ Hs Hget) as [Hm E]. subst source.
    exists m, orig. auto.
Qed.
End ResolvedFacts.

Lemma new_metadata_of_fields (metadata original_metadata : ExportedMetadata) :
  same_descriptive_fields (new_metadata_of metadata original_metadata) metadata
  /\ timestamp (new_metadata_of metadata original_metadata)
     = timestamp original_metadata
  /\ source_urn (new_metadata_of metadata original_metadata)
     = source_urn original_metadata.
Proof. unfold same_descriptive_fields. repeat split. Qed.

(** Once the converters of the first payload are constructed, the value
    returned is their conversion of [batch_data]. *)
Lemma BatchConvert_runs_on_batch_data (env : Env)
    (GetConverters : Value -> list ConverterClass) (options : ExportOptions)
    (cache : Cache) (first : ExportedMetadata * GrrMessage)
    (rest : list (ExportedMetadata * GrrMessage)) (converters : list Converter) :
  Res.mapM (fun cls => construct cls [Some options])
    (GetConverters (snd (snd first))) = Ok converters ->
  GrrMessageConverter_BatchConvert env GetConverters options cache (first :: rest)
  = (convert_with converters (fst (batch_data_of env cache (first :: rest))),
     snd (batch_data_of env cache (first :: rest))).
Proof.
  intros Hm. unfold GrrMessageConverter_BatchConvert.
  destruct first as [metadata first_message]. cbn [snd] in Hm. cbn [snd].
  rewrite Hm. destruct (batch_data_of env cache _). reflexivity.
Qed.

(** C7. For every message whose source is in the cache after the lookup,
    the metadata paired with its payload in [batch_data] (what the
    converters of the payload are given) agrees with the metadata the
    cache holds for that source on every field but [timestamp] and
    [source_urn], and these two are the ones of the metadata given with
    the message; and [batch_data] holds nothing else. *)
Theorem enriched_metadata_overrides_only_provenance :
  forall (env : Env) (cache : Cache)
         (metadata_value_pairs : list (ExportedMetadata * GrrMessage)),
    store_wf env -> cache_wf cache ->
    let batch_data := fst (batch_data_of env cache metadata_value_pairs) in
    let cache' := snd (batch_data_of env cache metadata_value_pairs) in
    (forall original_metadata source payload metadata,
        In (original_metadata, (source, payload)) metadata_value_pairs ->
        Dict.get String.eqb cache' source = Some metadata ->
        exists new_metadata,
          In (new_metadata, payload) batch_data
          /\ same_descriptive_fields new_metadata metadata
          /\ timestamp new_metadata = timestamp original_metadata
          /\ source_urn new_metadata = source_urn original_metadata)
    /\ (forall new_metadata payload,
           In (new_metadata, payload) batch_data ->
           exists original_metadata source metadata,
             In (original_metadata, (source, payload)) metadata_value_pairs
             /\ Dict.get String.eqb cache' source = Some metadata
             /\ same_descriptive_fields new_metadata metadata
             /\ timestamp new_metadata = timestamp original_metadata
             /\ source_urn new_metadata = source_urn original_metadata).
Proof.
  intros env cache pairs Hstore Hcache batch_data cache'. split.
  - intros orig source payload metadata Hin Hget.
    exists (new_metadata_of metadata orig).
    split; [|apply new_metadata_of_fields].
    apply (@batch_data_In env cache pairs Hstore Hcache).
    exists orig, source, metadata. auto.
  - intros new_metadata payload Hin.
    apply (@batch_data_In env cache pairs Hstore Hcache) in Hin.
    destruct Hin as [orig [source [metadata [Hp [Hget ->]]]]].
    exists orig, source, metadata.
    split; [exact Hp|]. split; [exact Hget|]. apply new_metadata_of_fields.
Qed.

Lemma store_wf_env2 : store_wf Examples.env2.
Proof.
  intros u fd. simpl.
  destruct (String.eqb_spec u "aff4:/C.0000000000000001") as [->|E];
    [|discriminate].
  intros [= <-]. reflexivity.
Qed.

Lemma enriched_metadata_overrides_only_provenance_witness :
  store_wf Examples.env2 /\ cache_wf []
  /\ exists new_metadata,
       In (new_metadata, Process_ Examples.process1)
         (fst (batch_data_of Examples.env2 []
                 [Examples.message1; Examples.message2]))
       /\ same_descriptive_fields new_metadata
            (GetMetadata Examples.env2 Examples.client1)
       /\ timestamp new_metadata = timestamp Examples.metadata1
       /\ source_urn new_metadata = source_urn Examples.metadata1.
Proof.
  split; [exact store_wf_env2|]. split; [exact cache_wf_empty|].
  refine (proj1 (enriched_metadata_overrides_only_provenance
                   [Examples.message1; Examples.message2]
                   store_wf_env2 cache_wf_empty)
            Examples.metadata1 (urn Examples.client1)
            (Process_ Examples.process1)
            (GetMetadata Examples.env2 Examples.client1) _ _).
  - now left.
  - reflexivity.
Defined.

Section DroppedFacts.
Variable env : Env.
Variable cache : Cache.
Variable pairs : list (ExportedMetadata * GrrMessage).
Hypothesis Hstore : store_wf env.
Hypothesis Hcache : cache_wf cache.

Lemma resolved_pairs_closed :
  resolved_pairs env cache pairs
  = filter (fun pair : ExportedMetadata * GrrMessage =>
              is_resolved env cache pairs (fst (snd pair))) pairs.
Proof.
  unfold resolved_pairs, is_resolved. now rewrite batch_data_of_closed.
Qed.

Lemma sources_kept :
  sources env (resolved_pairs env cache pairs)
  = filter (is_resolved env cache pairs) (sources env pairs).
Proof.
  rewrite resolved_pairs_closed. unfold sources.
  rewrite (map_filter_key (fun pair : ExportedMetadata * GrrMessage =>
                             fst (snd pair)) (is_resolved env cache pairs)).
  now rewrite filter_sort_by, first_seen_filter.
Qed.

Lemma cached_kept : cached_objects env cache (resolved_pairs env cache pairs) = cached_objects env cache pairs.
Proof.
  unfold cached_objects. rewrite sources_kept.
  apply flat_map_filter_skip. intros k _ Hk.
  destruct (Dict.get String.eqb cache k) as [m|] eqn:E; [|reflexivity].
  apply (@cache_after_cached env cache pairs Hstore) in E.
  unfold is_resolved, Dict.has_key in Hk. rewrite E in Hk. discriminate.
Qed.

Lemma MultiOpen_kept :
  MultiOpen env (sources_to_fetch env cache (resolved_pairs env cache pairs))
  = MultiOpen env (sources_to_fetch env cache pairs).
Proof.
  unfold sources_to_fetch. rewrite sources_kept, filter_comm.
  unfold MultiOpen. f_equal. apply flat_map_filter_skip. intros k Hk Hres.
  destruct (store env k) as [fd|] eqn:E; [|reflexivity].
  exfalso.
  assert (Hin : In (GetMetadata env (fst fd)) (fetched_objects env cache pairs)).
  { unfold fetched_objects. apply in_map_iff. exists fd. split; [reflexivity|].
    apply MultiOpen_In. exists k. auto. }
  assert (Hget : Dict.get String.eqb (cache_after env cache pairs)
                   (client_urn (GetMetadata env (fst fd)))
                 = Some (GetMetadata env (fst fd))).
  { unfold cache_after. apply get_fold_put_In; [|exact Hin].
    now apply fetched_NoDup. }
  assert (Hk' : client_urn (GetMetadata env (fst fd)) = k)
    by (simpl; now apply Hstore).
  rewrite Hk' in Hget.
  unfold is_resolved, Dict.has_key in Hres. rewrite Hget in Hres. discriminate.
Qed.

Lemma fetched_kept :
  fetched_objects env cache (resolved_pairs env cache pairs) = fetched_objects env cache pairs.
Proof. unfold fetched_objects. now rewrite MultiOpen_kept. Qed.

Lemma cache_after_kept : cache_after env cache (resolved_pairs env cache pairs) = cache_after env cache pairs.
Proof. unfold cache_after. now rewrite fetched_kept. Qed.

Lemma entries_kept m :
  In m (cached_objects env cache pairs ++ fetched_objects env cache pairs) ->
  entries_of (resolved_pairs env cache pairs) m = entries_of pairs m.
Proof.
  intros Hm. rewrite resolved_pairs_closed. unfold entries_of. f_equal.
  apply filter_filter_implied. intros [orig [source payload]] _ Hp.
  cbn [fst snd] in *. apply String.eqb_eq in Hp. subst source.
  destruct (@objects_in_cache_after env cache pairs Hstore Hcache m Hm)
    as [_ Hget].
  unfold is_resolved, Dict.has_key. now rewrite Hget.
Qed.

(** Taking the unresolved messages out of the batch changes neither
    [batch_data] nor the cache. *)
Lemma batch_data_of_kept :
  batch_data_of env cache (resolved_pairs env cache pairs) = batch_data_of env cache pairs.
Proof.
  rewrite !batch_data_of_closed.
  rewrite cached_kept, fetched_kept, cache_after_kept. f_equal.
  assert (E : forall objs,
             (forall m, In m objs ->
                        In m (cached_objects env cache pairs
                                ++ fetched_objects env cache pairs)) ->
             flat_map (entries_of (resolved_pairs env cache pairs)) objs = flat_map (entries_of pairs) objs).
  { induction objs as [|m objs IH]; intros Hsub; simpl; [reflexivity|].
    rewrite entries_kept by (apply Hsub; now left).
    rewrite IH; [reflexivity|]. intros m' Hm'. apply Hsub. now right. }
  apply E. auto.
Qed.
End DroppedFacts.

(** The loop over the converters ends with the exception of the first
    converter that raises, and with all the outputs when none does. *)
Lemma convert_with_clean (converters : list Converter)
    (batch_data : list Pair) :
  (forall c, In c converters ->
     G.raised (G.consume (BatchConvert c batch_data)) = None) ->
  convert_with converters batch_data
  = Ok (flat_map (fun c => G.yields (G.consume (BatchConvert c batch_data)))
          converters).
Proof.
  induction converters as [|c converters IH]; intros Hclean; [reflexivity|].
  cbn [convert_with flat_map].
  pose proof (Hclean c (or_introl eq_refl)) as Hc.
  destruct (G.consume (BatchConvert c batch_data)) as [ys [[]|e]];
    [|discriminate Hc].
  rewrite IH by (intros c' Hc'; apply Hclean; now right). reflexivity.
Qed.

Lemma convert_with_raises (before after : list Converter) (c : Converter)
    (batch_data : list Pair) (ys : list Exported) (e : PyExc) :
  (forall c', In c' before ->
     G.raised (G.consume (BatchConvert c' batch_data)) = None) ->
  G.consume (BatchConvert c batch_data) = (ys, Raise e) ->
  convert_with (before ++ c :: after) batch_data = Raise e.
Proof.
  intros Hbefore Hc. induction before as [|c0 before IH].
  - cbn [app convert_with]. now rewrite Hc.
  - cbn [app convert_with].
    pose proof (Hbefore c0 (or_introl eq_refl)) as H0.
    destruct (G.consume (BatchConvert c0 batch_data)) as [zs [[]|e0]];
      [|discriminate H0].
    rewrite IH by (intros c' Hc'; apply Hbefore; now right). reflexivity.
Qed.

(** C6 (amended). The messages whose source is still absent from the cache
    after the batched lookup are left out of what the converters are
    given: [batch_data] and the cache are what they would be had these
    messages not been in the batch, and every entry of [batch_data] is the
    payload of a message with a resolved source, so no record is made of a
    dropped message and no metadata is made up for it.  Dropping raises
    nothing by itself, but the call is not thereby free of errors: for a
    batch that is not empty and whose first payload has converters that
    can be constructed, the value returned is the conversion of the
    remaining [batch_data] by these converters.  It is their outputs, one
    converter after the other, when none of them raises on that batch, and
    the exception of the first converter that raises otherwise; and when
    every message was dropped the converters are given the empty batch. *)
Theorem unresolved_messages_are_dropped :
  forall (env : Env) (cache : Cache)
         (metadata_value_pairs : list (ExportedMetadata * GrrMessage)),
    store_wf env -> cache_wf cache ->
    let kept := resolved_pairs env cache metadata_value_pairs in
    batch_data_of env cache kept = batch_data_of env cache metadata_value_pairs
    /\ (forall new_metadata payload,
           In (new_metadata, payload)
             (fst (batch_data_of env cache metadata_value_pairs)) ->
           exists original_metadata source,
             In (original_metadata, (source, payload)) kept)
    /\ (kept = [] ->
        fst (batch_data_of env cache metadata_value_pairs) = [])
    /\ (forall GetConverters options first rest converters,
           metadata_value_pairs = first :: rest ->
           Res.mapM (fun cls => construct cls [Some options])
             (GetConverters (snd (snd first))) = Ok converters ->
           let batch_data := fst (batch_data_of env cache kept) in
           let call :=
             GrrMessageConverter_BatchConvert env GetConverters options cache
               metadata_value_pairs in
           call = (convert_with converters batch_data,
                   snd (batch_data_of env cache kept))
           /\ ((forall c, In c converters ->
                  G.raised (G.consume (BatchConvert c batch_data)) = None) ->
               fst call
               = Ok (flat_map
                       (fun c => G.yields
                                   (G.consume (BatchConvert c batch_data)))
                       converters))
           /\ (forall before c after ys e,
                  converters = before ++ c :: after ->
                  (forall c', In c' before ->
                     G.raised (G.consume (BatchConvert c' batch_data))
                     = None) ->
                  G.consume (BatchConvert c batch_data) = (ys, Raise e) ->
                  fst call = Raise e)).
Proof.
  intros env cache pairs Hstore Hcache kept.
  assert (Hkept : batch_data_of env cache kept = batch_data_of env cache pairs).
  { now apply batch_data_of_kept. }
  split; [exact Hkept|]. split; [|split].
  - intros new_metadata payload Hin.
    apply (@batch_data_In env cache pairs Hstore Hcache) in Hin.
    destruct Hin as [orig [source [metadata [Hp [Hget _]]]]].
    exists orig, source. unfold kept, resolved_pairs.
    apply filter_In. split; [exact Hp|].
    cbn [fst snd]. unfold Dict.has_key. now rewrite Hget.
  - intros Hnone. rewrite <- Hkept, Hnone. reflexivity.
  - intros GetConverters options first rest converters -> Hm batch_data call.
    assert (Hcall : call = (convert_with converters batch_data,
                            snd (batch_data_of env cache kept))).
    { subst call batch_data. rewrite Hkept.
      now apply BatchConvert_runs_on_batch_data. }
    split; [exact Hcall|]. split.
    + intros Hclean. rewrite Hcall. cbn [fst].
      now apply convert_with_clean.
    + intros before c after ys e -> Hbefore Hc. rewrite Hcall. cbn [fst].
      now apply (@convert_with_raises before after c batch_data ys e).
Qed.

Lemma unresolved_messages_are_dropped_witness :
  store_wf Examples.env2 /\ cache_wf []
  /\ resolved_pairs Examples.env2 [] [Examples.message1; Examples.message2]
     = [Examples.message1]
  /\ batch_data_of Examples.env2 []
       (resolved_pairs Examples.env2 [] [Examples.message1; Examples.message2])
     = batch_data_of Examples.env2 [] [Examples.message1; Examples.message2].
Proof.
  split; [exact store_wf_env2|]. split; [exact cache_wf_empty|].
  split; [reflexivity|].
  exact (proj1 (unresolved_messages_are_dropped
                  [Examples.message1; Examples.message2]
                  store_wf_env2 cache_wf_empty)).
Defined.

(** C6, the claim as it was stated fails.  A message whose source the
    store does not hold and whose payload is itself a message: it is
    dropped, the converter of its payload (a message converter) is given
    the empty batch and raises [IndexError] on it, and the error reaches
    the caller of the engine.  The same message with a source the store
    holds is converted to two records. *)
Theorem dropped_message_ends_with_error :
  let lookup :=
    GetConvertersByValue (ExportConverter_classes Examples.env2 1) in
  let inner := GrrMessage_ (urn Examples.client1)
                 (Process_ Examples.process1) in
  let unresolved :=
    [(Examples.metadata1, ("aff4:/C.0000000000000002", inner))] in
  let resolved :=
    [(Examples.metadata1, (urn Examples.client1, inner))] in
  store_wf Examples.env2 /\ cache_wf []
  /\ resolved_pairs Examples.env2 [] unresolved = []
  /\ fst (GrrMessageConverter_BatchConvert Examples.env2 lookup
            ExportOptions_default [] unresolved)
     = Raise IndexError
  /\ ConvertValuesWithMetadata Examples.env2
       (ExportConverter_classes Examples.env2 2)
       [(Examples.metadata1, GrrMessage_ "aff4:/C.0000000000000002" inner)]
       None
     = ([], Raise IndexError)
  /\ exists records,
       fst (GrrMessageConverter_BatchConvert Examples.env2 lookup
              ExportOptions_default [] resolved)
       = Ok records
       /\ List.length records = 2.
Proof.
  intros lookup inner unresolved resolved.
  split; [exact store_wf_env2|]. split; [exact cache_wf_empty|].
  split; [reflexivity|]. split; [reflexivity|]. split; [reflexivity|].
  eexists. split; reflexivity.
Qed.

(** ** Further properties *)

(** X1. [GrrMessageConverter.BatchConvert] keeps the invariant of its
    cache: whatever the batch and whether or not it ends with an error,
    metadata stays filed under its own [client_urn]; the cache of a new
    converter is empty and has the invariant. *)
Theorem cached_metadata_stays_well_formed :
  forall (env : Env) (GetConverters : Value -> list ConverterClass)
         (options : ExportOptions) (cache : Cache)
         (metadata_value_pairs : list (ExportedMetadata * GrrMessage)),
    cache_wf cache ->
    cache_wf (snd (GrrMessageConverter_BatchConvert env GetConverters options
                     cache metadata_value_pairs))
    /\ cache_wf [].
Proof.
  intros env GetConverters options cache pairs Hwf.
  split; [|exact cache_wf_empty].
  unfold GrrMessageConverter_BatchConvert.
  destruct pairs as [|[metadata first_message] rest]; [exact Hwf|].
  destruct (Res.mapM _ _) as [converters|e]; [|exact Hwf].
  rewrite batch_data_of_closed. cbn [snd].
  unfold cache_after. now apply cache_wf_fold_put.
Qed.

Lemma cached_metadata_stays_well_formed_witness :
  cache_wf []
  /\ cache_wf (snd (GrrMessageConverter_BatchConvert Examples.env2
                      (GetConvertersByValue
                         (ExportConverter_classes Examples.env2 1))
                      ExportOptions_default []
                      [Examples.message1; Examples.message2])).
Proof.
  split; [exact cache_wf_empty|].
  exact (proj1 (cached_metadata_stays_well_formed Examples.env2
                  (GetConvertersByValue (ExportConverter_classes Examples.env2 1))
                  ExportOptions_default
                  [Examples.message1; Examples.message2] cache_wf_empty)).
Defined.

(** X2. When every pair has a converter and the converters involved work
    record by record, [ConvertValuesWithMetadata] ends without error and
    what it yields is, up to order, what the converters of each pair yield
    for that pair alone: grouping by class loses and adds nothing. *)
Theorem engine_yields_per_record_outputs :
  forall (env : Env) (classes : list ConverterClass)
         (options : option ExportOptions) (metadata_value_pairs : list Pair),
    record_wise classes options metadata_value_pairs ->
    all_matched classes metadata_value_pairs ->
    G.raised (ConvertValuesWithMetadata env classes metadata_value_pairs options)
    = None
    /\ Permutation
         (G.yields (ConvertValuesWithMetadata env classes metadata_value_pairs
                      options))
         (flat_map (per_record classes options) metadata_value_pairs).
Proof.
  intros env classes options pairs Hrecord Hmatched.
  destruct (engine_record_wise env Hrecord Hmatched pairs (fun q H => H))
    as [ys [Hys Hp]].
  rewrite Hys. split; [reflexivity|exact Hp].
Qed.

Lemma engine_yields_per_record_outputs_witness :
  let env := Examples.env1 in
  let classes := ExportConverter_classes env 1 in
  let pairs := [(Examples.metadata1, Process_ Examples.process1);
                (Examples.metadata1, Process_ Examples.process1)] in
  record_wise classes None pairs
  /\ all_matched classes pairs
  /\ Permutation (G.yields (ConvertValuesWithMetadata env classes pairs None))
       (flat_map (per_record classes None) pairs).
Proof.
  intros env classes pairs.
  assert (Hp : forall q, In q pairs -> exists process, snd q = Process_ process).
  { intros q Hq. simpl in Hq. destruct Hq as [<-|[<-|[]]]; simpl; eauto. }
  destruct (process_converters_record_wise env 1 None pairs Hp) as [Hr Hm].
  split; [exact Hr|]. split; [exact Hm|].
  exact (proj2 (engine_yields_per_record_outputs env Hr Hm)).
Defined.

(** * Further properties of the converters *)

Lemma yield_then {Y : Type} (y : Y) (g : Iter Y) :
  (G.yield y ;;; g)%gen = (y :: fst g, snd g).
Proof. destruct g as [ys r]. reflexivity. Qed.

Lemma lift_ok_then {Y A B : Type} (a : A) (k : A -> Gen Y B) :
  (x <- G.lift (Ok a) ;; k x)%gen = k a.
Proof. unfold G.bind, G.lift. destruct (k a). reflexivity. Qed.

Lemma bind_tt_r {Y : Type} (g : Iter Y) : (g ;;; G.ret tt)%gen = g.
Proof.
  destruct g as [ys [[]|e]]; [|reflexivity].
  unfold G.bind, G.ret. now rewrite app_nil_r.
Qed.

Lemma for_ext {Y X : Type} (xs : list X) (f g : X -> Gen Y unit) :
  (forall x, f x = g x) -> G.for_ xs f = G.for_ xs g.
Proof.
  intros H. induction xs as [|x xs IH]; [reflexivity|].
  cbn [G.for_]. now rewrite H, IH.
Qed.

Lemma for_cons {Y X : Type} (x : X) (xs : list X) (body : X -> Gen Y unit) :
  G.for_ (x :: xs) body = (body x ;;; G.for_ xs body)%gen.
Proof. reflexivity. Qed.

(** ** The engine on a batch of one class *)

Lemma fold_append_same_key {X : Type} (key : X -> string) (k : string)
    (items acc : list X) :
  (forall x, In x items -> key x = k) ->
  fold_left (fun d x => Dict.append String.eqb d (key x) x) items [(k, acc)]
  = [(k, acc ++ items)].
Proof.
  revert acc. induction items as [|x items IH]; intros acc Hk.
  - cbn [fold_left]. now rewrite app_nil_r.
  - cbn [fold_left Dict.append].
    rewrite (Hk x (or_introl eq_refl)), String.eqb_refl.
    rewrite IH by (intros y Hy; apply Hk; now right).
    now rewrite <- app_assoc.
Qed.

(** Values of one class make one group. *)
Lemma GroupBy_single_key {X : Type} (key : X -> string) (x : X)
    (items : list X) :
  (forall y, In y items -> key y = key x) ->
  GroupBy (x :: items) key = [(key x, x :: items)].
Proof.
  intros Hk. unfold GroupBy. cbn [fold_left Dict.append].
  now rewrite fold_append_same_key.
Qed.

Section EngineOnOneClass.
Variable env : Env.
Variable classes : list ConverterClass.
Variable options : option ExportOptions.
Variables (metadata : ExportedMetadata) (v : Value) (rest : list Pair).
Hypothesis one_class :
  forall q, In q rest -> class_name (snd q) = class_name v.

Lemma engine_one_class_groups :
  ConvertValuesWithMetadata env classes ((metadata, v) :: rest) options
  = (no_converter_found_error <-
       convert_groups env classes options
         [(class_name v, (metadata, v) :: rest)] None ;;
     match no_converter_found_error with
     | Some msg => G.raise (NoConverterFound msg)
     | None => G.ret tt
     end)%gen.
Proof.
  unfold ConvertValuesWithMetadata.
  exact (f_equal
           (fun groups =>
              (no_converter_found_error <-
                 convert_groups env classes options groups None ;;
               match no_converter_found_error with
               | Some msg => G.raise (NoConverterFound msg)
               | None => G.ret tt
               end)%gen)
           (@GroupBy_single_key Pair (fun pair => class_name (snd pair))
              (metadata, v) rest one_class)).
Qed.

(** No converter for the class: the error comes after the (only) group. *)
Lemma engine_one_class_unmatched :
  GetConvertersByValue classes v = [] ->
  ConvertValuesWithMetadata env classes ((metadata, v) :: rest) options
  = G.raise (NoConverterFound (no_converter_message env v)).
Proof.
  intros Hget. rewrite engine_one_class_groups.
  rewrite (@convert_groups_cons env classes options). rewrite Hget.
  reflexivity.
Qed.

(** The converters of the class run one after the other on the whole
    batch. *)
Lemma engine_one_class_run (cls : ConverterClass) (cs : list ConverterClass)
    (converters : list Converter) :
  GetConvertersByValue classes v = cls :: cs ->
  Res.mapM (fun c => construct c [options]) (cls :: cs) = Ok converters ->
  ConvertValuesWithMetadata env classes ((metadata, v) :: rest) options
  = G.for_ converters (fun converter =>
      G.consume (BatchConvert converter ((metadata, v) :: rest))).
Proof.
  intros Hget Hmk. rewrite engine_one_class_groups.
  rewrite (@convert_groups_cons env classes options). rewrite Hget, Hmk.
  rewrite lift_ok_then.
  rewrite (for_ext converters _
             (fun converter =>
                G.consume (BatchConvert converter ((metadata, v) :: rest))))
    by (intros c; apply for_in_yield).
  set (loop := G.for_ converters _).
  destruct loop as [ys [[]|e]]; [|reflexivity].
  cbn [G.bind convert_groups G.ret G.raise]. now rewrite !app_nil_r.
Qed.

(** A converter class that cannot be constructed ends the run. *)
Lemma engine_one_class_construct_raises (cls : ConverterClass)
    (cs : list ConverterClass) (e : PyExc) :
  GetConvertersByValue classes v = cls :: cs ->
  Res.mapM (fun c => construct c [options]) (cls :: cs) = Raise e ->
  ConvertValuesWithMetadata env classes ((metadata, v) :: rest) options
  = G.raise e.
Proof.
  intros Hget Hmk. rewrite engine_one_class_groups.
  rewrite (@convert_groups_cons env classes options). rewrite Hget, Hmk.
  reflexivity.
Qed.
End EngineOnOneClass.

(** Converters that can be constructed and convert the batch without
    error, run one after the other. *)
Lemma for_clean_blocks (options : option ExportOptions) (batch : list Pair)
    (block : ConverterClass -> list Exported) (cs : list ConverterClass) :
  (forall c, In c cs ->
     exists conv, construct c [options] = Ok conv
                  /\ G.consume (BatchConvert conv batch) = G.of_list (block c)) ->
  exists convs,
    Res.mapM (fun c => construct c [options]) cs = Ok convs
    /\ G.for_ convs (fun conv => G.consume (BatchConvert conv batch))
       = G.of_list (flat_map block cs).
Proof.
  induction cs as [|c cs IH]; intros Hclean.
  - exists []. split; reflexivity.
  - destruct (Hclean c (or_introl eq_refl)) as [conv [Hc Hrun]].
    destruct IH as [convs [Hm Hruns]];
      [intros c' Hc'; apply Hclean; now right|].
    exists (conv :: convs). split.
    + cbn [Res.mapM]. rewrite Hc, Hm. reflexivity.
    + cbn [G.for_ flat_map]. rewrite Hrun, Hruns. reflexivity.
Qed.

(** The engine on a batch of one class whose converters are clean: their
    outputs, one converter after the other, in the order of the
    registry. *)
Lemma engine_one_class_clean (env : Env) (depth : nat)
    (options : option ExportOptions) (metadata : ExportedMetadata)
    (v : Value) (rest : list Pair) (cs0 : list ConverterClass)
    (block : ConverterClass -> list Exported) :
  (forall q, In q rest -> class_name (snd q) = class_name v) ->
  GetConvertersByValue
    (registered env
       (match depth with
        | O => None
        | S depth' => Some (ExportConverter_classes env depth')
        end)) v = cs0 ->
  cs0 <> [] ->
  (forall c, In c cs0 ->
     exists conv, construct c [options] = Ok conv
                  /\ G.consume (BatchConvert conv ((metadata, v) :: rest))
                     = G.of_list (block c)) ->
  ConvertValuesWithMetadata env (ExportConverter_classes env depth)
    ((metadata, v) :: rest) options
  = G.of_list
      (flat_map block
         (sort_by (fun cls => class_rank env (cls_name cls)) cs0)).
Proof.
  intros Hone Hcs0 Hne Hclean.
  pose proof (converters_by_value env depth v) as Hget. rewrite Hcs0 in Hget.
  destruct (for_clean_blocks options ((metadata, v) :: rest) block
              (sort_by (fun cls => class_rank env (cls_name cls)) cs0))
    as [convs [Hm Hrun]].
  { intros c Hc. apply Hclean. now apply sort_by_In in Hc. }
  destruct (sort_by (fun cls => class_rank env (cls_name cls)) cs0)
    as [|c cs] eqn:Es.
  { apply sort_by_nil_inv in Es. contradiction. }
  rewrite (@engine_one_class_run env (ExportConverter_classes env depth)
             options metadata v rest Hone c cs convs Hget Hm).
  exact Hrun.
Qed.

(** A class that keeps the default [BatchConvert] and whose [Convert]
    returns lists, on a batch of its class. *)
Lemma default_batch_class_clean {V : Type} (cname input : string)
    (cast : Value -> option V)
    (convert : ExportOptions -> ExportedMetadata -> V -> Result (Iter Exported))
    (f : ExportedMetadata -> V -> list Exported)
    (options : option ExportOptions) (batch : list Pair)
    (typed : list (ExportedMetadata * V)) :
  (forall o metadata x, convert o metadata x = Ok (G.of_list (f metadata x))) ->
  Res.mapM (fun '(metadata, v) =>
              match cast v with
              | Some x => Ok (metadata, x)
              | None => Raise AttributeError
              end) batch = Ok typed ->
  exists conv,
    construct (plain_class cname input (default_batch cast convert)) [options]
    = Ok conv
    /\ G.consume (BatchConvert conv batch)
       = G.of_list (flat_map (fun t => f (fst t) (snd t)) typed).
Proof.
  intros Hconvert Hm.
  exists (default_batch cast convert
            (match options with
             | Some o => o
             | None => ExportOptions_default
             end)).
  split; [destruct options; reflexivity|].
  rewrite (@default_batch_typed V cast convert _ f
             (fun metadata x => Hconvert _ metadata x) batch typed Hm).
  reflexivity.
Qed.

Lemma concat_Permutation_length {A : Type} (blocks blocks' : list (list A)) :
  Permutation blocks blocks' ->
  List.length (List.concat blocks) = List.length (List.concat blocks').
Proof.
  intros H. apply Permutation_length.
  rewrite <- (map_id blocks), <- (map_id blocks').
  rewrite <- !flat_map_concat_map. now apply Permutation_flat_map.
Qed.

(** ** Files *)

Lemma filter_is_file_entry (pairs : list (ExportedMetadata * StatEntry)) :
  filter (fun '(_, stat_entry) =>
            match registry_type stat_entry with
            | Some _ => false
            | None => true
            end) pairs
  = filter is_file_entry pairs.
Proof.
  apply filter_ext. intros [md se]. reflexivity.
Qed.

(** What one pass of the [try] block leaves in a result that had no
    content yet. *)
Lemma fill_from_store_facts (env : Env) (options : ExportOptions)
    (fds_dict : Dict.t RDFURN Opened) (se : StatEntry) (r0 : ExportedFile) :
  content r0 = None -> content_sha256 r0 = None -> no_hash_field r0 ->
  (export_files_contents options = true ->
   forall fd, Dict.get String.eqb fds_dict (aff4path se) = Some fd ->
     read_handled (Read (fst fd) MAX_CONTENT_SIZE) = true) ->
  exists r,
    fill_from_store env options fds_dict se r0 = Ok r
    /\ stat_fields_only r = stat_fields_only r0
    /\ (export_files_hashes options = false -> no_hash_field r)
    /\ match content r, content_sha256 r with
       | Some c, Some digest =>
           export_files_contents options = true
           /\ digest = sha256_hexdigest env c
           /\ exists fd, Dict.get String.eqb fds_dict (aff4path se) = Some fd
                         /\ Read (fst fd) MAX_CONTENT_SIZE = Ok c
       | None, None => True
       | _, _ => False
       end.
Proof.
  intros Hc Hd Hh Hread. unfold fill_from_store.
  destruct (Dict.get String.eqb fds_dict (aff4path se)) as [[fd items]|] eqn:Hget.
  - set (r1 := if export_files_hashes options then _ else r0).
    assert (H1 : stat_fields_only r1 = stat_fields_only r0
                 /\ content r1 = None /\ content_sha256 r1 = None
                 /\ (export_files_hashes options = false -> no_hash_field r1)).
    { subst r1. destruct (export_files_hashes options).
      - destruct (HASH fd) as [h|].
        + unfold ParseFileHash, ParseSignedData.
          destruct (signed_data h); cbn.
          all: split; [reflexivity|]; split; [exact Hc|]; split; [exact Hd|].
          all: discriminate.
        + split; [reflexivity|]. split; [exact Hc|]. split; [exact Hd|].
          discriminate.
      - split; [reflexivity|]. split; [exact Hc|]. split; [exact Hd|].
        intros _. exact Hh. }
    destruct H1 as [Hs [Hc1 [Hd1 Hh1]]].
    destruct (export_files_contents options) eqn:Hopt.
    + specialize (Hread eq_refl (fd, items) eq_refl).
      change (fst (fd, items)) with fd in Hread.
      destruct (Read fd MAX_CONTENT_SIZE) as [c|e] eqn:HR.
      * exists (set_content c (sha256_hexdigest env c) r1).
        split; [reflexivity|]. split; [rewrite <- Hs; reflexivity|].
        split; [intros Hf; exact (Hh1 Hf)|].
        cbv beta iota delta [set_content content content_sha256].
        split; [reflexivity|]. split; [reflexivity|].
        exists (fd, items). split; [reflexivity|exact HR].
      * assert (Hout : match Raise e with
                       | Ok c => Ok (set_content c (sha256_hexdigest env c) r1)
                       | Raise IOError => Ok r1
                       | Raise AttributeError => Ok r1
                       | Raise KeyError => Ok r1
                       | Raise e' => Raise e'
                       end = Ok r1)
          by (destruct e; try reflexivity; discriminate Hread).
        exists r1. rewrite Hc1, Hd1.
        split; [exact Hout|]. split; [exact Hs|]. split; [exact Hh1|exact I].
    + exists r1. rewrite Hc1, Hd1.
      split; [reflexivity|]. split; [exact Hs|]. split; [exact Hh1|exact I].
  - exists r0. rewrite Hc, Hd.
    split; [reflexivity|]. split; [reflexivity|].
    split; [intros _; exact Hh|exact I].
Qed.

(** The loop over the filtered pairs, for any dictionary of opened
    objects that comes from the store. *)
Lemma file_loop (env : Env) (options : ExportOptions)
    (fds_dict : Dict.t RDFURN Opened)
    (l : list (ExportedMetadata * StatEntry)) :
  (forall k fd, Dict.get String.eqb fds_dict k = Some fd ->
                exists u, store env u = Some fd /\ urn (fst fd) = k) ->
  (export_files_contents options = true ->
   forall u fd, store env u = Some fd ->
     read_handled (Read (fst fd) MAX_CONTENT_SIZE) = true) ->
  exists rs,
    G.for_ l (fun '(metadata, stat_entry) =>
      let result := ExportedFile_of metadata stat_entry in
      (result <- G.lift (if wants_store options
                         then fill_from_store env options fds_dict
                                stat_entry result
                         else Ok result) ;;
       G.yield (ExportedFile_ result))%gen)
    = G.of_list (map ExportedFile_ rs)
    /\ Forall2
         (fun p r =>
            stat_fields_only r = ExportedFile_of (fst p) (snd p)
            /\ (export_files_hashes options = false -> no_hash_field r)
            /\ match content r, content_sha256 r with
               | Some c, Some digest =>
                   export_files_contents options = true
                   /\ digest = sha256_hexdigest env c
                   /\ exists u fd,
                        store env u = Some fd
                        /\ urn (fst fd) = aff4path (snd p)
                        /\ Read (fst fd) MAX_CONTENT_SIZE = Ok c
               | None, None => True
               | _, _ => False
               end)
         l rs.
Proof.
  intros Hdict Hread.
  induction l as [|[md se] l IH].
  - exists []. split; [reflexivity|constructor].
  - destruct IH as [rs [Hrun Hall]].
    destruct (@fill_from_store_facts env options fds_dict se
                (ExportedFile_of md se) eq_refl eq_refl)
      as [r [Hr [Hs [Hh Hc]]]].
    { now repeat split. }
    { intros Hopt fd Hget. destruct (Hdict _ _ Hget) as [u [Hu _]].
      exact (Hread Hopt u fd Hu). }
    assert (Hone : (if wants_store options
                    then fill_from_store env options fds_dict se
                           (ExportedFile_of md se)
                    else Ok (ExportedFile_of md se))
                   = Ok (if wants_store options then r
                         else ExportedFile_of md se)).
    { destruct (wants_store options); [exact Hr|reflexivity]. }
    exists ((if wants_store options then r else ExportedFile_of md se) :: rs).
    split.
    + cbn [G.for_]. cbv zeta. rewrite Hone, lift_ok_then, yield_then.
      cbv zeta in Hrun. rewrite Hrun. reflexivity.
    + constructor; [|exact Hall]. cbn [fst snd].
      destruct (wants_store options) eqn:Hw.
      * split; [exact Hs|]. split; [exact Hh|].
        destruct (content r) as [c|], (content_sha256 r) as [d|]; auto.
        destruct Hc as [Ho [Hd [fd [Hget HR]]]].
        split; [exact Ho|]. split; [exact Hd|].
        destruct (Hdict _ _ Hget) as [u [Hu Hk]]. exists u, fd. auto.
      * split; [reflexivity|]. split; [intros _; now repeat split|].
        exact I.
Qed.

Lemma file_batch_shape :
  forall (env : Env) (options : ExportOptions)
         (pairs : list (ExportedMetadata * StatEntry)),
    (export_files_contents options = true ->
     forall u fd, store env u = Some fd ->
       read_handled (Read (fst fd) MAX_CONTENT_SIZE) = true) ->
    exists rs,
      StatEntryToExportedFileConverter_BatchConvert env options pairs
      = G.of_list (map ExportedFile_ rs)
      /\ Forall2
           (fun p r =>
              stat_fields_only r = ExportedFile_of (fst p) (snd p)
              /\ (export_files_hashes options = false -> no_hash_field r)
              /\ match content r, content_sha256 r with
                 | Some c, Some digest =>
                     export_files_contents options = true
                     /\ digest = sha256_hexdigest env c
                     /\ exists u fd,
                          store env u = Some fd
                          /\ urn (fst fd) = aff4path (snd p)
                          /\ Read (fst fd) MAX_CONTENT_SIZE = Ok c
                 | None, None => True
                 | _, _ => False
                 end)
           (filter is_file_entry pairs) rs.
Proof.
  intros env options pairs Hread.
  unfold StatEntryToExportedFileConverter_BatchConvert. cbv zeta.
  rewrite filter_is_file_entry.
  apply file_loop; [|exact Hread].
  intros k fd Hget.
  destruct (wants_store options); [|discriminate].
  apply (@get_of_pairs_In _ _ _ String.eqb id string_eqb_ident) in Hget.
  destruct Hget as [k0 [Hin Hk]]. apply in_map_iff in Hin.
  destruct Hin as [fd' [[= <- ->] Hin]].
  apply MultiOpen_In in Hin. destruct Hin as [u [_ Hu]].
  exists u. split; [exact Hu|exact Hk].
Qed.


(** With every stored object filed under its own address, the dict of
    the opened objects holds, at an address that was asked for, what the
    store holds there. *)
Lemma fds_dict_lookup (env : Env) (aff4_paths : list RDFURN) (k : RDFURN) :
  store_wf env -> In k aff4_paths ->
  Dict.get String.eqb
    (Dict.of_pairs String.eqb
       (map (fun fd : Opened => (urn (fst fd), fd))
          (MultiOpen env aff4_paths))) k
  = store env k.
Proof.
  intros Hstore Hk.
  assert (Hsound : forall fd,
             Dict.get String.eqb
               (Dict.of_pairs String.eqb
                  (map (fun fd : Opened => (urn (fst fd), fd))
                     (MultiOpen env aff4_paths))) k = Some fd ->
             store env k = Some fd).
  { intros fd Hget.
    apply (@get_of_pairs_In _ _ _ String.eqb id string_eqb_ident) in Hget.
    destruct Hget as [k0 [Hin Hk0]]. apply in_map_iff in Hin.
    destruct Hin as [fd' [[= <- ->] Hin]].
    apply MultiOpen_In in Hin. destruct Hin as [u [_ Hu]].
    unfold id in Hk0. rewrite <- Hk0, (Hstore _ _ Hu). exact Hu. }
  destruct (store env k) as [fd|] eqn:Hs.
  - destruct (@get_of_pairs_some _ _ _ String.eqb id string_eqb_ident
                (map (fun fd : Opened => (urn (fst fd), fd))
                   (MultiOpen env aff4_paths))
                (urn (fst fd)) fd k) as [v Hv].
    + apply in_map_iff. exists fd. split; [reflexivity|].
      apply MultiOpen_In. eauto.
    + exact (Hstore _ _ Hs).
    + rewrite Hv. f_equal. specialize (Hsound v Hv). congruence.
  - destruct (Dict.get String.eqb _ k) as [v|] eqn:Hv; [|reflexivity].
    specialize (Hsound v eq_refl). discriminate.
Qed.

(** What the [try] block makes of a fresh record, field by field. *)
Lemma fill_from_store_exact (env : Env) (options : ExportOptions)
    (fds_dict : Dict.t RDFURN Opened) (metadata : ExportedMetadata)
    (se : StatEntry) :
  (export_files_contents options = true ->
   forall fd, Dict.get String.eqb fds_dict (aff4path se) = Some fd ->
     read_handled (Read (fst fd) MAX_CONTENT_SIZE) = true) ->
  exists r,
    fill_from_store env options fds_dict se (ExportedFile_of metadata se)
    = Ok r
    /\ stat_fields_only r = ExportedFile_of metadata se
    /\ hash_fields r
       = match Dict.get String.eqb fds_dict (aff4path se) with
         | Some fd =>
             if export_files_hashes options
             then match HASH (fst fd) with
                  | Some h => hash_fields_of h
                  | None => no_hashes
                  end
             else no_hashes
         | None => no_hashes
         end
    /\ (content r, content_sha256 r)
       = match Dict.get String.eqb fds_dict (aff4path se) with
         | Some fd =>
             if export_files_contents options
             then match Read (fst fd) MAX_CONTENT_SIZE with
                  | Ok c => (Some c, Some (sha256_hexdigest env c))
                  | Raise _ => (None, None)
                  end
             else (None, None)
         | None => (None, None)
         end.
Proof.
  intros Hread. unfold fill_from_store.
  destruct (Dict.get String.eqb fds_dict (aff4path se)) as [[fd items]|];
    [|exists (ExportedFile_of metadata se); repeat split].
  change (fst (fd, items)) with fd.
  set (r1 := if export_files_hashes options
             then match HASH fd with
                  | Some hash_obj =>
                      ParseFileHash hash_obj (ExportedFile_of metadata se)
                  | None => ExportedFile_of metadata se
                  end
             else ExportedFile_of metadata se).
  assert (H1 : stat_fields_only r1 = ExportedFile_of metadata se
               /\ hash_fields r1
                  = (if export_files_hashes options
                     then match HASH fd with
                          | Some h => hash_fields_of h
                          | None => no_hashes
                          end
                     else no_hashes)
               /\ content r1 = None /\ content_sha256 r1 = None).
  { subst r1. destruct (export_files_hashes options); [|repeat split].
    destruct (HASH fd) as [h|]; [|repeat split].
    destruct h as [m s1 s2 pm ps sd].
    unfold ParseFileHash, ParseSignedData.
    destruct m, s1, s2, pm, ps, sd; repeat split. }
  destruct H1 as [Hs [Hh [Hc Hd]]].
  destruct (export_files_contents options) eqn:Hopt.
  - specialize (Hread eq_refl (fd, items) eq_refl).
    change (fst (fd, items)) with fd in Hread.
    destruct (Read fd MAX_CONTENT_SIZE) as [c|e] eqn:HR.
    + exists (set_content c (sha256_hexdigest env c) r1).
      split; [reflexivity|]. split; [rewrite <- Hs; reflexivity|].
      split; [rewrite <- Hh; reflexivity|reflexivity].
    + assert (Hout : match Raise e with
                     | Ok c => Ok (set_content c (sha256_hexdigest env c) r1)
                     | Raise IOError => Ok r1
                     | Raise AttributeError => Ok r1
                     | Raise KeyError => Ok r1
                     | Raise e' => Raise e'
                     end = Ok r1)
        by (destruct e; try reflexivity; discriminate Hread).
      exists r1. split; [exact Hout|]. split; [exact Hs|].
      split; [exact Hh|]. now rewrite Hc, Hd.
  - exists r1. split; [reflexivity|]. split; [exact Hs|].
    split; [exact Hh|]. now rewrite Hc, Hd.
Qed.

(** The loop over the filtered pairs, for a dict that agrees with the
    store on the addresses of these pairs. *)
Lemma file_loop_exact (env : Env) (options : ExportOptions)
    (fds_dict : Dict.t RDFURN Opened)
    (l : list (ExportedMetadata * StatEntry)) :
  (wants_store options = true ->
   forall p, In p l ->
     Dict.get String.eqb fds_dict (aff4path (snd p))
     = store env (aff4path (snd p))) ->
  (export_files_contents options = true ->
   forall u fd, store env u = Some fd ->
     read_handled (Read (fst fd) MAX_CONTENT_SIZE) = true) ->
  exists rs,
    G.for_ l (fun '(metadata, stat_entry) =>
      let result := ExportedFile_of metadata stat_entry in
      (result <- G.lift (if wants_store options
                         then fill_from_store env options fds_dict
                                stat_entry result
                         else Ok result) ;;
       G.yield (ExportedFile_ result))%gen)
    = G.of_list (map ExportedFile_ rs)
    /\ Forall2
         (fun p r =>
            stat_fields_only r = ExportedFile_of (fst p) (snd p)
            /\ hash_fields r
               = match store env (aff4path (snd p)) with
                 | Some fd =>
                     if export_files_hashes options
                     then match HASH (fst fd) with
                          | Some h => hash_fields_of h
                          | None => no_hashes
                          end
                     else no_hashes
                 | None => no_hashes
                 end
            /\ (content r, content_sha256 r)
               = match store env (aff4path (snd p)) with
                 | Some fd =>
                     if export_files_contents options
                     then match Read (fst fd) MAX_CONTENT_SIZE with
                          | Ok c => (Some c, Some (sha256_hexdigest env c))
                          | Raise _ => (None, None)
                          end
                     else (None, None)
                 | None => (None, None)
                 end)
         l rs.
Proof.
  intros Hdict Hread.
  induction l as [|[md se] l IH].
  - exists []. split; [reflexivity|constructor].
  - destruct IH as [rs [Hrun Hall]];
      [intros Hw p Hp; apply (Hdict Hw); now right|].
    destruct (wants_store options) eqn:Hw.
    + pose proof (Hdict eq_refl (md, se) (or_introl eq_refl)) as Hget.
      cbn [snd] in Hget.
      destruct (@fill_from_store_exact env options fds_dict md se)
        as [r [Hr [Hs [Hh Hc]]]].
      { intros Hopt fd Hfd. rewrite Hget in Hfd.
        exact (Hread Hopt _ fd Hfd). }
      exists (r :: rs). split.
      * rewrite for_cons. cbv zeta. rewrite Hr, lift_ok_then, yield_then.
        cbv zeta in Hrun. rewrite Hrun. reflexivity.
      * constructor; [|exact Hall]. cbn [fst snd].
        rewrite <- Hget. auto.
    + exists (ExportedFile_of md se :: rs). split.
      * rewrite for_cons. cbv zeta. rewrite lift_ok_then, yield_then.
        cbv zeta in Hrun. rewrite Hrun. reflexivity.
      * constructor; [|exact Hall]. cbn [fst snd].
        unfold wants_store in Hw. apply orb_false_iff in Hw.
        destruct Hw as [Hh Hc]. rewrite Hh, Hc.
        split; [reflexivity|].
        destruct (store env (aff4path se)); split; reflexivity.
Qed.

Lemma file_batch_exact (env : Env) (options : ExportOptions)
    (pairs : list (ExportedMetadata * StatEntry)) :
  store_wf env ->
  (export_files_contents options = true ->
   forall u fd, store env u = Some fd ->
     read_handled (Read (fst fd) MAX_CONTENT_SIZE) = true) ->
  exists rs,
    StatEntryToExportedFileConverter_BatchConvert env options pairs
    = G.of_list (map ExportedFile_ rs)
    /\ Forall2
         (fun p r =>
            stat_fields_only r = ExportedFile_of (fst p) (snd p)
            /\ hash_fields r
               = match store env (aff4path (snd p)) with
                 | Some fd =>
                     if export_files_hashes options
                     then match HASH (fst fd) with
                          | Some h => hash_fields_of h
                          | None => no_hashes
                          end
                     else no_hashes
                 | None => no_hashes
                 end
            /\ (content r, content_sha256 r)
               = match store env (aff4path (snd p)) with
                 | Some fd =>
                     if export_files_contents options
                     then match Read (fst fd) MAX_CONTENT_SIZE with
                          | Ok c => (Some c, Some (sha256_hexdigest env c))
                          | Raise _ => (None, None)
                          end
                     else (None, None)
                 | None => (None, None)
                 end)
         (filter is_file_entry pairs) rs.
Proof.
  intros Hstore Hread.
  unfold StatEntryToExportedFileConverter_BatchConvert. cbv zeta.
  rewrite filter_is_file_entry.
  apply file_loop_exact; [|exact Hread].
  intros Hw p Hp. rewrite Hw.
  apply fds_dict_lookup; [exact Hstore|].
  apply filter_In in Hp. destruct Hp as [Hp _].
  apply in_map_iff. exists p. split; [|exact Hp].
  destruct p; reflexivity.
Qed.

(** X4. Files: with every stored object filed under its own address and
    every read ending in a result or in an exception the converter
    handles, a batch of stat entries gives one [ExportedFile] for each
    entry that is not a registry value, in the order of the batch, and
    every field of the record is determined: the stat fields are those of
    the entry; the five hash fields are those of the [Hash] of the object
    stored at the address of the entry when hashes are asked for, and
    unset otherwise; content and digest are what [Read] of that object
    returned and its SHA-256 when contents are asked for and the read
    returns, and both unset otherwise.  A read that ends in IOError,
    AttributeError or KeyError thus costs the file its content and digest
    and nothing else: the record is still made and keeps its hashes. *)
Theorem file_converter_one_record_per_file :
  forall (env : Env) (options : ExportOptions)
         (pairs : list (ExportedMetadata * StatEntry)),
    store_wf env ->
    (export_files_contents options = true ->
     forall u fd, store env u = Some fd ->
       read_handled (Read (fst fd) MAX_CONTENT_SIZE) = true) ->
    exists rs,
      StatEntryToExportedFileConverter_BatchConvert env options pairs
      = G.of_list (map ExportedFile_ rs)
      /\ Forall2
           (fun p r =>
              stat_fields_only r = ExportedFile_of (fst p) (snd p)
              /\ hash_fields r
                 = match store env (aff4path (snd p)) with
                   | Some fd =>
                       if export_files_hashes options
                       then match HASH (fst fd) with
                            | Some h => hash_fields_of h
                            | None => no_hashes
                            end
                       else no_hashes
                   | None => no_hashes
                   end
              /\ (content r, content_sha256 r)
                 = match store env (aff4path (snd p)) with
                   | Some fd =>
                       if export_files_contents options
                       then match Read (fst fd) MAX_CONTENT_SIZE with
                            | Ok c => (Some c, Some (sha256_hexdigest env c))
                            | Raise _ => (None, None)
                            end
                       else (None, None)
                   | None => (None, None)
                   end)
           (filter is_file_entry pairs) rs.
Proof.
  exact file_batch_exact.
Qed.

Lemma store_env3 (u : RDFURN) (fd : Opened) :
  store Examples2.env3 u = Some fd ->
  fd = (Examples2.passwd_fd, [])
  \/ fd = (Examples2.shadow_fd, [])
  \/ fd = (Examples.collection_fd,
           [Process_ Examples.process1; Process_ Examples.process2]).
Proof.
  unfold Examples2.env3, store.
  destruct (String.eqb u (urn Examples2.passwd_fd));
    [intros [= <-]; auto|].
  destruct (String.eqb u (urn Examples2.shadow_fd));
    [intros [= <-]; auto|].
  destruct (String.eqb u (urn Examples.collection_fd));
    [intros [= <-]; auto|].
  discriminate.
Qed.

Lemma store_wf_env3 : store_wf Examples2.env3.
Proof.
  intros u fd. unfold Examples2.env3, store.
  destruct (String.eqb_spec u (urn Examples2.passwd_fd)) as [->|_];
    [intros [= <-]; reflexivity|].
  destruct (String.eqb_spec u (urn Examples2.shadow_fd)) as [->|_];
    [intros [= <-]; reflexivity|].
  destruct (String.eqb_spec u (urn Examples.collection_fd)) as [->|_];
    [intros [= <-]; reflexivity|].
  discriminate.
Qed.

Lemma file_converter_one_record_per_file_witness :
  exists rs,
    StatEntryToExportedFileConverter_BatchConvert Examples2.env3
      (mkOptions true true)
      [(Examples.metadata1, Examples2.shadow_entry);
       (Examples.metadata1, Examples.registry_entry);
       (Examples.metadata1, Examples.file_entry)]
    = G.of_list (map ExportedFile_ rs)
    /\ map hash_md5 rs = [None; Some "md5-of-passwd"]
    /\ map content rs = [None; Some "root:x:0:0:root:/root:/bin/sh"].
Proof.
  destruct (@file_converter_one_record_per_file Examples2.env3
              (mkOptions true true)
              [(Examples.metadata1, Examples2.shadow_entry);
               (Examples.metadata1, Examples.registry_entry);
               (Examples.metadata1, Examples.file_entry)] store_wf_env3)
    as [rs [Hrun Hall]].
  - intros _ u fd Hfd.
    destruct (store_env3 _ Hfd) as [->|[->| ->]]; reflexivity.
  - exists rs. split; [exact Hrun|].
    change (filter is_file_entry
              [(Examples.metadata1, Examples2.shadow_entry);
               (Examples.metadata1, Examples.registry_entry);
               (Examples.metadata1, Examples.file_entry)])
      with [(Examples.metadata1, Examples2.shadow_entry);
            (Examples.metadata1, Examples.file_entry)] in Hall.
    inversion Hall as [|p1 r1 l1 rs1 H1 Hall1]; subst.
    inversion Hall1 as [|p2 r2 l2 rs2 H2 Hall2]; subst.
    inversion Hall2; subst.
    destruct H1 as [_ [Hh1 Hc1]]. destruct H2 as [_ [Hh2 Hc2]].
    cbn [fst snd map].
    change (store Examples2.env3 (aff4path Examples2.shadow_entry))
      with (Some (Examples2.shadow_fd, @nil Value)) in Hh1, Hc1.
    change (store Examples2.env3 (aff4path Examples.file_entry))
      with (Some (Examples2.passwd_fd, @nil Value)) in Hh2, Hc2.
    cbv beta iota delta [export_files_hashes export_files_contents fst]
      in Hh1, Hc1, Hh2, Hc2.
    injection Hh1 as H1a _ _ _ _. injection Hh2 as H2a _ _ _ _.
    injection Hc1 as H1c _. injection Hc2 as H2c _.
    split; congruence.
Defined.

(** X5. Files: with neither hashes nor contents asked for, the store is
    never consulted: whatever it holds, the records are made from the stat
    entries alone, one for each entry that is not a registry value. *)
Theorem file_converter_without_options_ignores_store :
  forall (env : Env) (pairs : list (ExportedMetadata * StatEntry)),
    StatEntryToExportedFileConverter_BatchConvert env (mkOptions false false)
      pairs
    = G.of_list
        (map (fun p => ExportedFile_ (ExportedFile_of (fst p) (snd p)))
           (filter is_file_entry pairs)).
Proof.
  intros env pairs.
  unfold StatEntryToExportedFileConverter_BatchConvert. cbv zeta.
  rewrite filter_is_file_entry.
  induction (filter is_file_entry pairs) as [|[md se] l IH];
    [reflexivity|].
  cbn [G.for_ map fst snd]. cbv zeta.
  change (wants_store (mkOptions false false)) with false.
  cbv iota. rewrite lift_ok_then, yield_then.
  change (wants_store (mkOptions false false)) with false in IH.
  cbv zeta iota in IH. rewrite IH. reflexivity.
Qed.

(** X6. Files: for a stored file object filed under the address of its own
    stat entry, the [VFSFile] converter gives exactly what the [StatEntry]
    converter gives for that entry with hashes asked for and contents not.
    The two differ on registry values: the [VFSFile] converter has no
    registry check and exports such an object as a file, which the
    [StatEntry] converter never does. *)
Theorem vfs_file_converter_agrees_with_stat_entry_converter :
  forall (env : Env) (metadata : ExportedMetadata) (vfs_file : AFF4Object)
         (items : list Value) (stat_entry : StatEntry),
    STAT vfs_file = Some stat_entry ->
    store env (aff4path stat_entry) = Some (vfs_file, items) ->
    urn vfs_file = aff4path stat_entry ->
    (registry_type stat_entry = None ->
     VFSFileToExportedFileConverter_Convert metadata vfs_file
     = Ok (StatEntryToExportedFileConverter_BatchConvert env
             (mkOptions true false) [(metadata, stat_entry)]))
    /\ (registry_type stat_entry <> None ->
        (exists r,
           VFSFileToExportedFileConverter_Convert metadata vfs_file
           = Ok (G.of_list [ExportedFile_ r]))
        /\ forall options,
             StatEntryToExportedFileConverter_BatchConvert env options
               [(metadata, stat_entry)]
             = G.of_list []).
Proof.
  intros env md fd items se Hstat Hstore Hurn.
  unfold VFSFileToExportedFileConverter_Convert. rewrite Hstat. cbv zeta.
  split.
  - intros Hreg. f_equal.
    unfold StatEntryToExportedFileConverter_BatchConvert. cbv zeta.
    cbn [filter]. rewrite Hreg.
    change (wants_store (mkOptions true false)) with true. cbv iota.
    cbn [map MultiOpen flat_map]. unfold MultiOpen. cbn [flat_map].
    rewrite Hstore.
    cbn [app sort_by insert_by map fst Dict.of_pairs fold_left Dict.set snd].
    cbn [G.for_]. unfold fill_from_store. cbn [Dict.get].
    rewrite Hurn, String.eqb_refl.
    change (export_files_hashes (mkOptions true false)) with true.
    change (export_files_contents (mkOptions true false)) with false.
    cbv iota. rewrite lift_ok_then. reflexivity.
  - intros Hreg. split.
    + eexists. reflexivity.
    + intros options.
      unfold StatEntryToExportedFileConverter_BatchConvert. cbv zeta.
      cbn [filter].
      destruct (registry_type se); [reflexivity|contradiction].
Qed.

Lemma vfs_file_converter_agrees_with_stat_entry_converter_witness :
  VFSFileToExportedFileConverter_Convert Examples.metadata1
    Examples2.passwd_fd
  = Ok (StatEntryToExportedFileConverter_BatchConvert Examples2.env3
          (mkOptions true false)
          [(Examples.metadata1, Examples.file_entry)]).
Proof.
  destruct (@vfs_file_converter_agrees_with_stat_entry_converter
              Examples2.env3 Examples.metadata1 Examples2.passwd_fd []
              Examples.file_entry eq_refl eq_refl eq_refl) as [H _].
  exact (H eq_refl).
Defined.

(** ** Processes *)

(** A batch of values of one class passes the class check of its
    converters. *)
Lemma mapM_cast_typed {V : Type} (cast : Value -> option V)
    (wrap : V -> Value) (typed : list (ExportedMetadata * V)) :
  (forall x, cast (wrap x) = Some x) ->
  Res.mapM (fun '(metadata, v) =>
              match cast v with
              | Some x => Ok (metadata, x)
              | None => Raise AttributeError
              end)
    (map (fun p => (fst p, wrap (snd p))) typed)
  = Ok typed.
Proof.
  intros Hcast. induction typed as [|[md x] typed IH]; [reflexivity|].
  cbn [map Res.mapM fst snd]. rewrite Hcast, IH. reflexivity.
Qed.

Lemma process_Convert_lists (metadata : ExportedMetadata) (process : Process) :
  (ProcessToExportedProcessConverter_Convert metadata process
   = Ok (G.of_list (G.yields (G.consume
           (ProcessToExportedProcessConverter_Convert metadata process)))))
  /\ (ProcessToExportedNetworkConnectionConverter_Convert metadata process
      = Ok (G.of_list (G.yields (G.consume
              (ProcessToExportedNetworkConnectionConverter_Convert
                 metadata process)))))
  /\ (ProcessToExportedOpenFileConverter_Convert metadata process
      = Ok (G.of_list (G.yields (G.consume
              (ProcessToExportedOpenFileConverter_Convert
                 metadata process))))).
Proof.
  split; [reflexivity|]. split.
  - unfold ProcessToExportedNetworkConnectionConverter_Convert.
    now rewrite for_yield_map.
  - unfold ProcessToExportedOpenFileConverter_Convert.
    now rewrite for_yield_map.
Qed.

Lemma process_outputs_lengths (metadata : ExportedMetadata) (process : Process) :
  List.length (G.yields (G.consume
     (ProcessToExportedProcessConverter_Convert metadata process))) = 1%nat
  /\ List.length (G.yields (G.consume
       (ProcessToExportedNetworkConnectionConverter_Convert metadata process)))
     = List.length (connections process)
  /\ List.length (G.yields (G.consume
       (ProcessToExportedOpenFileConverter_Convert metadata process)))
     = List.length (open_files process).
Proof.
  split; [reflexivity|]. split.
  - unfold ProcessToExportedNetworkConnectionConverter_Convert.
    rewrite for_yield_map. cbn [G.consume G.yields G.of_list fst].
    apply length_map.
  - unfold ProcessToExportedOpenFileConverter_Convert.
    rewrite for_yield_map. cbn [G.consume G.yields G.of_list fst].
    apply length_map.
Qed.

(** X7. Processes: a batch of processes given to the engine comes out
    converter by converter, not process by process: one block holds an
    [ExportedProcess] for every process, one the connections of every
    process, one the open files of every process, and each block is in
    the order of the batch.  The blocks follow each other in the order the
    registry gives the three converters, which the source does not fix.
    Nothing is raised, and the number of records is the number of
    processes plus the numbers of their connections and of their open
    files. *)
Theorem processes_exported_converter_by_converter :
  forall (env : Env) (depth : nat) (options : option ExportOptions)
         (processes : list (ExportedMetadata * Process)),
    let run :=
      ConvertValuesWithMetadata env (ExportConverter_classes env depth)
        (map (fun p => (fst p, Process_ (snd p))) processes) options in
    let outputs (convert : ExportedMetadata -> Process -> Result (Iter Exported)) :=
      flat_map (fun p => G.yields (G.consume (convert (fst p) (snd p))))
        processes in
    (exists blocks,
       Permutation blocks
         [outputs ProcessToExportedProcessConverter_Convert;
          outputs ProcessToExportedNetworkConnectionConverter_Convert;
          outputs ProcessToExportedOpenFileConverter_Convert]
       /\ run = G.of_list (List.concat blocks))
    /\ List.length (G.yields run)
       = (List.length processes
          + list_sum (map (fun p => List.length (connections (snd p)))
                        processes)
          + list_sum (map (fun p => List.length (open_files (snd p)))
                        processes))%nat.
Proof.
  intros env depth options processes run outputs.
  assert (Hrun : exists blocks,
             Permutation blocks
               [outputs ProcessToExportedProcessConverter_Convert;
                outputs ProcessToExportedNetworkConnectionConverter_Convert;
                outputs ProcessToExportedOpenFileConverter_Convert]
             /\ run = G.of_list (List.concat blocks)).
  { subst run. destruct processes as [|[md p] rest].
    - exists [[]; []; []]. split; reflexivity.
    - set (typed := (md, p) :: rest) in *.
      pose proof (@mapM_cast_typed Process as_Process Process_
                    typed (fun x => eq_refl)) as Hm.
      change (map (fun p0 => (fst p0, Process_ (snd p0))) typed)
        with ((md, Process_ p)
                :: map (fun p0 => (fst p0, Process_ (snd p0))) rest)
        in Hm |- *.
      assert (Hone : forall q : Pair,
                 In q (map (fun p0 => (fst p0, Process_ (snd p0))) rest) ->
                 class_name (snd q) = class_name (Process_ p)).
      { intros q Hq. apply in_map_iff in Hq. destruct Hq as [x [<- _]].
        reflexivity. }
      set (block := fun c : ConverterClass =>
             if String.eqb (cls_name c) "ProcessToExportedProcessConverter"
             then outputs ProcessToExportedProcessConverter_Convert
             else if String.eqb (cls_name c)
                       "ProcessToExportedNetworkConnectionConverter"
             then outputs ProcessToExportedNetworkConnectionConverter_Convert
             else outputs ProcessToExportedOpenFileConverter_Convert).
      set (cs0 :=
             [ plain_class "ProcessToExportedProcessConverter" "Process"
                 (default_batch as_Process
                    (fun _ => ProcessToExportedProcessConverter_Convert));
               plain_class "ProcessToExportedNetworkConnectionConverter"
                 "Process"
                 (default_batch as_Process
                    (fun _ => ProcessToExportedNetworkConnectionConverter_Convert));
               plain_class "ProcessToExportedOpenFileConverter" "Process"
                 (default_batch as_Process
                    (fun _ => ProcessToExportedOpenFileConverter_Convert)) ]).
      exists (map block
                (sort_by (fun cls => class_rank env (cls_name cls)) cs0)).
      split.
      + change [outputs ProcessToExportedProcessConverter_Convert;
                outputs ProcessToExportedNetworkConnectionConverter_Convert;
                outputs ProcessToExportedOpenFileConverter_Convert]
          with (map block cs0).
        apply Permutation_map, sort_by_Permutation.
      + rewrite <- flat_map_concat_map.
        apply (@engine_one_class_clean env depth options md (Process_ p)
                 _ cs0 block Hone).
        * destruct depth; reflexivity.
        * discriminate.
        * intros c [<-|[<-|[<-|[]]]].
          -- apply (default_batch_class_clean _ _ _ _
                      (fun m x => G.yields (G.consume
                         (ProcessToExportedProcessConverter_Convert m x)))
                      options _
                      (fun _ m x => proj1 (process_Convert_lists m x)) Hm).
          -- apply (default_batch_class_clean _ _ _ _
                      (fun m x => G.yields (G.consume
                         (ProcessToExportedNetworkConnectionConverter_Convert
                            m x)))
                      options _
                      (fun _ m x =>
                         proj1 (proj2 (process_Convert_lists m x))) Hm).
          -- apply (default_batch_class_clean _ _ _ _
                      (fun m x => G.yields (G.consume
                         (ProcessToExportedOpenFileConverter_Convert m x)))
                      options _
                      (fun _ m x =>
                         proj2 (proj2 (process_Convert_lists m x))) Hm). }
  split; [exact Hrun|].
  destruct Hrun as [blocks [Hperm Hrun]].
  rewrite Hrun. cbn [G.yields G.of_list fst].
  rewrite (concat_Permutation_length Hperm).
  cbn [List.concat]. rewrite app_nil_r. subst outputs. cbv beta.
  rewrite !length_app, !length_flat_map.
  rewrite (map_ext _ (fun _ => 1%nat))
    by (intros q; apply process_outputs_lengths).
  rewrite (map_ext
             (fun x => List.length (G.yields (G.consume
                (ProcessToExportedNetworkConnectionConverter_Convert
                   (fst x) (snd x)))))
             (fun p => List.length (connections (snd p))))
    by (intros q; apply process_outputs_lengths).
  rewrite (map_ext
             (fun x => List.length (G.yields (G.consume
                (ProcessToExportedOpenFileConverter_Convert
                   (fst x) (snd x)))))
             (fun p => List.length (open_files (snd p))))
    by (intros q; apply process_outputs_lengths).
  assert (Hones : forall (l : list (ExportedMetadata * Process)),
             list_sum (map (fun _ => 1%nat) l) = List.length l).
  { induction l as [|x l IH]; [reflexivity|].
    cbn [map List.length]. rewrite <- IH. reflexivity. }
  rewrite Hones. lia.
Qed.

(** ** Volatility tables *)

Section VolatilityFacts.
Variable cls : VolatilityClass.
Variable m : Dict.t string string.
Variable out_cls : OutputClass.
Hypothesis cls_mapping : mapping cls = Some m.
Hypothesis cls_output : output_rdf_cls cls = Some out_cls.

Hypothesis mapping_declared :
  forall h attr, In (h, attr) m -> declared out_cls attr.

Lemma mapM_getitem_cases (hs : list string) :
  (forallb (Dict.has_key String.eqb m) hs = true ->
   exists attrs,
     Res.mapM (fun h => Dict.getitem String.eqb m h) hs = Ok attrs
     /\ Forall (declared out_cls) attrs)
  /\ (forallb (Dict.has_key String.eqb m) hs = false ->
      Res.mapM (fun h => Dict.getitem String.eqb m h) hs = Raise KeyError).
Proof.
  induction hs as [|h hs [IHt IHf]].
  - split; [|discriminate]. intros _. exists []. split; [reflexivity|constructor].
  - cbn [forallb Res.mapM]. unfold Dict.has_key, Dict.getitem at 1 3.
    destruct (Dict.get String.eqb m h) as [attr|] eqn:Hget.
    + assert (Hd : declared out_cls attr).
      { apply (@get_In _ _ _ String.eqb id string_eqb_ident) in Hget.
        destruct Hget as [k0 [Hin _]]. exact (mapping_declared _ _ Hin). }
      cbn [andb Res.bind]. split.
      * intros Hall. destruct (IHt Hall) as [attrs [Hm Hattrs]].
        exists (attr :: attrs). rewrite Hm. split; [reflexivity|].
        now constructor.
      * intros Hall. rewrite (IHf Hall). reflexivity.
    + cbn [andb Res.bind]. split; [discriminate|reflexivity].
Qed.

Lemma mapped_headers_cases (table : VolatilityTable) :
  (headers_mapped m table = true ->
   exists attrs, mapped_headers cls table = Ok attrs /\ Forall (declared out_cls) attrs)
  /\ (headers_mapped m table = false ->
      mapped_headers cls table = Raise KeyError).
Proof.
  unfold mapped_headers, headers_mapped. rewrite cls_mapping.
  apply mapM_getitem_cases.
Qed.

Lemma set_cells_declared (cells : list (string * VolatilityValue))
    (out_rdf : ExportedVolatility) :
  Forall (fun c => declared out_cls (fst c)) cells ->
  exists r, set_cells out_cls out_rdf cells = Ok r
            /\ ev_metadata r = ev_metadata out_rdf
            /\ ev_class r = ev_class out_rdf.
Proof.
  intros Hcells. revert out_rdf.
  induction Hcells as [|[attr v] cells Hd _ IH]; intros out_rdf.
  - exists out_rdf. auto.
  - cbn [set_cells]. unfold set_cell. cbn [fst] in Hd.
    destruct (existsb (String.eqb attr) (out_string_fields out_cls)) eqn:Es.
    + cbn [Res.bind]. destruct (IH (mkExportedVolatility (ev_class out_rdf)
                     (ev_metadata out_rdf)
                     (Dict.set String.eqb (ev_fields out_rdf) attr
                        (inl (svalue v))))) as [r [Hr [Hm Hc]]].
      exists r. auto.
    + destruct (existsb (String.eqb attr) (out_other_fields out_cls)) eqn:Eo.
      * cbn [Res.bind]. destruct (IH (mkExportedVolatility (ev_class out_rdf)
                     (ev_metadata out_rdf)
                     (Dict.set String.eqb (ev_fields out_rdf) attr
                        (inr (value v))))) as [r [Hr [Hm Hc]]].
        exists r. auto.
      * exfalso. destruct Hd as [Hd|Hd]; apply existsb_eqb_In in Hd; congruence.
Qed.

Lemma combine_declared (attrs : list string) (row : list VolatilityValue) :
  Forall (declared out_cls) attrs ->
  Forall (fun c => declared out_cls (fst c)) (combine attrs row).
Proof.
  intros Hattrs. apply Forall_forall. intros [attr v] Hin.
  apply in_combine_l in Hin. rewrite Forall_forall in Hattrs. now apply Hattrs.
Qed.

(** The loop over the rows of one section. *)
Lemma rows_loop (metadata : ExportedMetadata) (attrs : list string)
    (rs : list (list VolatilityValue)) :
  Forall (declared out_cls) attrs ->
  exists records,
    G.for_ rs (fun row =>
      match output_rdf_cls cls with
      | None => G.raise TypeError
      | Some out_cls =>
          (out_rdf <- G.lift
             (set_cells out_cls
                (mkExportedVolatility (out_name out_cls) metadata [])
                (combine attrs row)) ;;
           G.yield (ExportedVolatility_ out_rdf))%gen
      end)
    = G.of_list (map ExportedVolatility_ records)
    /\ List.length records = List.length rs
    /\ Forall (fun r => ev_metadata r = metadata
                        /\ ev_class r = out_name out_cls) records.
Proof.
  intros Hattrs. rewrite cls_output.
  induction rs as [|row rs [records [Hrun [Hlen Hall]]]].
  - exists []. split; [reflexivity|]. split; [reflexivity|constructor].
  - destruct (@set_cells_declared (combine attrs row)
                (mkExportedVolatility (out_name out_cls) metadata [])
                (combine_declared row Hattrs)) as [r [Hr [Hm Hc]]].
    exists (r :: records). split; [|split].
    + cbn [G.for_]. rewrite Hr, lift_ok_then, yield_then, Hrun. reflexivity.
    + cbn [List.length]. now rewrite Hlen.
    + constructor; [|exact Hall]. split; [exact Hm|exact Hc].
Qed.

Lemma volatility_sections (metadata : ExportedMetadata)
    (sections : list VolatilityTable) :
  exists records,
    VolatilityResultConverter_Convert cls metadata sections
    = G.of_list (map ExportedVolatility_ records)
    /\ List.length records
       = list_sum (map (fun table =>
                          if headers_mapped m table
                          then List.length (rows table) else 0%nat)
                     sections)
    /\ Forall (fun r => ev_metadata r = metadata
                        /\ ev_class r = out_name out_cls) records.
Proof.
  unfold VolatilityResultConverter_Convert.
  induction sections as [|table sections [records [Hrun [Hlen Hall]]]].
  - exists []. split; [reflexivity|]. split; [reflexivity|constructor].
  - rewrite for_cons. cbn [map list_sum fold_right].
    destruct (mapped_headers_cases table) as [Ht Hf].
    destruct (headers_mapped m table).
    + destruct (Ht eq_refl) as [attrs [Hattrs Hd]]. rewrite Hattrs.
      destruct (rows table) as [|row rs] eqn:Hrows.
      * exists records. rewrite bind_ret_l. auto.
      * destruct (@rows_loop metadata attrs (row :: rs) Hd)
          as [recs [Hrecs [Hl Hr]]].
        exists (recs ++ records). split; [|split].
        -- rewrite Hrecs, Hrun. rewrite map_app. reflexivity.
        -- rewrite length_app, Hl, Hlen. reflexivity.
        -- apply Forall_app. auto.
    + rewrite (Hf eq_refl). exists records. rewrite bind_ret_l. auto.
Qed.
End VolatilityFacts.

(** X8. Volatility: for a converter class whose mapped attributes are all
    fields of its output class, [Convert] never raises.  A section with a
    header the mapping does not know is skipped as a whole, a section
    without rows gives nothing, and every other section gives one record
    per row, in order; each record is of the output class and carries the
    metadata given. *)
Theorem volatility_sections_give_one_record_per_row :
  forall (cls : VolatilityClass) (m : Dict.t string string)
         (out_cls : OutputClass) (metadata : ExportedMetadata)
         (sections : list VolatilityTable),
    mapping cls = Some m ->
    output_rdf_cls cls = Some out_cls ->
    (forall h attr, In (h, attr) m ->
       In attr (out_string_fields out_cls)
       \/ In attr (out_other_fields out_cls)) ->
    exists records,
      VolatilityResultConverter_Convert cls metadata sections
      = G.of_list (map ExportedVolatility_ records)
      /\ List.length records
         = list_sum (map (fun table =>
                            if headers_mapped m table
                            then List.length (rows table) else 0%nat)
                       sections)
      /\ Forall (fun r => ev_metadata r = metadata
                          /\ ev_class r = out_name out_cls) records.
Proof.
  intros cls m out_cls metadata sections Hm Ho Hd.
  exact (@volatility_sections cls m out_cls Hm Ho Hd metadata sections).
Qed.

Lemma volatility_sections_give_one_record_per_row_witness :
  exists records,
    VolatilityResultConverter_Convert
      (VolatilityResultToExportedVolatilityHandleConverter Examples.env1)
      Examples.metadata1
      [Examples2.unknown_section; Examples2.handles_section;
       Examples2.empty_section]
    = G.of_list (map ExportedVolatility_ records)
    /\ List.length records = 2%nat.
Proof.
  destruct (@volatility_sections_give_one_record_per_row
              (VolatilityResultToExportedVolatilityHandleConverter Examples.env1)
              _ _ Examples.metadata1
              [Examples2.unknown_section; Examples2.handles_section;
               Examples2.empty_section] eq_refl eq_refl)
    as [records [Hrun [Hlen _]]].
  - intros h attr Hin. unfold declared. cbn.
    repeat (destruct Hin as [[= <- <-]|Hin]; [tauto|]). destruct Hin.
  - exists records. split; [exact Hrun|exact Hlen].
Defined.

(** ** Client summaries *)

Lemma split_addresses_valid (addrs : list NetworkAddress)
    (ip4_addresses ip6_addresses : list string) :
  forallb valid_family addrs = true ->
  split_addresses addrs ip4_addresses ip6_addresses
  = Ok (ip4_addresses ++ map human_readable_address (filter is_INET addrs),
        ip6_addresses ++ map human_readable_address (filter is_INET6 addrs)).
Proof.
  revert ip4_addresses ip6_addresses.
  induction addrs as [|addr addrs IH]; intros ip4 ip6 Hv.
  - cbn. now rewrite !app_nil_r.
  - cbn [forallb] in Hv. apply andb_true_iff in Hv. destruct Hv as [Ha Hv].
    cbn [split_addresses filter]. unfold valid_family, is_INET, is_INET6 in *.
    destruct (address_type addr); try discriminate Ha.
    + rewrite IH by exact Hv. cbn [map]. now rewrite <- app_assoc.
    + rewrite IH by exact Hv. cbn [map]. now rewrite <- app_assoc.
Qed.

Lemma split_addresses_invalid (addrs : list NetworkAddress)
    (ip4_addresses ip6_addresses : list string) :
  forallb valid_family addrs = false ->
  split_addresses addrs ip4_addresses ip6_addresses
  = Raise (ValueError "Invalid address type: %s").
Proof.
  revert ip4_addresses ip6_addresses.
  induction addrs as [|addr addrs IH]; intros ip4 ip6 Hv; [discriminate|].
  cbn [forallb] in Hv. cbn [split_addresses].
  unfold valid_family, is_INET, is_INET6 in Hv.
  destruct (address_type addr); cbn [orb andb] in Hv.
  - now apply IH.
  - now apply IH.
  - reflexivity.
Qed.

Lemma interfaces_valid (metadata : ExportedMetadata)
    (interfaces : list Interface) :
  (forall i, In i interfaces -> forallb valid_family (addresses i) = true) ->
  ClientSummaryToExportedNetworkInterfaceConverter_Convert metadata interfaces
  = G.of_list (map (interface_record metadata) interfaces).
Proof.
  unfold ClientSummaryToExportedNetworkInterfaceConverter_Convert.
  induction interfaces as [|i interfaces IH]; intros Hv; [reflexivity|].
  rewrite for_cons.
  rewrite split_addresses_valid by (apply Hv; now left).
  rewrite lift_ok_then, yield_then.
  rewrite IH by (intros j Hj; apply Hv; now right).
  reflexivity.
Qed.

Lemma interfaces_invalid (metadata : ExportedMetadata)
    (before after : list Interface) (bad : Interface) :
  (forall i, In i before -> forallb valid_family (addresses i) = true) ->
  forallb valid_family (addresses bad) = false ->
  ClientSummaryToExportedNetworkInterfaceConverter_Convert metadata
    (before ++ bad :: after)
  = (map (interface_record metadata) before,
     Raise (ValueError "Invalid address type: %s")).
Proof.
  intros Hv Hbad.
  unfold ClientSummaryToExportedNetworkInterfaceConverter_Convert.
  rewrite for_app.
  pose proof (interfaces_valid metadata before Hv) as Hrun.
  unfold ClientSummaryToExportedNetworkInterfaceConverter_Convert in Hrun.
  rewrite Hrun, for_cons, (split_addresses_invalid _ _ _ Hbad).
  unfold G.app, G.of_list, G.bind, G.lift. now rewrite app_nil_r.
Qed.

(** X9. Network interfaces: when every address of the first interfaces is
    IPv4 or IPv6, each of them gives one record, in order, with its IPv4
    addresses and its IPv6 addresses joined by spaces in the order they
    have in the interface.  The first interface with an address of another
    family ends the conversion with ValueError: the records of the
    interfaces before it have been yielded, the interfaces after it are
    never looked at. *)
Theorem interfaces_exported_until_invalid_address :
  forall (metadata : ExportedMetadata) (before : list Interface),
    (forall i, In i before -> forallb valid_family (addresses i) = true) ->
    ClientSummaryToExportedNetworkInterfaceConverter_Convert metadata before
    = G.of_list (map (interface_record metadata) before)
    /\ forall (bad : Interface) (after : list Interface),
         forallb valid_family (addresses bad) = false ->
         ClientSummaryToExportedNetworkInterfaceConverter_Convert metadata
           (before ++ bad :: after)
         = (map (interface_record metadata) before,
            Raise (ValueError "Invalid address type: %s")).
Proof.
  intros metadata before Hv. split.
  - now apply interfaces_valid.
  - intros bad after Hbad. now apply interfaces_invalid.
Qed.

Lemma interfaces_exported_until_invalid_address_witness :
  ClientSummaryToExportedNetworkInterfaceConverter_Convert Examples.metadata1
    [Examples2.eth0; Examples2.tun0; Examples2.lo]
  = ([ExportedNetworkInterface_
        (mkExportedNetworkInterface Examples.metadata1 "eth0"
           "10.0.0.1 192.168.0.1" "fe80::1" (Some "aa:bb:cc:dd:ee:ff"))],
     Raise (ValueError "Invalid address type: %s")).
Proof.
  destruct (@interfaces_exported_until_invalid_address Examples.metadata1
              [Examples2.eth0]) as [_ H].
  - intros i [<-|[]]. reflexivity.
  - exact (H Examples2.tun0 [Examples2.lo] eq_refl).
Defined.

(** ** The default batch conversion *)

Lemma raised_none_of_list {Y : Type} (g : Iter Y) :
  G.raised g = None -> g = G.of_list (G.yields g).
Proof.
  destruct g as [ys [[]|e]]; [reflexivity|discriminate].
Qed.

Lemma batch_first_error (V : Type)
    (Convert : ExportedMetadata -> V -> Result (Iter Exported))
    (before after : list (ExportedMetadata * V))
    (p : ExportedMetadata * V) (ys : list Exported) (e : PyExc) :
  (forall q, In q before ->
     G.raised (G.consume (Convert (fst q) (snd q))) = None) ->
  G.consume (Convert (fst p) (snd p)) = (ys, Raise e) ->
  ExportConverter_BatchConvert Convert (before ++ p :: after)
  = (flat_map (fun q => G.yields (G.consume (Convert (fst q) (snd q))))
       before ++ ys,
     Raise e).
Proof.
  intros Hbefore Hp.
  rewrite BatchConvert_default_concat_lemma.
  induction before as [|q before IH].
  - cbn [app map G.concat fold_right flat_map]. rewrite Hp. reflexivity.
  - cbn [app map G.concat fold_right flat_map].
    rewrite (raised_none_of_list _ (Hbefore q (or_introl eq_refl))).
    change (fold_right G.app (G.ret tt) ?l) with (G.concat l).
    rewrite IH by (intros r Hr; apply Hbefore; now right).
    unfold G.app, G.of_list, G.bind. cbn [G.yields fst].
    now rewrite <- app_assoc.
Qed.

(** A converter that keeps the default [BatchConvert], on a batch of its
    class. *)
Lemma default_batch_unfold {V : Type} (cast : Value -> option V)
    (convert : ExportOptions -> ExportedMetadata -> V -> Result (Iter Exported))
    (options : ExportOptions) (batch : list Pair)
    (typed : list (ExportedMetadata * V)) :
  Res.mapM (fun '(metadata, v) =>
              match cast v with
              | Some x => Ok (metadata, x)
              | None => Raise AttributeError
              end) batch = Ok typed ->
  BatchConvert (default_batch cast convert options) batch
  = Ok (ExportConverter_BatchConvert (convert options) typed).
Proof.
  intros Hm. unfold default_batch, on_class. cbn [BatchConvert].
  rewrite Hm. reflexivity.
Qed.

(** X10. Default [BatchConvert]: the pairs are converted in order, and the
    first pair whose [Convert] raises (when called or while its result is
    iterated) ends the batch with that exception.  What the pairs before
    it gave, and what the failing conversion yielded before it raised, has
    been handed out; no later pair is converted. *)
Theorem default_batch_stops_at_first_error :
  forall (V : Type)
         (Convert : ExportedMetadata -> V -> Result (Iter Exported))
         (before after : list (ExportedMetadata * V))
         (p : ExportedMetadata * V) (ys : list Exported) (e : PyExc),
    (forall q, In q before ->
       G.raised (G.consume (Convert (fst q) (snd q))) = None) ->
    G.consume (Convert (fst p) (snd p)) = (ys, Raise e) ->
    ExportConverter_BatchConvert Convert (before ++ p :: after)
    = (flat_map (fun q => G.yields (G.consume (Convert (fst q) (snd q))))
         before ++ ys,
       Raise e).
Proof.
  intros V Convert before after p ys e. apply batch_first_error.
Qed.

Lemma default_batch_stops_at_first_error_witness :
  ExportConverter_BatchConvert
    StatEntryToExportedRegistryKeyConverter_Convert
    [(Examples.metadata1, Examples.file_entry);
     (Examples.metadata1, Examples.registry_entry);
     (Examples.metadata1, Examples.file_entry)]
  = ([], Raise AttributeError).
Proof.
  apply (@default_batch_stops_at_first_error StatEntry
           StatEntryToExportedRegistryKeyConverter_Convert
           [(Examples.metadata1, Examples.file_entry)]
           [(Examples.metadata1, Examples.file_entry)]
           (Examples.metadata1, Examples.registry_entry) [] AttributeError).
  - intros q [<-|[]]. reflexivity.
  - reflexivity.
Defined.

(** ** Client summaries given to the engine *)

(** Every address of every interface of every summary is IPv4 or IPv6. *)
Lemma interface_batch_valid
    (summaries : list (ExportedMetadata * list Interface)) :
  forallb (fun p => forallb (fun i => forallb valid_family (addresses i))
                      (snd p)) summaries = true ->
  ExportConverter_BatchConvert
    (fun metadata client_summary =>
       G.call (ClientSummaryToExportedNetworkInterfaceConverter_Convert
                 metadata client_summary)) summaries
  = G.of_list (flat_map (fun p => map (interface_record (fst p)) (snd p))
                 summaries).
Proof.
  intros Hv. rewrite BatchConvert_default_concat_lemma.
  rewrite <- (concat_of_lists
                (fun p => map (interface_record (fst p)) (snd p))).
  f_equal. apply map_ext_in. intros [md ifs] Hin.
  rewrite forallb_forall in Hv. specialize (Hv _ Hin). cbn [snd fst] in *.
  rewrite forallb_forall in Hv.
  unfold G.call, G.consume. now apply interfaces_valid.
Qed.

Lemma flat_map_ext_on {A B : Type} (f g : A -> list B) (l : list A) :
  (forall x, In x l -> f x = g x) -> flat_map f l = flat_map g l.
Proof.
  intros H. induction l as [|x l IH]; [reflexivity|].
  cbn [flat_map]. rewrite H by now left.
  rewrite IH by (intros y Hy; apply H; now right). reflexivity.
Qed.

Lemma interface_batch_invalid
    (summaries later : list (ExportedMetadata * list Interface))
    (metadata : ExportedMetadata) (before after : list Interface)
    (bad : Interface) :
  forallb (fun p => forallb (fun i => forallb valid_family (addresses i))
                      (snd p)) summaries = true ->
  forallb (fun i => forallb valid_family (addresses i)) before = true ->
  forallb valid_family (addresses bad) = false ->
  ExportConverter_BatchConvert
    (fun metadata client_summary =>
       G.call (ClientSummaryToExportedNetworkInterfaceConverter_Convert
                 metadata client_summary))
    (summaries ++ (metadata, before ++ bad :: after) :: later)
  = (flat_map (fun p => map (interface_record (fst p)) (snd p)) summaries
     ++ map (interface_record metadata) before,
     Raise (ValueError "Invalid address type: %s")).
Proof.
  intros Hv Hbefore Hbad.
  assert (Hs : forall q, In q summaries ->
             G.consume (G.call
               (ClientSummaryToExportedNetworkInterfaceConverter_Convert
                  (fst q) (snd q)))
             = G.of_list (map (interface_record (fst q)) (snd q))).
  { intros [md ifs] Hin. rewrite forallb_forall in Hv.
    specialize (Hv _ Hin). cbn [snd fst] in *. rewrite forallb_forall in Hv.
    unfold G.call, G.consume. now apply interfaces_valid. }
  rewrite (@batch_first_error _ _ summaries later
             (metadata, before ++ bad :: after)
             (map (interface_record metadata) before)
             (ValueError "Invalid address type: %s")).
  - f_equal. f_equal. apply flat_map_ext_on. intros q Hq.
    now rewrite (Hs q Hq).
  - intros q Hq. now rewrite (Hs q Hq).
  - cbn [fst snd]. unfold G.call, G.consume.
    apply interfaces_invalid; [|exact Hbad].
    rewrite forallb_forall in Hbefore. exact Hbefore.
Qed.

Lemma client_batch (summaries : list (ExportedMetadata * list Interface)) :
  ExportConverter_BatchConvert ClientSummaryToExportedClientConverter_Convert
    summaries
  = G.of_list (map (fun p => ExportedClient_ (mkExportedClient (fst p)))
                 summaries).
Proof.
  rewrite BatchConvert_default_concat_lemma.
  induction summaries as [|x l IH]; [reflexivity|].
  cbn [map G.concat fold_right].
  change (fold_right G.app (G.ret tt) ?gs) with (G.concat gs).
  rewrite IH. reflexivity.
Qed.

(** X11. Client summaries given to the engine: when every address is
    IPv4 or IPv6, the engine gives one block with the interface records of
    all summaries and one block with an [ExportedClient] for each summary,
    each block in batch order, the two in the order the registry gives
    the two converters.  One address of another family anywhere in the
    batch ends the whole run with ValueError: of the interface records
    only those made up to that address come out, and the [ExportedClient]
    records come out either all (when the registry gives their converter
    first) or not at all, the valid summaries included. *)
Theorem client_summaries_exported_until_invalid_address :
  forall (env : Env) (depth : nat) (options : option ExportOptions)
         (summaries : list (ExportedMetadata * list Interface)),
    let run batch :=
      ConvertValuesWithMetadata env (ExportConverter_classes env depth)
        (map (fun p => (fst p, ClientSummary_ (snd p))) batch) options in
    let interfaces batch :=
      flat_map (fun p => map (interface_record (fst p)) (snd p)) batch in
    let clients batch :=
      map (fun p => ExportedClient_ (mkExportedClient (fst p))) batch in
    forallb (fun p => forallb (fun i => forallb valid_family (addresses i))
                        (snd p)) summaries = true ->
    (exists blocks,
       Permutation blocks [interfaces summaries; clients summaries]
       /\ run summaries = G.of_list (List.concat blocks))
    /\ forall (metadata : ExportedMetadata) (before after : list Interface)
              (bad : Interface)
              (later : list (ExportedMetadata * list Interface)),
         forallb (fun i => forallb valid_family (addresses i)) before = true ->
         forallb valid_family (addresses bad) = false ->
         let batch :=
           summaries ++ (metadata, before ++ bad :: after) :: later in
         let made :=
           interfaces summaries ++ map (interface_record metadata) before in
         run batch = (made, Raise (ValueError "Invalid address type: %s"))
         \/ run batch
            = (clients batch ++ made,
               Raise (ValueError "Invalid address type: %s")).
Proof.
  intros env depth options summaries run interfaces clients Hv.
  set (interface_class :=
         plain_class "ClientSummaryToExportedNetworkInterfaceConverter"
           "ClientSummary"
           (default_batch as_ClientSummary
              (fun _ metadata client_summary =>
                 G.call
                   (ClientSummaryToExportedNetworkInterfaceConverter_Convert
                      metadata client_summary)))).
  set (client_class :=
         plain_class "ClientSummaryToExportedClientConverter" "ClientSummary"
           (default_batch as_ClientSummary
              (fun _ => ClientSummaryToExportedClientConverter_Convert))).
  assert (Hsetup : forall (md : ExportedMetadata) (ifs : list Interface)
                          (rest : list (ExportedMetadata * list Interface)),
             (forall q : Pair,
                 In q (map (fun p0 : ExportedMetadata * list Interface =>
                              (fst p0, ClientSummary_ (snd p0))) rest) ->
                 class_name (snd q) = class_name (ClientSummary_ ifs))
             /\ Res.mapM (fun '(metadata, v) =>
                            match as_ClientSummary v with
                            | Some x => Ok (metadata, x)
                            | None => Raise AttributeError
                            end)
                  ((md, ClientSummary_ ifs)
                     :: map (fun p0 : ExportedMetadata * list Interface =>
                               (fst p0, ClientSummary_ (snd p0))) rest)
                = Ok ((md, ifs) :: rest)).
  { intros md ifs rest. split.
    - intros q Hq. apply in_map_iff in Hq. destruct Hq as [x [<- _]].
      reflexivity.
    - exact (@mapM_cast_typed (list Interface) as_ClientSummary
               ClientSummary_ ((md, ifs) :: rest) (fun x => eq_refl)). }
  split.
  - destruct summaries as [|[md ifs] rest].
    + exists [[]; []]. split; reflexivity.
    + destruct (Hsetup md ifs rest) as [Hone Hm].
      set (typed := (md, ifs) :: rest) in *.
      set (block := fun c : ConverterClass =>
             if String.eqb (cls_name c)
                  "ClientSummaryToExportedNetworkInterfaceConverter"
             then interfaces typed else clients typed).
      exists (map block
                (sort_by (fun cls => class_rank env (cls_name cls))
                   [interface_class; client_class])).
      split.
      * change [interfaces typed; clients typed]
          with (map block [interface_class; client_class]).
        apply Permutation_map, sort_by_Permutation.
      * rewrite <- flat_map_concat_map. subst run. cbv beta.
        change (map (fun p0 => (fst p0, ClientSummary_ (snd p0))) typed)
          with ((md, ClientSummary_ ifs)
                  :: map (fun p0 : ExportedMetadata * list Interface =>
                            (fst p0, ClientSummary_ (snd p0))) rest).
        apply (@engine_one_class_clean env depth options md
                 (ClientSummary_ ifs) _ [interface_class; client_class]
                 block Hone).
        -- destruct depth; reflexivity.
        -- discriminate.
        -- intros c [<-|[<-|[]]].
           ++ exists (default_batch as_ClientSummary
                        (fun _ metadata client_summary =>
                           G.call
                             (ClientSummaryToExportedNetworkInterfaceConverter_Convert
                                metadata client_summary))
                        (options_or_default options)).
              split; [destruct options; reflexivity|].
              rewrite (default_batch_unfold _ _ _ _ Hm).
              cbn [G.consume]. exact (interface_batch_valid _ Hv).
           ++ exists (default_batch as_ClientSummary
                        (fun _ => ClientSummaryToExportedClientConverter_Convert)
                        (options_or_default options)).
              split; [destruct options; reflexivity|].
              rewrite (default_batch_unfold _ _ _ _ Hm).
              cbn [G.consume]. apply client_batch.
  - intros metadata before after bad later Hbefore Hbad batch made.
    subst run. cbv beta.
    assert (Hbatch : exists md ifs rest, batch = (md, ifs) :: rest).
    { subst batch. destruct summaries as [|[md ifs] rest];
        cbn [app]; eauto. }
    destruct Hbatch as [md [ifs [rest Hbatch]]].
    destruct (Hsetup md ifs rest) as [Hone Hm].
    pose proof (@interface_batch_invalid summaries later metadata before
                  after bad Hv Hbefore Hbad) as Hbadrun.
    fold batch in Hbadrun. fold (interfaces summaries) in Hbadrun.
    fold made in Hbadrun.
    pose proof (client_batch batch) as Hclients. fold (clients batch) in Hclients.
    rewrite Hbatch in *.
    change (map (fun p0 => (fst p0, ClientSummary_ (snd p0)))
              ((md, ifs) :: rest))
      with ((md, ClientSummary_ ifs)
              :: map (fun p0 : ExportedMetadata * list Interface =>
                        (fst p0, ClientSummary_ (snd p0))) rest).
    pose proof (converters_by_value env depth (ClientSummary_ ifs)) as Hget.
    replace (GetConvertersByValue (registered env _) (ClientSummary_ ifs))
      with [interface_class; client_class] in Hget
      by (destruct depth; reflexivity).
    cbn [sort_by insert_by] in Hget.
    destruct (Z.leb _ _) in Hget.
    + left.
      rewrite (@engine_one_class_run env (ExportConverter_classes env depth)
                 options md (ClientSummary_ ifs) _ Hone _ _
                 [ default_batch as_ClientSummary
                     (fun _ metadata client_summary =>
                        G.call
                          (ClientSummaryToExportedNetworkInterfaceConverter_Convert
                             metadata client_summary))
                     (options_or_default options);
                   default_batch as_ClientSummary
                     (fun _ => ClientSummaryToExportedClientConverter_Convert)
                     (options_or_default options) ] Hget)
        by (destruct options; reflexivity).
      cbn [G.for_]. rewrite !(default_batch_unfold _ _ _ _ Hm).
      cbn [G.consume]. rewrite Hbadrun. reflexivity.
    + right.
      rewrite (@engine_one_class_run env (ExportConverter_classes env depth)
                 options md (ClientSummary_ ifs) _ Hone _ _
                 [ default_batch as_ClientSummary
                     (fun _ => ClientSummaryToExportedClientConverter_Convert)
                     (options_or_default options);
                   default_batch as_ClientSummary
                     (fun _ metadata client_summary =>
                        G.call
                          (ClientSummaryToExportedNetworkInterfaceConverter_Convert
                             metadata client_summary))
                     (options_or_default options) ] Hget)
        by (destruct options; reflexivity).
      cbn [G.for_]. rewrite !(default_batch_unfold _ _ _ _ Hm).
      cbn [G.consume]. rewrite Hbadrun, Hclients. reflexivity.
Qed.

Lemma client_summaries_exported_until_invalid_address_witness :
  let batch :=
    [(Examples.metadata1, [Examples2.lo]);
     (Examples2.metadata2, [Examples2.eth0; Examples2.tun0])] in
  let made :=
    [interface_record Examples.metadata1 Examples2.lo;
     interface_record Examples2.metadata2 Examples2.eth0] in
  let run :=
    ConvertValuesWithMetadata Examples2.env3
      (ExportConverter_classes Examples2.env3 1)
      (map (fun p => (fst p, ClientSummary_ (snd p))) batch) None in
  run
  = (map (fun p => ExportedClient_ (mkExportedClient (fst p))) batch ++ made,
     Raise (ValueError "Invalid address type: %s"))
  /\ (run = (made, Raise (ValueError "Invalid address type: %s"))
      \/ run
         = (map (fun p => ExportedClient_ (mkExportedClient (fst p))) batch
              ++ made,
            Raise (ValueError "Invalid address type: %s"))).
Proof.
  intros batch made run. split; [reflexivity|].
  destruct (@client_summaries_exported_until_invalid_address Examples2.env3 1
              None [(Examples.metadata1, [Examples2.lo])] eq_refl) as [_ H].
  exact (H Examples2.metadata2 [Examples2.eth0] [] Examples2.tun0 []
           eq_refl eq_refl).
Defined.

(** ** The memo table of the converter lookup *)

Lemma memo_hit (classes : list ConverterClass)
    (converters_cache : ConvertersCache) (v : Value)
    (results : list ConverterClass) :
  Dict.get String.eqb converters_cache (class_name v) = Some results ->
  GetConvertersByValue_memo classes converters_cache v
  = (results, converters_cache).
Proof.
  intros Hget. unfold GetConvertersByValue_memo, Dict.getitem.
  now rewrite Hget.
Qed.

Lemma memo_miss (classes : list ConverterClass)
    (converters_cache : ConvertersCache) (v : Value) :
  Dict.get String.eqb converters_cache (class_name v) = None ->
  GetConvertersByValue_memo classes converters_cache v
  = (GetConvertersByValue classes v,
     Dict.set String.eqb converters_cache (class_name v)
       (GetConvertersByValue classes v)).
Proof.
  intros Hget. unfold GetConvertersByValue_memo, Dict.getitem.
  now rewrite Hget.
Qed.

(** X12. Converter lookup with its memo table: on a table whose entries
    all agree with the registry, the lookup returns what the registry
    gives for the class of the value, and leaves a table that still agrees
    with the registry and now holds the class of the value, also when no
    converter takes it (the empty list is remembered).  From then on the
    answer for that class is fixed: the same lookup gives the same list
    and the same table whatever the registry holds by then, so a converter
    registered after the first lookup of its input class is not found. *)
Theorem converters_memo_agrees_with_registry :
  forall (classes : list ConverterClass) (converters_cache : ConvertersCache)
         (v : Value),
    cache_coherent classes converters_cache ->
    let first_call := GetConvertersByValue_memo classes converters_cache v in
    fst first_call = GetConvertersByValue classes v
    /\ cache_coherent classes (snd first_call)
    /\ Dict.get String.eqb (snd first_call) (class_name v)
       = Some (fst first_call)
    /\ (forall k results,
          Dict.get String.eqb converters_cache k = Some results ->
          Dict.get String.eqb (snd first_call) k = Some results)
    /\ (forall later_classes : list ConverterClass,
          GetConvertersByValue_memo later_classes (snd first_call) v
          = first_call).
Proof.
  intros classes cache v Hco first_call. subst first_call.
  destruct (Dict.get String.eqb cache (class_name v)) as [rs|] eqn:Hget.
  - rewrite (memo_hit classes cache v Hget). cbn [fst snd].
    split; [exact (Hco _ _ Hget)|]. split; [exact Hco|].
    split; [exact Hget|]. split; [auto|].
    intros later. now apply memo_hit.
  - rewrite (memo_miss classes cache v Hget). cbn [fst snd].
    set (results := GetConvertersByValue classes v).
    assert (Hsame : Dict.get String.eqb
                      (Dict.set String.eqb cache (class_name v) results)
                      (class_name v) = Some results)
      by (apply (@get_set_same _ _ _ String.eqb id string_eqb_ident);
          reflexivity).
    split; [reflexivity|]. split; [|split; [exact Hsame|split]].
    + intros k rs Hk.
      destruct (String.eqb (class_name v) k) eqn:E.
      * apply String.eqb_eq in E. subst k. rewrite Hsame in Hk.
        injection Hk as <-. reflexivity.
      * apply String.eqb_neq in E.
        rewrite (@get_set_other _ _ _ String.eqb id string_eqb_ident) in Hk
          by exact E.
        exact (Hco _ _ Hk).
    + intros k rs Hk.
      destruct (String.eqb (class_name v) k) eqn:E.
      * apply String.eqb_eq in E. subst k. congruence.
      * apply String.eqb_neq in E.
        rewrite (@get_set_other _ _ _ String.eqb id string_eqb_ident)
          by exact E.
        exact Hk.
    + intros later. now apply memo_hit.
Qed.

Lemma converters_memo_agrees_with_registry_witness :
  fst (GetConvertersByValue_memo
         (ExportConverter_classes Examples.env1 1) []
         (Process_ Examples.process1))
  = GetConvertersByValue (ExportConverter_classes Examples.env1 1)
      (Process_ Examples.process1).
Proof.
  destruct (@converters_memo_agrees_with_registry
              (ExportConverter_classes Examples.env1 1) []
              (Process_ Examples.process1)) as [H _].
  - intros k results Hk. discriminate Hk.
  - exact H.
Defined.

(** ** Messages given to the engine *)

Lemma grr_message_classes (env : Env) (depth : nat) (source : RDFURN)
    (payload : Value) :
  GetConvertersByValue (ExportConverter_classes env (S depth))
    (GrrMessage_ source payload)
  = [ plain_class "GrrMessageConverter" "GrrMessage" (fun options =>
        on_class as_GrrMessage (fun pairs =>
          Res.bind
            (fst (GrrMessageConverter_BatchConvert env
                    (GetConvertersByValue (ExportConverter_classes env depth))
                    options [] pairs))
            (fun converted => Ok (G.of_list converted)))) ].
Proof. rewrite converters_by_value. reflexivity. Qed.

Lemma grr_message_converter_constructed (env : Env) (depth : nat)
    (options : option ExportOptions) :
  Res.mapM (fun c => construct c [options])
    [ plain_class "GrrMessageConverter" "GrrMessage" (fun options =>
        on_class as_GrrMessage (fun pairs =>
          Res.bind
            (fst (GrrMessageConverter_BatchConvert env
                    (GetConvertersByValue (ExportConverter_classes env depth))
                    options [] pairs))
            (fun converted => Ok (G.of_list converted)))) ]
  = Ok [ on_class as_GrrMessage (fun pairs =>
           Res.bind
             (fst (GrrMessageConverter_BatchConvert env
                     (GetConvertersByValue (ExportConverter_classes env depth))
                     (options_or_default options) [] pairs))
             (fun converted => Ok (G.of_list converted))) ].
Proof. destruct options; reflexivity. Qed.

Lemma consume_returned_list (r : Result (list Exported)) :
  (G.consume (Res.bind r (fun converted => Ok (G.of_list converted))) ;;;
   G.ret tt)%gen
  = match r with
    | Ok converted => G.of_list converted
    | Raise e => G.raise e
    end.
Proof.
  destruct r as [converted|e]; [apply bind_tt_r|reflexivity].
Qed.

(** The engine on a batch of messages: the message converter, given the
    whole batch and an empty cache. *)
Lemma engine_on_messages (env : Env) (depth : nat)
    (options : option ExportOptions)
    (first : ExportedMetadata * GrrMessage)
    (rest : list (ExportedMetadata * GrrMessage)) :
  ConvertValuesWithMetadata env (ExportConverter_classes env (S depth))
    (map (fun p => (fst p, GrrMessage_ (fst (snd p)) (snd (snd p))))
       (first :: rest)) options
  = match fst (GrrMessageConverter_BatchConvert env
                 (GetConvertersByValue (ExportConverter_classes env depth))
                 (options_or_default options) [] (first :: rest)) with
    | Ok converted => G.of_list converted
    | Raise e => G.raise e
    end.
Proof.
  destruct first as [md [source payload]].
  set (typed := (md, (source, payload)) :: rest).
  assert (Hm : Res.mapM (fun '(metadata, v) =>
                           match as_GrrMessage v with
                           | Some x => Ok (metadata, x)
                           | None => Raise AttributeError
                           end)
                 (map (fun p : ExportedMetadata * GrrMessage =>
                         (fst p, GrrMessage_ (fst (snd p)) (snd (snd p))))
                    typed)
               = Ok typed).
  { clear. induction typed as [|[m [s v]] typed IH]; [reflexivity|].
    cbn [map Res.mapM fst snd as_GrrMessage Res.bind]. rewrite IH.
    reflexivity. }
  change (map (fun p : ExportedMetadata * GrrMessage =>
                 (fst p, GrrMessage_ (fst (snd p)) (snd (snd p)))) typed)
    with ((md, GrrMessage_ source payload)
            :: map (fun p : ExportedMetadata * GrrMessage =>
                      (fst p, GrrMessage_ (fst (snd p)) (snd (snd p)))) rest)
    in Hm |- *.
  assert (Hone : forall q : Pair,
             In q (map (fun p : ExportedMetadata * GrrMessage =>
                          (fst p, GrrMessage_ (fst (snd p)) (snd (snd p))))
                     rest) ->
             class_name (snd q) = class_name (GrrMessage_ source payload)).
  { intros q Hq. apply in_map_iff in Hq. destruct Hq as [x [<- _]].
    reflexivity. }
  etransitivity;
    [exact (@engine_one_class_run env
              (ExportConverter_classes env (S depth))
              options md (GrrMessage_ source payload) _ Hone _ _ _
              (grr_message_classes env depth source payload)
              (grr_message_converter_constructed env depth options))|].
  cbn [G.for_]. unfold on_class. cbn [BatchConvert]. rewrite Hm.
  cbn [Res.bind]. subst typed. apply consume_returned_list.
Qed.

(** X13. Messages: the message converter picks its converters from the
    payload of the first message alone.  When no converter takes that
    payload, a batch of messages given to the engine exports nothing and
    raises nothing, whatever the other messages hold and whether or not
    their sources are found; the same payload given to the engine directly
    ends with NoConverterFound. *)
Theorem messages_without_converter_vanish_silently :
  forall (env : Env) (depth : nat) (options : option ExportOptions)
         (metadata : ExportedMetadata) (source : RDFURN) (payload : Value)
         (rest : list (ExportedMetadata * GrrMessage)),
    GetConvertersByValue (ExportConverter_classes env depth) payload = [] ->
    ConvertValuesWithMetadata env (ExportConverter_classes env (S depth))
      (map (fun p => (fst p, GrrMessage_ (fst (snd p)) (snd (snd p))))
         ((metadata, (source, payload)) :: rest)) options
    = G.ret tt
    /\ ConvertValuesWithMetadata env (ExportConverter_classes env depth)
         [(metadata, payload)] options
       = G.raise (NoConverterFound (no_converter_message env payload)).
Proof.
  intros env depth options metadata source payload rest Hget. split.
  - rewrite engine_on_messages.
    unfold GrrMessageConverter_BatchConvert. cbn [snd]. rewrite Hget.
    cbn [Res.mapM].
    match goal with
    | |- context [batch_data_of ?e ?c ?l] =>
        destruct (batch_data_of e c l) as [batch_data cache]
    end.
    reflexivity.
  - apply engine_one_class_unmatched; [|exact Hget].
    intros q [].
Qed.

Lemma messages_without_converter_vanish_silently_witness :
  ConvertValuesWithMetadata Examples.env2
    (ExportConverter_classes Examples.env2 1)
    [(Examples.metadata1,
      GrrMessage_ (urn Examples.client1) (Other_ "RDFString"));
     (Examples.metadata1,
      GrrMessage_ (urn Examples.client1) (Process_ Examples.process1))]
    None
  = G.ret tt.
Proof.
  destruct (@messages_without_converter_vanish_silently Examples.env2 0 None
              Examples.metadata1 (urn Examples.client1) (Other_ "RDFString")
              [(Examples.metadata1,
                (urn Examples.client1, Process_ Examples.process1))]
              eq_refl) as [H _].
  exact H.
Defined.

(** ** The batched lookup of client metadata *)

Lemma to_fetch_closed (env : Env) (cache : Cache)
    (pairs : list (ExportedMetadata * GrrMessage)) :
  snd (split_cached cache (iterkeys env (group_by_source pairs)))
  = sources_to_fetch env cache pairs.
Proof.
  assert (Hkeys : iterkeys env (group_by_source pairs) = sources env pairs).
  { unfold iterkeys, group_by_source, sources.
    now rewrite (keys_grouped (fun pair : ExportedMetadata * GrrMessage =>
                                 fst (snd pair))). }
  rewrite Hkeys. unfold split_cached. rewrite split_cached_from.
  reflexivity.
Qed.

(** X14. Messages, the lookup of client metadata: the addresses asked of
    the store in the one batched request are exactly the sources of the
    batch the cache does not hold, each once, however many messages share
    a source.  The lookup never replaces what the cache held; every source
    asked for and found is in the cache afterwards with the metadata read
    from its client object, and nothing else enters the cache. *)
Theorem metadata_lookup_asks_once_per_unknown_source :
  forall (env : Env) (cached_metadata : Cache)
         (metadata_value_pairs : list (ExportedMetadata * GrrMessage)),
    store_wf env ->
    let metadata_to_fetch :=
      snd (split_cached cached_metadata
             (iterkeys env (group_by_source metadata_value_pairs))) in
    let cache_afterwards :=
      snd (batch_data_of env cached_metadata metadata_value_pairs) in
    NoDup metadata_to_fetch
    /\ (forall u,
          In u metadata_to_fetch
          <-> (exists p, In p metadata_value_pairs /\ fst (snd p) = u)
              /\ Dict.get String.eqb cached_metadata u = None)
    /\ (forall k m,
          Dict.get String.eqb cached_metadata k = Some m ->
          Dict.get String.eqb cache_afterwards k = Some m)
    /\ (forall u client_fd,
          In u metadata_to_fetch -> store env u = Some client_fd ->
          Dict.get String.eqb cache_afterwards u
          = Some (GetMetadata env (fst client_fd)))
    /\ (forall k m,
          Dict.get String.eqb cache_afterwards k = Some m ->
          Dict.get String.eqb cached_metadata k = Some m
          \/ (In k metadata_to_fetch
              /\ exists client_fd, store env k = Some client_fd
                                   /\ m = GetMetadata env (fst client_fd))).
Proof.
  intros env cache pairs Hstore to_fetch cache_afterwards.
  subst to_fetch cache_afterwards.
  rewrite to_fetch_closed, batch_data_of_closed. cbn [snd].
  assert (Hin : forall u,
             In u (sources_to_fetch env cache pairs)
             <-> (exists p, In p pairs /\ fst (snd p) = u)
                 /\ Dict.get String.eqb cache u = None).
  { intros u. unfold sources_to_fetch. rewrite filter_In, sources_In.
    unfold Dict.has_key.
    destruct (Dict.get String.eqb cache u); cbn [negb];
      intuition (discriminate || auto). }
  assert (Hfetched : forall u client_fd,
             In u (sources_to_fetch env cache pairs) ->
             store env u = Some client_fd ->
             In (GetMetadata env (fst client_fd))
               (fetched_objects env cache pairs)
             /\ client_urn (GetMetadata env (fst client_fd)) = u).
  { intros u fd Hu Hfd. split; [|exact (Hstore _ _ Hfd)].
    unfold fetched_objects. apply in_map_iff. exists fd.
    split; [reflexivity|]. apply MultiOpen_In. eauto. }
  split; [|split; [exact Hin|split; [|split]]].
  - unfold sources_to_fetch, sources.
    apply NoDup_filter, sort_by_NoDup, first_seen_NoDup.
  - intros k m Hk. now apply cache_after_cached.
  - intros u fd Hu Hfd. destruct (Hfetched u fd Hu Hfd) as [Hm Hk].
    rewrite <- Hk at 1. unfold cache_after.
    apply get_fold_put_In; [now apply fetched_NoDup|exact Hm].
  - intros k m Hk. unfold cache_after in Hk.
    apply get_fold_put_inv in Hk. destruct Hk as [[Hm Hk]|Hc]; [|now left].
    right. unfold fetched_objects in Hm. apply in_map_iff in Hm.
    destruct Hm as [fd [Efd Hfd]]. apply MultiOpen_In in Hfd.
    destruct Hfd as [u [Hu Hs]].
    assert (u = k).
    { rewrite <- Hk, <- Efd. symmetry. exact (Hstore _ _ Hs). }
    subst u. split; [exact Hu|]. exists fd. auto.
Qed.

Lemma metadata_lookup_asks_once_per_unknown_source_witness :
  snd (split_cached []
         (iterkeys Examples.env2
            (group_by_source
               [Examples.message1; Examples.message2; Examples.message1])))
  = [urn Examples.client1; "aff4:/C.0000000000000002"]
  /\ NoDup (snd (split_cached []
                   (iterkeys Examples.env2
                      (group_by_source
                         [Examples.message1; Examples.message2;
                          Examples.message1])))).
Proof.
  split; [reflexivity|].
  exact (proj1 (@metadata_lookup_asks_once_per_unknown_source Examples.env2 []
                  [Examples.message1; Examples.message2; Examples.message1]
                  store_wf_env2)).
Defined.

(** ** References *)

Section StringDictFacts.
Variable V : Type.

Lemma keys_set (d : Dict.t string V) k v :
  Dict.keys (Dict.set String.eqb d k v)
  = if existsb (String.eqb k) (Dict.keys d) then Dict.keys d
    else Dict.keys d ++ [k].
Proof.
  unfold Dict.keys. induction d as [|[k0 v0] d IH]; simpl; [reflexivity|].
  rewrite (String.eqb_sym k k0).
  destruct (String.eqb k0 k); simpl; [reflexivity|].
  rewrite IH. destruct (existsb _ _); reflexivity.
Qed.

(** The keys of [dict(pairs)]: the distinct keys of the pairs, in the
    order of their first occurrence. *)
Lemma keys_fold_set (pairs : list (string * V)) (d : Dict.t string V) :
  Dict.keys (fold_left (fun d kv => Dict.set String.eqb d (fst kv) (snd kv))
               pairs d)
  = Dict.keys d ++ first_seen (Dict.keys d) (map fst pairs).
Proof.
  revert d. induction pairs as [|[k v] pairs IH]; intros d; simpl.
  - now rewrite app_nil_r.
  - rewrite IH, keys_set.
    destruct (existsb _ _); [reflexivity|]. now rewrite <- app_assoc.
Qed.

(** The value of [dict(pairs)] at a key: the one of the last pair with
    that key. *)
Lemma get_fold_set_last (pairs : list (string * V)) (d : Dict.t string V) k :
  Dict.get String.eqb
    (fold_left (fun d kv => Dict.set String.eqb d (fst kv) (snd kv)) pairs d)
    k
  = fold_left (fun found kv =>
                 if String.eqb (fst kv) k then Some (snd kv) else found)
      pairs (Dict.get String.eqb d k).
Proof.
  revert d. induction pairs as [|[k0 v0] pairs IH]; intros d; [reflexivity|].
  cbn [fold_left fst snd]. rewrite IH. f_equal.
  destruct (String.eqb_spec k0 k) as [->|E].
  - apply (@get_set_same _ _ _ String.eqb id string_eqb_ident). reflexivity.
  - now apply (@get_set_other _ _ _ String.eqb id string_eqb_ident).
Qed.

Lemma get_key (d : Dict.t string V) k :
  In k (Dict.keys d) -> exists v, Dict.get String.eqb d k = Some v.
Proof.
  unfold Dict.keys. induction d as [|[k0 v0] d IH]; [intros []|].
  cbn [map fst In Dict.get]. intros Hin.
  destruct (String.eqb_spec k0 k) as [->|E]; [eauto|].
  destruct Hin as [Hin|Hin]; [contradiction|]. now apply IH.
Qed.
End StringDictFacts.

Lemma last_metadata_fold (u : RDFURN) (pairs : list Pair)
    (found : option ExportedMetadata) :
  fold_left (fun found kv =>
               if String.eqb (fst kv) u then Some (snd kv) else found)
    (flat_map (fun '(metadata, v) =>
                 match v with
                 | RDFURN_ u' => [(u', metadata)]
                 | _ => []
                 end) pairs) found
  = fold_left (fun found '(metadata, v) =>
                 match v with
                 | RDFURN_ u' =>
                     if String.eqb u' u then Some metadata else found
                 | _ => found
                 end) pairs found.
Proof.
  revert found. induction pairs as [|[md v] pairs IH]; intros found;
    [reflexivity|].
  cbn [flat_map]. rewrite fold_left_app, IH.
  destruct v; reflexivity.
Qed.

Lemma mapM_map {A B : Type} (f : A -> Result B) (g : A -> B) (l : list A) :
  (forall x, In x l -> f x = Ok (g x)) -> Res.mapM f l = Ok (map g l).
Proof.
  induction l as [|x l IH]; intros H; [reflexivity|].
  cbn [Res.mapM map]. rewrite (H x (or_introl eq_refl)).
  rewrite IH by (intros y Hy; apply H; now right). reflexivity.
Qed.

Lemma flat_map_map {A B C : Type} (f : A -> list B) (g : B -> C)
    (l : list A) :
  map g (flat_map f l) = flat_map (fun x => map g (f x)) l.
Proof.
  induction l as [|x l IH]; [reflexivity|].
  cbn [flat_map]. now rewrite map_app, IH.
Qed.

(** X15. References: with every stored object filed under its own
    address, building the batch of a batch of references never raises.
    Values that are not references and references the store does not hold
    are left out without a trace; every other reference gives exactly one
    entry, however often it occurs; the entry holds the object stored at
    the reference and the metadata of the last pair that held it.  The
    order of the entries is that of the dict and of the store, which the
    source does not fix: the batch is stated up to its order. *)
Theorem references_resolved_once_with_last_metadata :
  forall (env : Env) (metadata_value_pairs : list Pair),
    store_wf env ->
    exists batch,
      RDFURNConverter_batch env metadata_value_pairs = Ok batch
      /\ Permutation batch
           (flat_map
              (fun u =>
                 match store env u,
                       last_metadata_of u metadata_value_pairs with
                 | Some fd, Some metadata =>
                     [(metadata, AFF4_ (fst fd) (snd fd))]
                 | _, _ => []
                 end)
              (references metadata_value_pairs)).
Proof.
  intros env pairs Hstore. unfold RDFURNConverter_batch. cbv zeta.
  pose (urn_metadata_pairs :=
          flat_map (fun '(metadata, v) =>
                      match v with
                      | RDFURN_ u => [(u, metadata)]
                      | _ => []
                      end) pairs).
  assert (Hkeys : Dict.keys (Dict.of_pairs String.eqb urn_metadata_pairs)
                  = references pairs).
  { unfold Dict.of_pairs. rewrite keys_fold_set. cbn [Dict.keys map app].
    unfold references. f_equal. subst urn_metadata_pairs.
    clear. induction pairs as [|[md v] pairs IH]; [reflexivity|].
    cbn [flat_map]. rewrite map_app.
    destruct v; cbn [map app fst]; try exact IH.
    exact (f_equal (cons u) IH). }
  assert (Hlast : forall u,
             Dict.get String.eqb (Dict.of_pairs String.eqb urn_metadata_pairs) u
             = last_metadata_of u pairs).
  { intros u. unfold Dict.of_pairs. rewrite get_fold_set_last.
    subst urn_metadata_pairs. apply last_metadata_fold. }
  set (g := fun fd : Opened =>
         (match last_metadata_of (urn (fst fd)) pairs with
          | Some metadata => metadata
          | None => ExportedMetadata_default
          end, AFF4_ (fst fd) (snd fd))).
  set (fds := MultiOpen env
                (iterkeys env (Dict.of_pairs String.eqb urn_metadata_pairs))).
  assert (Hfds : forall fd, In fd fds ->
             In (urn (fst fd)) (references pairs)
             /\ store env (urn (fst fd)) = Some fd).
  { intros fd Hfd. subst fds. apply MultiOpen_In in Hfd.
    destruct Hfd as [u [Hu Hs]]. unfold iterkeys in Hu.
    apply sort_by_In in Hu.
    assert (Hu' : In u (references pairs)) by (rewrite <- Hkeys; exact Hu).
    rewrite (Hstore _ _ Hs). auto. }
  exists (map g fds). split.
  - apply mapM_map. intros fd Hfd. destruct (Hfds fd Hfd) as [Hin _].
    rewrite <- Hkeys in Hin. apply get_key in Hin. destruct Hin as [md Hmd].
    assert (Hget : Dict.getitem String.eqb
                     (Dict.of_pairs String.eqb urn_metadata_pairs)
                     (urn (fst fd)) = Ok md)
      by (unfold Dict.getitem; now rewrite Hmd).
    etransitivity;
      [exact (f_equal
                (fun r => Res.bind r (fun metadata =>
                            Ok (metadata, AFF4_ (fst fd) (snd fd)))) Hget)|].
    cbn [Res.bind]. unfold g. rewrite <- Hlast, Hmd. reflexivity.
  - subst fds. unfold MultiOpen, iterkeys.
    change (Dict.keys _) with
      (Dict.keys (Dict.of_pairs String.eqb urn_metadata_pairs)).
    rewrite Hkeys.
    rewrite sort_by_Permutation.
    rewrite (Permutation_flat_map _ (sort_by_Permutation _ _)).
    rewrite flat_map_map.
    rewrite (flat_map_ext_on
               (fun x => map g match store env x with
                               | Some fd => [fd]
                               | None => []
                               end)
               (fun u =>
                  match store env u, last_metadata_of u pairs with
                  | Some fd, Some metadata =>
                      [(metadata, AFF4_ (fst fd) (snd fd))]
                  | _, _ => []
                  end)); [reflexivity|].
    intros u Hu. destruct (store env u) as [fd|] eqn:Hs; [|reflexivity].
    cbn [map]. unfold g. rewrite (Hstore _ _ Hs).
    rewrite <- Hkeys in Hu. apply get_key in Hu. destruct Hu as [md Hmd].
    rewrite <- Hlast, Hmd. reflexivity.
Qed.

Lemma references_resolved_once_with_last_metadata_witness :
  let pairs :=
    [(Examples.metadata1, RDFURN_ (urn Examples2.passwd_fd));
     (Examples.metadata1, Other_ "RDFString");
     (Examples.metadata1, RDFURN_ "aff4:/C.0000000000000001/fs/os/missing");
     (Examples.metadata1, RDFURN_ (urn Examples.collection_fd));
     (Examples2.metadata2, RDFURN_ (urn Examples2.passwd_fd))] in
  RDFURNConverter_batch Examples2.env3 pairs
  = Ok [(Examples.metadata1,
         AFF4_ Examples.collection_fd
           [Process_ Examples.process1; Process_ Examples.process2]);
        (Examples2.metadata2, AFF4_ Examples2.passwd_fd [])]
  /\ exists batch,
       RDFURNConverter_batch Examples2.env3 pairs = Ok batch
       /\ Permutation batch
            [(Examples2.metadata2, AFF4_ Examples2.passwd_fd []);
             (Examples.metadata1,
              AFF4_ Examples.collection_fd
                [Process_ Examples.process1; Process_ Examples.process2])].
Proof.
  split; [reflexivity|].
  exact (@references_resolved_once_with_last_metadata Examples2.env3 _
           store_wf_env3).
Defined.

(** ** References and collections given to the engine *)

Lemma reference_classes (env : Env) (depth : nat) (u : RDFURN) :
  GetConvertersByValue (ExportConverter_classes env (S depth)) (RDFURN_ u)
  = [ plain_class "RDFURNConverter" "RDFURN" (fun _ =>
        mkConverter
          (RDFURNConverter_BatchConvert env
             (ConvertValuesWithMetadata env
                (ExportConverter_classes env depth)))) ].
Proof. rewrite converters_by_value. reflexivity. Qed.

Lemma reference_converter_constructed (env : Env) (depth : nat)
    (options : option ExportOptions) :
  Res.mapM (fun c => construct c [options])
    [ plain_class "RDFURNConverter" "RDFURN" (fun _ =>
        mkConverter
          (RDFURNConverter_BatchConvert env
             (ConvertValuesWithMetadata env
                (ExportConverter_classes env depth)))) ]
  = Ok [ mkConverter
           (RDFURNConverter_BatchConvert env
              (ConvertValuesWithMetadata env
                 (ExportConverter_classes env depth))) ].
Proof. destruct options; reflexivity. Qed.

(** The engine on a batch of references: the engine again, one level
    deeper, on the objects the references resolve to, with no options. *)
Lemma engine_on_references (env : Env) (depth : nat)
    (options : option ExportOptions)
    (references : list (ExportedMetadata * RDFURN)) (batch : list Pair) :
  RDFURNConverter_batch env
    (map (fun p => (fst p, RDFURN_ (snd p))) references) = Ok batch ->
  ConvertValuesWithMetadata env (ExportConverter_classes env (S depth))
    (map (fun p => (fst p, RDFURN_ (snd p))) references) options
  = ConvertValuesWithMetadata env (ExportConverter_classes env depth)
      batch None.
Proof.
  intros Hbatch. destruct references as [|[md u] rest].
  - injection Hbatch as <-. reflexivity.
  - assert (Hone : forall q : Pair,
               In q (map (fun p : ExportedMetadata * RDFURN =>
                            (fst p, RDFURN_ (snd p))) rest) ->
               class_name (snd q) = class_name (RDFURN_ u)).
    { intros q Hq. apply in_map_iff in Hq. destruct Hq as [x [<- _]].
      reflexivity. }
    etransitivity;
      [exact (@engine_one_class_run env
                (ExportConverter_classes env (S depth))
                options md (RDFURN_ u) _ Hone _ _ _
                (reference_classes env depth u)
                (reference_converter_constructed env depth options))|].
    cbn [G.for_ BatchConvert]. unfold RDFURNConverter_BatchConvert.
    etransitivity;
      [exact (f_equal
                (fun r =>
                   (G.consume
                      (Res.bind r (fun batch0 =>
                         match G.call
                                 (ConvertValuesWithMetadata env
                                    (ExportConverter_classes env depth)
                                    batch0 None) with
                         | Ok converted => Ok converted
                         | Raise (NoConverterFound _) => Ok (G.of_list [])
                         | Raise e => Raise e
                         end)) ;;; G.ret tt)%gen) Hbatch)|].
    cbn [Res.bind G.call G.consume]. apply bind_tt_r.
Qed.

(** X16. References given to the engine: a batch of references is
    converted as the batch of the objects they resolve to, by the engine
    one level deeper and without the options the caller gave: the targets
    are converted with the default options.  Whatever the inner run
    yields and whatever it raises, NoConverterFound included, is what the
    outer run yields and raises. *)
Theorem references_converted_as_their_targets :
  forall (env : Env) (depth : nat) (options : option ExportOptions)
         (references : list (ExportedMetadata * RDFURN)) (batch : list Pair),
    RDFURNConverter_batch env
      (map (fun p => (fst p, RDFURN_ (snd p))) references) = Ok batch ->
    ConvertValuesWithMetadata env (ExportConverter_classes env (S depth))
      (map (fun p => (fst p, RDFURN_ (snd p))) references) options
    = ConvertValuesWithMetadata env (ExportConverter_classes env depth)
        batch None.
Proof.
  intros env depth options references batch. apply engine_on_references.
Qed.

Lemma references_converted_as_their_targets_witness :
  ConvertValuesWithMetadata Examples2.env3
    (ExportConverter_classes Examples2.env3 1)
    [(Examples.metadata1, RDFURN_ (urn Examples2.passwd_fd));
     (Examples.metadata1, RDFURN_ "aff4:/C.0000000000000001/fs/os/missing")]
    (Some (mkOptions true true))
  = ConvertValuesWithMetadata Examples2.env3
      (ExportConverter_classes Examples2.env3 0)
      [(Examples.metadata1, AFF4_ Examples2.passwd_fd [])] None.
Proof.
  exact (@references_converted_as_their_targets Examples2.env3 0
           (Some (mkOptions true true))
           [(Examples.metadata1, urn Examples2.passwd_fd);
            (Examples.metadata1, "aff4:/C.0000000000000001/fs/os/missing")]
           [(Examples.metadata1, AFF4_ Examples2.passwd_fd [])] eq_refl).
Defined.

Lemma collection_classes (env : Env) (depth : nat) (fd : AFF4Object)
    (items : list Value) :
  aff4_class fd = "RDFValueCollection" ->
  GetConvertersByValue (ExportConverter_classes env (S depth)) (AFF4_ fd items)
  = [ plain_class "RDFValueCollectionConverter" "RDFValueCollection"
        (fun options =>
           default_batch as_collection
             (fun options metadata collection =>
                G.call (RDFValueCollectionConverter_Convert
                          (ConvertValues env (ExportConverter_classes env depth))
                          options BATCH_SIZE metadata collection))
             options) ].
Proof.
  intros Hclass. rewrite converters_by_value.
  unfold GetConvertersByValue. cbn [class_name].
  rewrite Hclass. reflexivity.
Qed.

Lemma collection_converter_constructed (env : Env) (depth : nat)
    (options : option ExportOptions) :
  Res.mapM (fun c => construct c [options])
    [ plain_class "RDFValueCollectionConverter" "RDFValueCollection"
        (fun options =>
           default_batch as_collection
             (fun options metadata collection =>
                G.call (RDFValueCollectionConverter_Convert
                          (ConvertValues env (ExportConverter_classes env depth))
                          options BATCH_SIZE metadata collection))
             options) ]
  = Ok [ default_batch as_collection
           (fun options metadata collection =>
              G.call (RDFValueCollectionConverter_Convert
                        (ConvertValues env (ExportConverter_classes env depth))
                        options BATCH_SIZE metadata collection))
           (options_or_default options) ].
Proof. destruct options; reflexivity. Qed.

Lemma collection_runs (env : Env) (classes : list ConverterClass)
    (options : ExportOptions) (n : nat) (metadata : ExportedMetadata)
    (collection : list Value) :
  RDFValueCollectionConverter_Convert (ConvertValues env classes) options n
    metadata collection
  = G.concat
      (map (fun batch =>
              ConvertValuesWithMetadata env classes
                (map (fun obj => (metadata, obj)) batch) (Some options))
         (Grouper collection n)).
Proof.
  unfold RDFValueCollectionConverter_Convert.
  destruct collection as [|x collection]; [reflexivity|].
  rewrite for_concat_map. f_equal. apply map_ext. intros batch.
  rewrite for_in_yield. reflexivity.
Qed.

(** The engine on one collection. *)
Lemma engine_on_collection (env : Env) (depth : nat)
    (options : option ExportOptions) (metadata : ExportedMetadata)
    (fd : AFF4Object) (items : list Value) :
  aff4_class fd = "RDFValueCollection" ->
  ConvertValuesWithMetadata env (ExportConverter_classes env (S depth))
    [(metadata, AFF4_ fd items)] options
  = G.concat
      (map (fun batch =>
              ConvertValuesWithMetadata env (ExportConverter_classes env depth)
                (map (fun obj => (metadata, obj)) batch)
                (Some (options_or_default options)))
         (Grouper items BATCH_SIZE)).
Proof.
  intros Hclass.
  etransitivity;
    [exact (@engine_one_class_run env
              (ExportConverter_classes env (S depth))
              options metadata (AFF4_ fd items) []
              (fun q (Hq : In q []) => match Hq with end) _ _ _
              (collection_classes env depth fd items Hclass)
              (collection_converter_constructed env depth options))|].
  cbn [G.for_].
  rewrite (@default_batch_unfold (list Value) as_collection _ _
             [(metadata, AFF4_ fd items)] [(metadata, items)] eq_refl).
  cbn [G.consume]. rewrite bind_tt_r.
  rewrite BatchConvert_default_concat_lemma.
  cbn [map G.concat fold_right fst snd G.call G.consume].
  unfold G.app. rewrite bind_tt_r.
  apply collection_runs.
Qed.

(** X17. Collections given to the engine: an object of class
    RDFValueCollection is converted by running the engine, one level
    deeper, on its members in consecutive sub-batches of at most
    [BATCH_SIZE], every member paired with the metadata of the collection;
    the options the caller gave are handed on to these runs (the default
    options when there were none).  A run starts only if the one before
    ended without error, and an empty collection gives nothing. *)
Theorem collection_members_converted_with_the_options :
  forall (env : Env) (depth : nat) (options : option ExportOptions)
         (metadata : ExportedMetadata) (fd : AFF4Object) (items : list Value),
    aff4_class fd = "RDFValueCollection" ->
    ConvertValuesWithMetadata env (ExportConverter_classes env (S depth))
      [(metadata, AFF4_ fd items)] options
    = G.concat
        (map (fun batch =>
                ConvertValuesWithMetadata env
                  (ExportConverter_classes env depth)
                  (map (fun obj => (metadata, obj)) batch)
                  (Some (options_or_default options)))
           (Grouper items BATCH_SIZE)).
Proof.
  intros env depth options metadata fd items. apply engine_on_collection.
Qed.

Lemma collection_members_converted_with_the_options_witness :
  ConvertValuesWithMetadata Examples2.env3
    (ExportConverter_classes Examples2.env3 1)
    [(Examples.metadata1,
      AFF4_ Examples.collection_fd
        [Process_ Examples.process1; Process_ Examples.process2])]
    (Some (mkOptions true false))
  = G.concat
      (map (fun batch =>
              ConvertValuesWithMetadata Examples2.env3
                (ExportConverter_classes Examples2.env3 0)
                (map (fun obj => (Examples.metadata1, obj)) batch)
                (Some (mkOptions true false)))
         (Grouper [Process_ Examples.process1; Process_ Examples.process2]
            BATCH_SIZE)).
Proof.
  exact (@collection_members_converted_with_the_options Examples2.env3 0
           (Some (mkOptions true false)) Examples.metadata1
           Examples.collection_fd
           [Process_ Examples.process1; Process_ Examples.process2] eq_refl).
Defined.

(** X18. A reference to a stored collection: the members of the
    collection are converted in sub-batches with the default options,
    whatever options the caller gave; the options are lost at the
    reference. *)
Theorem referenced_collection_converted_with_default_options :
  forall (env : Env) (depth : nat) (options : option ExportOptions)
         (metadata : ExportedMetadata) (u : RDFURN) (fd : AFF4Object)
         (items : list Value),
    store env u = Some (fd, items) ->
    urn fd = u ->
    aff4_class fd = "RDFValueCollection" ->
    ConvertValuesWithMetadata env (ExportConverter_classes env (S (S depth)))
      [(metadata, RDFURN_ u)] options
    = G.concat
        (map (fun batch =>
                ConvertValuesWithMetadata env
                  (ExportConverter_classes env depth)
                  (map (fun obj => (metadata, obj)) batch)
                  (Some ExportOptions_default))
           (Grouper items BATCH_SIZE)).
Proof.
  intros env depth options metadata u fd items Hstore Hurn Hclass.
  etransitivity;
    [|exact (@engine_on_collection env depth None metadata fd items Hclass)].
  apply (@engine_on_references env (S depth) options [(metadata, u)]).
  unfold RDFURNConverter_batch, iterkeys. cbv zeta.
  cbn [map fst snd flat_map app Dict.of_pairs fold_left Dict.set Dict.keys
       sort_by insert_by].
  unfold MultiOpen. cbn [flat_map]. rewrite Hstore.
  cbn [app sort_by insert_by Res.mapM fst snd].
  unfold Dict.getitem. cbn [Dict.get].
  rewrite Hurn, String.eqb_refl. reflexivity.
Qed.

Lemma referenced_collection_converted_with_default_options_witness :
  ConvertValuesWithMetadata Examples2.env3
    (ExportConverter_classes Examples2.env3 2)
    [(Examples.metadata1, RDFURN_ (urn Examples.collection_fd))]
    (Some (mkOptions true true))
  = G.concat
      (map (fun batch =>
              ConvertValuesWithMetadata Examples2.env3
                (ExportConverter_classes Examples2.env3 0)
                (map (fun obj => (Examples.metadata1, obj)) batch)
                (Some ExportOptions_default))
         (Grouper [Process_ Examples.process1; Process_ Examples.process2]
            BATCH_SIZE)).
Proof.
  exact (@referenced_collection_converted_with_default_options Examples2.env3
           0 (Some (mkOptions true true)) Examples.metadata1
           (urn Examples.collection_fd) Examples.collection_fd
           [Process_ Examples.process1; Process_ Examples.process2]
           eq_refl eq_refl eq_refl).
Defined.

(** ** File store hashes *)

Lemma mapM_Ok_Forall2 {A B : Type} (f : A -> Result B) (xs : list A)
    (ys : list B) :
  Res.mapM f xs = Ok ys -> Forall2 (fun x y => f x = Ok y) xs ys.
Proof.
  revert ys. induction xs as [|x xs IH]; intros ys.
  - intros [= <-]. constructor.
  - cbn [Res.mapM]. destruct (f x) as [y|e] eqn:Hx; [|discriminate].
    cbn [Res.bind]. destruct (Res.mapM f xs) as [ys'|e]; [|discriminate].
    cbn [Res.bind]. intros [= <-]. constructor; [exact Hx|now apply IH].
Qed.

Lemma mapM_Raise_In {A B : Type} (f : A -> Result B) (xs : list A)
    (e : PyExc) :
  Res.mapM f xs = Raise e -> exists x, In x xs /\ f x = Raise e.
Proof.
  induction xs as [|x xs IH]; [discriminate|].
  cbn [Res.mapM]. destruct (f x) as [y|e'] eqn:Hx.
  - cbn [Res.bind]. destruct (Res.mapM f xs) as [ys'|e'']; [discriminate|].
    cbn [Res.bind]. intros [= ->]. destruct (IH eq_refl) as [x' [Hin Hx']].
    exists x'. split; [now right|exact Hx'].
  - cbn [Res.bind]. intros [= ->]. exists x. split; [now left|exact Hx].
Qed.

Lemma Forall2_In_l {A B : Type} (R : A -> B -> Prop) (xs : list A)
    (ys : list B) (x : A) :
  Forall2 R xs ys -> In x xs -> exists y, In y ys /\ R x y.
Proof.
  induction 1 as [|x0 y0 xs ys HR _ IH]; [intros []|].
  intros [->|Hin]; [exists y0; split; [now left|exact HR]|].
  destruct (IH Hin) as [y [Hy Hxy]]. exists y. split; [now right|exact Hxy].
Qed.

Section FileStoreHashFacts.
Variable env : Env.
Variable pairs : list (ExportedMetadata * FileStoreHash).

Lemma fold_set_last_hash (l : list (ExportedMetadata * FileStoreHash))
    (d : Dict.t FileStoreHash ExportedMetadata) (h : FileStoreHash) :
  Dict.get fsh_eqb
    (fold_left (fun d kv => Dict.set fsh_eqb d (fst kv) (snd kv))
       (map (fun '(metadata, u) => (u, metadata)) l) d) h
  = fold_left (fun found '(metadata, h') =>
                 if fsh_eqb h' h then Some metadata else found)
      l (Dict.get fsh_eqb d h).
Proof.
  revert d. induction l as [|[md h0] l IH]; intros d; [reflexivity|].
  cbn [map fold_left fst snd]. rewrite IH. f_equal.
  destruct (fsh_eqb h0 h) eqn:E.
  - apply (@get_set_same _ _ _ fsh_eqb fsh_urn fsh_eqb_ident).
    now apply fsh_eqb_ident.
  - apply (@get_set_other _ _ _ fsh_eqb fsh_urn fsh_eqb_ident).
    now apply (@eqb_false_ident _ _ fsh_eqb fsh_urn fsh_eqb_ident).
Qed.

(** [urns_dict] *)
Lemma urns_dict_last (h : FileStoreHash) :
  Dict.get fsh_eqb
    (Dict.of_pairs fsh_eqb (map (fun '(metadata, u) => (u, metadata)) pairs))
    h
  = last_hash_metadata h pairs.
Proof. apply fold_set_last_hash. Qed.

Lemma last_hash_metadata_known (h : FileStoreHash) :
  hash_in_batch h pairs = true
  <-> exists metadata, last_hash_metadata h pairs = Some metadata.
Proof.
  unfold hash_in_batch, last_hash_metadata.
  assert (H : forall found,
             exists r,
               fold_left (fun found '(metadata, h') =>
                            if fsh_eqb h' h then Some metadata else found)
                 pairs found = r
               /\ (existsb (fun p => fsh_eqb (snd p) h) pairs = true ->
                   exists metadata, r = Some metadata)
               /\ (existsb (fun p => fsh_eqb (snd p) h) pairs = false ->
                   r = found)).
  { induction pairs as [|[md h0] l IH]; intros found.
    - exists found. split; [reflexivity|]. split; [discriminate|reflexivity].
    - cbn [fold_left existsb snd].
      destruct (fsh_eqb h0 h) eqn:E; cbn [orb].
      + destruct (IH (Some md)) as [r [Hr [Ht Hf]]].
        exists r. split; [exact Hr|]. split; [|discriminate].
        intros _. destruct (existsb (fun p => fsh_eqb (snd p) h) l);
          [now apply Ht|]. exists md. now apply Hf.
      + destruct (IH found) as [r [Hr [Ht Hf]]].
        exists r. auto. }
  destruct (H None) as [r [Hr [Ht Hf]]]. rewrite Hr. split.
  - exact Ht.
  - intros [md Hmd].
    destruct (existsb (fun p => fsh_eqb (snd p) h) pairs); [reflexivity|].
    rewrite (Hf eq_refl) in Hmd. discriminate.
Qed.

(** What one hit gives. *)
Lemma hit_converted (h : FileStoreHash) (hit : RDFURN) (out : Exported) :
  Res.bind
    (Dict.getitem fsh_eqb
       (Dict.of_pairs fsh_eqb
          (map (fun '(metadata, u) => (u, metadata)) pairs)) h)
    (fun metadata =>
       Res.bind (first_item (Split env hit 2)) (fun client =>
       let metadata := set_client_urn client metadata in
       Ok (ExportedFileStoreHash_
             (mkExportedFileStoreHash metadata (hash_value h)
                (fingerprint_type h) (hash_type h) hit))))
  = Ok out
  <-> exists metadata client rest,
        last_hash_metadata h pairs = Some metadata
        /\ Split env hit 2 = client :: rest
        /\ out = ExportedFileStoreHash_
                   (mkExportedFileStoreHash (set_client_urn client metadata)
                      (hash_value h) (fingerprint_type h) (hash_type h) hit).
Proof.
  unfold Dict.getitem. rewrite urns_dict_last.
  destruct (last_hash_metadata h pairs) as [md|]; cbn [Res.bind].
  - destruct (Split env hit 2) as [|client rest]; cbn [first_item Res.bind].
    + split; [discriminate|]. intros [? [? [? [_ [H _]]]]]. discriminate.
    + split.
      * intros [= <-]. exists md, client, rest. auto.
      * intros [md' [c' [r' [[= <-] [[= <- <-] ->]]]]]. reflexivity.
  - split; [discriminate|]. intros [? [? [? [H _]]]]. discriminate.
Qed.

Lemma hit_fails (h : FileStoreHash) (hit : RDFURN) (e : PyExc) :
  Res.bind
    (Dict.getitem fsh_eqb
       (Dict.of_pairs fsh_eqb
          (map (fun '(metadata, u) => (u, metadata)) pairs)) h)
    (fun metadata =>
       Res.bind (first_item (Split env hit 2)) (fun client =>
       let metadata := set_client_urn client metadata in
       Ok (ExportedFileStoreHash_
             (mkExportedFileStoreHash metadata (hash_value h)
                (fingerprint_type h) (hash_type h) hit))))
  = Raise e
  -> e = KeyError \/ e = IndexError.
Proof.
  unfold Dict.getitem.
  destruct (Dict.get fsh_eqb _ h) as [md|]; cbn [Res.bind].
  - destruct (Split env hit 2) as [|client rest]; cbn [first_item Res.bind].
    + intros [= <-]. now right.
    + discriminate.
  - intros [= <-]. now left.
Qed.

(** What a successful conversion returns. *)
Lemma hashes_converted (results : list Exported) :
  FileStoreHashConverter_BatchConvert env pairs = Ok results ->
  Forall2
    (fun (hh : FileStoreHash * RDFURN) (out : Exported) =>
       exists metadata client rest,
         last_hash_metadata (fst hh) pairs = Some metadata
         /\ Split env (snd hh) 2 = client :: rest
         /\ out = ExportedFileStoreHash_
                    (mkExportedFileStoreHash (set_client_urn client metadata)
                       (hash_value (fst hh)) (fingerprint_type (fst hh))
                       (hash_type (fst hh)) (snd hh)))
    (index_hits env pairs) results.
Proof.
  unfold FileStoreHashConverter_BatchConvert, index_hits. cbv zeta.
  destruct (Res.mapM _ (GetHitsForHashes env (map snd pairs)))
    as [groups|e] eqn:Hm; [|discriminate].
  cbn [Res.bind]. intros [= <-].
  apply mapM_Ok_Forall2 in Hm.
  apply Forall2_concat_map.
  eapply Forall2_impl; [|exact Hm].
  intros [h hits] res Hres. cbn [fst snd].
  apply mapM_Ok_Forall2 in Hres.
  eapply Forall2_impl; [|exact Hres].
  intros hit out Hout. now apply hit_converted.
Qed.
End FileStoreHashFacts.

(** A failed conversion failed at one hit of the index. *)
Lemma hashes_fail (env : Env)
    (pairs : list (ExportedMetadata * FileStoreHash)) (e : PyExc) :
  FileStoreHashConverter_BatchConvert env pairs = Raise e ->
  exists h hit,
    In (h, hit) (index_hits env pairs)
    /\ Res.bind
         (Dict.getitem fsh_eqb
            (Dict.of_pairs fsh_eqb
               (map (fun '(metadata, u) => (u, metadata)) pairs)) h)
         (fun metadata =>
            Res.bind (first_item (Split env hit 2)) (fun client =>
            let metadata := set_client_urn client metadata in
            Ok (ExportedFileStoreHash_
                  (mkExportedFileStoreHash metadata (hash_value h)
                     (fingerprint_type h) (hash_type h) hit))))
       = Raise e.
Proof.
  unfold FileStoreHashConverter_BatchConvert, index_hits. cbv zeta.
  destruct (Res.mapM _ (GetHitsForHashes env (map snd pairs)))
    as [groups|e'] eqn:Hm; [discriminate|].
  cbn [Res.bind]. intros [= ->].
  apply mapM_Raise_In in Hm. destruct Hm as [[h hits] [Hin Hm]].
  apply mapM_Raise_In in Hm. destruct Hm as [hit [Hhit Hm]].
  exists h, hit. split; [|exact Hm].
  apply in_flat_map. exists (h, hits). split; [exact Hin|].
  cbn [fst snd]. apply in_map_iff. eauto.
Qed.

(** X19. File store hashes: the conversion succeeds exactly when every
    hit the index returns belongs to a hash of the batch and splits into
    at least one component.  Otherwise it raises KeyError (a hit for a
    hash that was not asked for) or IndexError (a hit without components)
    and returns nothing, also not the records of the hits before the
    failing one. *)
Theorem file_store_hashes_converted_iff_hits_match_batch :
  forall (env : Env)
         (metadata_value_pairs : list (ExportedMetadata * FileStoreHash)),
    ((exists results,
        FileStoreHashConverter_BatchConvert env metadata_value_pairs
        = Ok results)
     <-> (forall h hit,
            In (h, hit) (index_hits env metadata_value_pairs) ->
            hash_in_batch h metadata_value_pairs = true
            /\ Split env hit 2 <> []))
    /\ (forall e,
          FileStoreHashConverter_BatchConvert env metadata_value_pairs
          = Raise e ->
          e = KeyError \/ e = IndexError).
Proof.
  intros env pairs. split; [split|].
  - intros [results Hres] h hit Hin.
    destruct (@Forall2_In_l _ _ _ _ _ (h, hit)
                (@hashes_converted env pairs results Hres) Hin)
      as [out [_ [md [client [rest [Hmd [Hsplit _]]]]]]].
    cbn [fst snd] in *. split.
    + apply last_hash_metadata_known. eauto.
    + rewrite Hsplit. discriminate.
  - intros Hall.
    destruct (FileStoreHashConverter_BatchConvert env pairs)
      as [results|e] eqn:Hrun; [eauto|].
    exfalso. destruct (@hashes_fail env pairs e Hrun) as [h [hit [Hin Hf]]].
    destruct (Hall h hit Hin) as [Hknown Hsplit].
    apply last_hash_metadata_known in Hknown. destruct Hknown as [md Hmd].
    destruct (Split env hit 2) as [|client rest] eqn:Es; [congruence|].
    assert (Hok : exists metadata client0 rest0,
               last_hash_metadata h pairs = Some metadata
               /\ Split env hit 2 = client0 :: rest0
               /\ ExportedFileStoreHash_
                    (mkExportedFileStoreHash (set_client_urn client md)
                       (hash_value h) (fingerprint_type h) (hash_type h) hit)
                  = ExportedFileStoreHash_
                      (mkExportedFileStoreHash
                         (set_client_urn client0 metadata)
                         (hash_value h) (fingerprint_type h) (hash_type h)
                         hit))
      by (exists md, client, rest; auto).
    apply hit_converted in Hok. rewrite Es in Hok. congruence.
  - intros e Hrun.
    destruct (@hashes_fail env pairs e Hrun) as [h [hit [_ Hf]]].
    exact (@hit_fails env pairs h hit e Hf).
Qed.

(** X20. File store hashes: what a successful conversion returns is one
    record per (hash, hit) pair of the index, in its order, and when a
    hash occurs in several pairs of the batch, the metadata of its records
    is that of the last of them, with [client_urn] replaced by the first
    component of the hit. *)
Theorem file_store_hash_records_carry_last_metadata :
  forall (env : Env)
         (metadata_value_pairs : list (ExportedMetadata * FileStoreHash))
         (results : list Exported),
    FileStoreHashConverter_BatchConvert env metadata_value_pairs = Ok results ->
    Forall2
      (fun (hh : FileStoreHash * RDFURN) (out : Exported) =>
         exists metadata client rest,
           last_hash_metadata (fst hh) metadata_value_pairs = Some metadata
           /\ Split env (snd hh) 2 = client :: rest
           /\ out = ExportedFileStoreHash_
                      (mkExportedFileStoreHash
                         (set_client_urn client metadata)
                         (hash_value (fst hh)) (fingerprint_type (fst hh))
                         (hash_type (fst hh)) (snd hh)))
      (index_hits env metadata_value_pairs) results.
Proof.
  intros env pairs results. apply hashes_converted.
Qed.

Lemma file_store_hash_records_carry_last_metadata_witness :
  let pairs := [(Examples.metadata1, Examples.hash1);
                (Examples2.metadata2, Examples.hash1)] in
  let record hit :=
    ExportedFileStoreHash_
      (mkExportedFileStoreHash (set_client_urn hit Examples2.metadata2)
         "0a0b" "generic" "sha256" hit) in
  let results :=
    [record "aff4:/C.0000000000000001/fs/os/bin/ls";
     record "aff4:/C.0000000000000002/fs/os/bin/ls";
     record "aff4:/C.0000000000000001/fs/os/bin/ls";
     record "aff4:/C.0000000000000002/fs/os/bin/ls"] in
  FileStoreHashConverter_BatchConvert Examples.env2 pairs = Ok results
  /\ Forall2
       (fun (hh : FileStoreHash * RDFURN) (out : Exported) =>
          exists metadata client rest,
            last_hash_metadata (fst hh) pairs = Some metadata
            /\ Split Examples.env2 (snd hh) 2 = client :: rest
            /\ out = ExportedFileStoreHash_
                       (mkExportedFileStoreHash
                          (set_client_urn client metadata)
                          (hash_value (fst hh)) (fingerprint_type (fst hh))
                          (hash_type (fst hh)) (snd hh)))
       (index_hits Examples.env2 pairs) results.
Proof.
  intros pairs record results. split; [reflexivity|].
  exact (@file_store_hash_records_carry_last_metadata Examples.env2 pairs
           results eq_refl).
Defined.

(** The metadata [urns_dict] holds for a hash is that of a pair of the
    batch with this hash. *)
Lemma last_hash_metadata_In
    (pairs : list (ExportedMetadata * FileStoreHash)) (h : FileStoreHash)
    (metadata : ExportedMetadata) :
  last_hash_metadata h pairs = Some metadata ->
  exists h', In (metadata, h') pairs /\ fsh_urn h' = fsh_urn h.
Proof.
  intros Hlast. rewrite <- urns_dict_last in Hlast.
  apply (@get_of_pairs_In _ _ _ fsh_eqb fsh_urn fsh_eqb_ident) in Hlast.
  destruct Hlast as [h' [Hin Hh']].
  apply in_map_iff in Hin. destruct Hin as [[m u] [[= -> ->] Hin]].
  exists h'. auto.
Qed.

Lemma set_client_urn_fields (client : RDFURN) (metadata : ExportedMetadata) :
  client_urn (set_client_urn client metadata) = client
  /\ same_but_client_urn (set_client_urn client metadata) metadata.
Proof. unfold same_but_client_urn. cbn. repeat split. Qed.

(** C10 (amended). [FileStoreHashConverter.BatchConvert] answers for the
    (hash, hit) pairs the hash index returns.  When every one of them is
    for a hash of the batch and has a hit that [Split(2)] cuts into at
    least one part, the call returns exactly one [ExportedFileStoreHash]
    per (hash, hit) pair, in the order of the index.  The record holds the
    fields of the hash and the hit; its metadata agrees on every field but
    [client_urn] with the metadata of the last pair of the batch that
    holds the hash, and its [client_urn] is the first element of
    [RDFURN(hit).Split(2)], one element of what [Split] returns and not
    two path components, whatever [client_urn] the caller gave.  When one
    pair of the index is for a hash that is not in the batch, or has a hit
    that [Split(2)] cuts into nothing, the call raises [KeyError] or
    [IndexError] and returns no record at all. *)
Theorem FileStoreHashConverter_one_output_per_hit :
  forall (env : Env)
         (metadata_value_pairs : list (ExportedMetadata * FileStoreHash)),
    ((forall h hit,
         In (h, hit) (index_hits env metadata_value_pairs) ->
         hash_in_batch h metadata_value_pairs = true
         /\ Split env hit 2 <> []) ->
     exists results,
       FileStoreHashConverter_BatchConvert env metadata_value_pairs
       = Ok results
       /\ Forall2
            (fun (hh : FileStoreHash * RDFURN) (out : Exported) =>
               exists record metadata h' client rest,
                 out = ExportedFileStoreHash_ record
                 /\ In (metadata, h') metadata_value_pairs
                 /\ fsh_urn h' = fsh_urn (fst hh)
                 /\ last_hash_metadata (fst hh) metadata_value_pairs
                    = Some metadata
                 /\ Split env (snd hh) 2 = client :: rest
                 /\ client_urn (fh_metadata record) = client
                 /\ same_but_client_urn (fh_metadata record) metadata
                 /\ fh_hash record = hash_value (fst hh)
                 /\ fh_fingerprint_type record = fingerprint_type (fst hh)
                 /\ fh_hash_type record = hash_type (fst hh)
                 /\ fh_target_urn record = snd hh)
            (index_hits env metadata_value_pairs) results)
    /\ ((exists h hit,
           In (h, hit) (index_hits env metadata_value_pairs)
           /\ (hash_in_batch h metadata_value_pairs = false
               \/ Split env hit 2 = [])) ->
        exists e,
          FileStoreHashConverter_BatchConvert env metadata_value_pairs
          = Raise e
          /\ (e = KeyError \/ e = IndexError)).
Proof.
  intros env pairs. split.
  - intros Hall.
    destruct (FileStoreHashConverter_BatchConvert env pairs)
      as [results|e] eqn:Hrun.
    + exists results. split; [reflexivity|].
      eapply Forall2_impl; [|exact (@hashes_converted env pairs results Hrun)].
      intros [h hit] out [metadata [client [rest [Hlast [Hsplit ->]]]]].
      cbn [fst snd] in *.
      destruct (@last_hash_metadata_In pairs h metadata Hlast)
        as [h' [Hin Hh']].
      destruct (set_client_urn_fields client metadata) as [Hclient Hsame].
      exists (mkExportedFileStoreHash (set_client_urn client metadata)
                (hash_value h) (fingerprint_type h) (hash_type h) hit),
        metadata, h', client, rest.
      cbn [fh_metadata fh_hash fh_fingerprint_type fh_hash_type fh_target_urn].
      repeat (split; [first [reflexivity|assumption]|]). reflexivity.
    + exfalso. destruct (@hashes_fail env pairs e Hrun) as [h [hit [Hin Hf]]].
      destruct (Hall h hit Hin) as [Hknown Hsplit].
      apply last_hash_metadata_known in Hknown. destruct Hknown as [md Hmd].
      unfold Dict.getitem in Hf. rewrite urns_dict_last, Hmd in Hf.
      cbn [Res.bind] in Hf.
      destruct (Split env hit 2) as [|client rest]; [congruence|].
      discriminate Hf.
  - intros [h [hit [Hin Hbad]]].
    destruct (FileStoreHashConverter_BatchConvert env pairs)
      as [results|e] eqn:Hrun.
    + exfalso.
      destruct (@Forall2_In_l _ _ _ _ _ (h, hit)
                  (@hashes_converted env pairs results Hrun) Hin)
        as [out [_ [md [client [rest [Hmd [Hsplit _]]]]]]].
      cbn [fst snd] in *. destruct Hbad as [Hbad|Hbad].
      * assert (Hknown : hash_in_batch h pairs = true)
          by (apply last_hash_metadata_known; eauto).
        congruence.
      * congruence.
    + exists e. split; [reflexivity|].
      destruct (@hashes_fail env pairs e Hrun) as [h0 [hit0 [_ Hf]]].
      exact (@hit_fails env pairs h0 hit0 e Hf).
Qed.

Lemma index_hits_env4_known :
  forall h hit,
    In (h, hit)
      (index_hits Examples2.env4 [(Examples.metadata1, Examples.hash1)]) ->
    hash_in_batch h [(Examples.metadata1, Examples.hash1)] = true
    /\ Split Examples2.env4 hit 2 <> [].
Proof.
  intros h hit [[= <- <-]|[[= <- <-]|[]]]; split;
    first [reflexivity|discriminate].
Qed.

Lemma FileStoreHashConverter_one_output_per_hit_witness :
  let pairs := [(Examples.metadata1, Examples.hash1)] in
  (forall h hit,
      In (h, hit) (index_hits Examples2.env4 pairs) ->
      hash_in_batch h pairs = true /\ Split Examples2.env4 hit 2 <> [])
  /\ exists results,
       FileStoreHashConverter_BatchConvert Examples2.env4 pairs = Ok results
       /\ List.length results = 2.
Proof.
  intros pairs. split; [exact index_hits_env4_known|].
  destruct (proj1 (FileStoreHashConverter_one_output_per_hit Examples2.env4
                     pairs) index_hits_env4_known)
    as [results [Hres HF]].
  exists results. split; [exact Hres|].
  apply Forall2_length in HF. rewrite <- HF. reflexivity.
Defined.

(** C10, the claim as it was stated fails.  With a [Split] that cuts the
    path of an address at its slashes, the [client_urn] of a record is the
    first path component of the hit and not its first two; when a hash is
    in two pairs of the batch, every record of it holds the metadata of
    the second pair; and when the index answers for a hash that is not in
    the batch, the call raises [KeyError] and no record is produced. *)
Theorem file_store_hash_client_is_first_component :
  let hit1 := "aff4:/C.0000000000000001/fs/os/bin/ls" in
  let hit2 := "aff4:/C.0000000000000002/fs/os/bin/ls" in
  let record metadata client hit :=
    ExportedFileStoreHash_
      (mkExportedFileStoreHash (set_client_urn client metadata)
         "0a0b" "generic" "sha256" hit) in
  Split Examples2.env4 hit1 3 = ["C.0000000000000001"; "fs"; "os/bin/ls"]
  /\ Split Examples2.env4 hit1 2 = ["C.0000000000000001"; "fs/os/bin/ls"]
  /\ FileStoreHashConverter_BatchConvert Examples2.env4
       [(Examples.metadata1, Examples.hash1)]
     = Ok [record Examples.metadata1 "C.0000000000000001" hit1;
           record Examples.metadata1 "C.0000000000000002" hit2]
  /\ FileStoreHashConverter_BatchConvert Examples2.env4
       [(Examples.metadata1, Examples.hash1);
        (Examples2.metadata2, Examples.hash1)]
     = Ok [record Examples2.metadata2 "C.0000000000000001" hit1;
           record Examples2.metadata2 "C.0000000000000002" hit2;
           record Examples2.metadata2 "C.0000000000000001" hit1;
           record Examples2.metadata2 "C.0000000000000002" hit2]
  /\ Examples.metadata1 <> Examples2.metadata2
  /\ index_hits Examples2.env5 [(Examples.metadata1, Examples.hash1)]
     = [(Examples2.hash2, hit1)]
  /\ FileStoreHashConverter_BatchConvert Examples2.env5
       [(Examples.metadata1, Examples.hash1)]
     = Raise KeyError.
Proof.
  intros hit1 hit2 record.
  split; [reflexivity|]. split; [reflexivity|]. split; [reflexivity|].
  split; [reflexivity|]. split; [discriminate|].
  split; reflexivity.
Qed.

(** ** Stat entries given to the engine *)

(** The registry converter on a batch whose registry data [str] can
    encode. *)
Lemma registry_batch (entries : list (ExportedMetadata * StatEntry)) :
  (forall p, In p entries -> is_registry_entry p = true ->
             exists data, py_str (registry_data (snd p)) = Ok data) ->
  exists keys,
    ExportConverter_BatchConvert StatEntryToExportedRegistryKeyConverter_Convert
      entries
    = G.of_list (map ExportedRegistryKey_ keys)
    /\ Forall2 (fun p k =>
                  k = mkExportedRegistryKey (fst p) (aff4path (snd p))
                        (st_mtime (snd p)) (registry_type (snd p)) (rk_data k)
                  /\ py_str (registry_data (snd p)) = Ok (rk_data k))
         (filter is_registry_entry entries) keys.
Proof.
  rewrite BatchConvert_default_concat_lemma.
  induction entries as [|[md se] entries IH]; intros Hdata.
  - exists []. split; [reflexivity|constructor].
  - destruct IH as [keys [Hrun Hall]];
      [intros p Hp; apply Hdata; now right|].
    cbn [map G.concat fold_right filter fst snd].
    change (fold_right G.app (G.ret tt) ?l) with (G.concat l).
    rewrite Hrun.
    unfold is_registry_entry at 1, is_file_entry at 1. cbn [snd].
    destruct (registry_type se) as [t|] eqn:Hreg; cbn [negb].
    + destruct (Hdata (md, se) (or_introl eq_refl)) as [data Hstr].
      { unfold is_registry_entry, is_file_entry. cbn [snd].
        now rewrite Hreg. }
      cbn [snd] in Hstr.
      rewrite (@registry_key_decodable_data md se data)
        by (try exact Hstr; rewrite Hreg; discriminate).
      exists (mkExportedRegistryKey md (aff4path se) (st_mtime se)
                (registry_type se) data :: keys).
      split; [reflexivity|]. constructor; [|exact Hall].
      cbn [fst snd rk_data]. split; [reflexivity|exact Hstr].
    + unfold StatEntryToExportedRegistryKeyConverter_Convert. rewrite Hreg.
      exists keys. split; [reflexivity|exact Hall].
Qed.

(** X21. Stat entries given to the engine: when the reads of the store
    end in a result or in an exception the file converter handles, and
    [str] can encode the data of every registry value, every stat entry is
    exported exactly once and nothing is raised: the entries that are
    files come out as one block of [ExportedFile] records with their stat
    fields, the registry values as one block of [ExportedRegistryKey]
    records holding the address, the modification time and the type of
    the entry and its data as a string.  Each block is in the order of
    the batch; which of the two comes first is the order the registry
    gives the two converters, which the source does not fix. *)
Theorem stat_entries_exported_once_each :
  forall (env : Env) (depth : nat) (options : option ExportOptions)
         (entries : list (ExportedMetadata * StatEntry)),
    (export_files_contents (options_or_default options) = true ->
     forall u fd, store env u = Some fd ->
       read_handled (Read (fst fd) MAX_CONTENT_SIZE) = true) ->
    (forall p, In p entries -> is_registry_entry p = true ->
               exists data, py_str (registry_data (snd p)) = Ok data) ->
    exists files keys blocks,
      Permutation blocks
        [map ExportedFile_ files; map ExportedRegistryKey_ keys]
      /\ ConvertValuesWithMetadata env (ExportConverter_classes env depth)
           (map (fun p => (fst p, StatEntry_ (snd p))) entries) options
         = G.of_list (List.concat blocks)
      /\ Forall2 (fun p r =>
                    stat_fields_only r = ExportedFile_of (fst p) (snd p))
           (filter is_file_entry entries) files
      /\ Forall2 (fun p k =>
                    k = mkExportedRegistryKey (fst p) (aff4path (snd p))
                          (st_mtime (snd p)) (registry_type (snd p))
                          (rk_data k)
                    /\ py_str (registry_data (snd p)) = Ok (rk_data k))
           (filter is_registry_entry entries) keys
      /\ (List.length files + List.length keys = List.length entries)%nat.
Proof.
  intros env depth options entries Hread Hdata.
  destruct (@file_batch_shape env (options_or_default options) entries Hread)
    as [files [Hfiles Hf]].
  destruct (registry_batch entries Hdata) as [keys [Hkeys Hk]].
  assert (Hlen : (List.length files + List.length keys
                  = List.length entries)%nat).
  { rewrite <- (Forall2_length Hf), <- (Forall2_length Hk).
    unfold is_registry_entry. clear.
    induction entries as [|p entries IH]; [reflexivity|].
    cbn [filter List.length]. destruct (is_file_entry p); cbn [negb List.length];
      lia. }
  assert (Hf' : Forall2 (fun p r =>
                    stat_fields_only r = ExportedFile_of (fst p) (snd p))
                  (filter is_file_entry entries) files)
    by (eapply Forall2_impl; [|exact Hf]; intros p r [H _]; exact H).
  set (file_class :=
         plain_class "StatEntryToExportedFileConverter" "StatEntry"
           (fun options =>
              on_class as_StatEntry (fun pairs =>
                G.call (StatEntryToExportedFileConverter_BatchConvert env
                          options pairs)))).
  set (key_class :=
         plain_class "StatEntryToExportedRegistryKeyConverter" "StatEntry"
           (default_batch as_StatEntry
              (fun _ => StatEntryToExportedRegistryKeyConverter_Convert))).
  set (block := fun c : ConverterClass =>
         if String.eqb (cls_name c) "StatEntryToExportedFileConverter"
         then map ExportedFile_ files else map ExportedRegistryKey_ keys).
  exists files, keys.
  destruct entries as [|[md se] rest].
  - exists [[]; []]. inversion Hf; subst. inversion Hk; subst.
    split; [reflexivity|]. split; [reflexivity|]. auto.
  - exists (map block
              (sort_by (fun cls => class_rank env (cls_name cls))
                 [file_class; key_class])).
    split; [|split; [|auto]].
    + change [map ExportedFile_ files; map ExportedRegistryKey_ keys]
        with (map block [file_class; key_class]).
      apply Permutation_map, sort_by_Permutation.
    + set (typed := (md, se) :: rest) in *.
      pose proof (@mapM_cast_typed StatEntry as_StatEntry StatEntry_
                    typed (fun x => eq_refl)) as Hm.
      change (map (fun p0 => (fst p0, StatEntry_ (snd p0))) typed)
        with ((md, StatEntry_ se)
                :: map (fun p0 => (fst p0, StatEntry_ (snd p0))) rest)
        in Hm |- *.
      assert (Hone : forall q : Pair,
                 In q (map (fun p0 => (fst p0, StatEntry_ (snd p0))) rest) ->
                 class_name (snd q) = class_name (StatEntry_ se)).
      { intros q Hq. apply in_map_iff in Hq. destruct Hq as [x [<- _]].
        reflexivity. }
      rewrite <- flat_map_concat_map.
      apply (@engine_one_class_clean env depth options md (StatEntry_ se)
               _ [file_class; key_class] block Hone).
      * destruct depth; reflexivity.
      * discriminate.
      * intros c [<-|[<-|[]]].
        -- exists (on_class as_StatEntry (fun pairs =>
                     G.call (StatEntryToExportedFileConverter_BatchConvert env
                               (options_or_default options) pairs))).
           split; [destruct options; reflexivity|].
           unfold on_class. cbn [BatchConvert]. rewrite Hm.
           cbn [Res.bind G.call G.consume]. exact Hfiles.
        -- exists (default_batch as_StatEntry
                     (fun _ => StatEntryToExportedRegistryKeyConverter_Convert)
                     (options_or_default options)).
           split; [destruct options; reflexivity|].
           rewrite (default_batch_unfold _ _ _ _ Hm).
           cbn [G.consume]. exact Hkeys.
Qed.

Lemma stat_entries_exported_once_each_witness :
  exists files keys blocks,
    Permutation blocks
      [map ExportedFile_ files; map ExportedRegistryKey_ keys]
    /\ ConvertValuesWithMetadata Examples2.env3
         (ExportConverter_classes Examples2.env3 0)
         [(Examples.metadata1, StatEntry_ Examples2.run_key_entry);
          (Examples.metadata1, StatEntry_ Examples.file_entry);
          (Examples.metadata1, StatEntry_ Examples2.shadow_entry)]
         (Some (mkOptions true true))
       = G.of_list (List.concat blocks)
    /\ List.length files = 2%nat /\ List.length keys = 1%nat.
Proof.
  destruct (@stat_entries_exported_once_each Examples2.env3 0
              (Some (mkOptions true true))
              [(Examples.metadata1, Examples2.run_key_entry);
               (Examples.metadata1, Examples.file_entry);
               (Examples.metadata1, Examples2.shadow_entry)])
    as [files [keys [blocks [Hperm [Hrun [Hf [Hk _]]]]]]].
  - intros _ u fd Hfd.
    destruct (store_env3 _ Hfd) as [->|[->| ->]]; reflexivity.
  - intros p [<-|[<-|[<-|[]]]] Hp; try discriminate Hp.
    exists "updater.exe". reflexivity.
  - exists files, keys, blocks. split; [exact Hperm|]. split; [exact Hrun|].
    apply Forall2_length in Hf. apply Forall2_length in Hk.
    split; symmetry; [exact Hf|exact Hk].
Defined.

(** ** Construction of the registered converters *)

(** X22. The registry: the construction the engine and the message
    converter perform, [cls(options)], succeeds for every registered
    converter class that does not take [VolatilityResult] values, with or
    without options and at every depth of re-entry; the classes that take
    [VolatilityResult] values are the only ones it fails for. *)
Theorem every_other_converter_can_be_constructed :
  forall (env : Env) (depth : nat) (options : option ExportOptions)
         (cls : ConverterClass),
    In cls (ExportConverter_classes env depth) ->
    (input_rdf_type cls <> "VolatilityResult" ->
     exists converter, construct cls [options] = Ok converter)
    /\ (input_rdf_type cls = "VolatilityResult" ->
        construct cls [options] = Raise TypeError).
Proof.
  intros env depth options cls Hin.
  assert (Hin' : In cls (registered env
                           (match depth with
                            | O => None
                            | S depth' => Some (ExportConverter_classes env depth')
                            end)))
    by (apply registry_In; exact Hin).
  clear Hin. unfold registered in Hin'. cbv zeta in Hin'.
  repeat (destruct Hin' as [<-|Hin'];
          [split;
           [intros Hv; try (exfalso; apply Hv; reflexivity);
            destruct options; eexists; reflexivity
           |intros Hv; try discriminate Hv; reflexivity]|]).
  destruct Hin'.
Qed.

Lemma every_other_converter_can_be_constructed_witness :
  exists converter,
    construct
      (plain_class "ClientSummaryToExportedClientConverter" "ClientSummary"
         (default_batch as_ClientSummary
            (fun _ => ClientSummaryToExportedClientConverter_Convert)))
      [Some (mkOptions true false)]
    = Ok converter.
Proof.
  destruct (@every_other_converter_can_be_constructed Examples.env1 1
              (Some (mkOptions true false))
              (plain_class "ClientSummaryToExportedClientConverter"
                 "ClientSummary"
                 (default_batch as_ClientSummary
                    (fun _ => ClientSummaryToExportedClientConverter_Convert))))
    as [H _].
  - apply registry_In. unfold registered.
    do 8 right. left. reflexivity.
  - apply H. discriminate.
Defined.
